(** * Ship Lens extraction pipeline: a shallow embedding and its properties

    The development follows the Python sources:
    - [scripts/extract_component_hp.py]  (component catalogue, record merge),
    - [src/extract_ship_parts_comprehensive.py]  (hardpoint mapping,
      classification, resolution, aggregation),
    - [scripts/extract_ship_loadouts.py]  (recursive loadout walk),
    - [scripts/fix_missiles.py]  (missile rack extraction).

    Python [int] is [Z]; [str] is [string] (identifiers are ASCII);
    a [dict] whose iteration order is never observed is a [gmap], a [dict]
    that the code iterates is an insertion-ordered association list. *)

From Stdlib Require Import ZArith Lia List Bool.
From Stdlib Require Import String Ascii.
From stdpp Require Import gmap strings list fin_maps.
From Equations Require Import Equations.
Import ListNotations.

#[local] Set Warnings "-register-all".
Local Open Scope string_scope.
Local Open Scope list_scope.
Local Open Scope Z_scope.

(** ** Python string primitives *)

Module PyStr.

Definition is_upper (c : ascii) : bool :=
  let n := nat_of_ascii c in Nat.leb 65 n && Nat.leb n 90.

Definition is_lower (c : ascii) : bool :=
  let n := nat_of_ascii c in Nat.leb 97 n && Nat.leb n 122.

Definition is_digit (c : ascii) : bool :=
  let n := nat_of_ascii c in Nat.leb 48 n && Nat.leb n 57.

Definition lower_char (c : ascii) : ascii :=
  if is_upper c then ascii_of_nat (nat_of_ascii c + 32)%nat else c.

Definition upper_char (c : ascii) : ascii :=
  if is_lower c then ascii_of_nat (nat_of_ascii c - 32)%nat else c.

(** [s.lower()] and [s.upper()] *)
Fixpoint lower (s : string) : string :=
  match s with
  | EmptyString => EmptyString
  | String c t => String (lower_char c) (lower t)
  end.

Fixpoint upper (s : string) : string :=
  match s with
  | EmptyString => EmptyString
  | String c t => String (upper_char c) (upper t)
  end.

(** [s.startswith(p)] *)
Fixpoint startswith (s p : string) : bool :=
  match p, s with
  | EmptyString, _ => true
  | String a p', String b s' => Ascii.eqb a b && startswith s' p'
  | String _ _, EmptyString => false
  end.

(** [sub in s] *)
Fixpoint contains (sub s : string) : bool :=
  startswith s sub ||
  match s with
  | EmptyString => false
  | String _ t => contains sub t
  end.

(** [s.endswith(suf)] *)
Fixpoint endswith (s suf : string) : bool :=
  String.eqb s suf ||
  match s with
  | EmptyString => false
  | String _ t => endswith t suf
  end.

(** [s.replace(old, new)] for a non-empty [old]: leftmost, non-overlapping
    occurrences.  [skip] counts the characters of an occurrence of [old]
    that are still to be dropped. *)
Fixpoint replace_from (skip : nat) (old new s : string) : string :=
  match s with
  | EmptyString => EmptyString
  | String c t =>
      match skip with
      | S k => replace_from k old new t
      | O =>
          if startswith s old
          then String.append new (replace_from (String.length old - 1)%nat old new t)
          else String c (replace_from O old new t)
      end
  end.

(** With an empty [old] Python puts [new] before every character and at
    the end. *)
Fixpoint intersperse (new s : string) : string :=
  match s with
  | EmptyString => new
  | String c t => String.append new (String c (intersperse new t))
  end.

Definition replace (s old new : string) : string :=
  match old with
  | EmptyString => intersperse new s
  | String _ _ => replace_from O old new s
  end.

End PyStr.

Notation "a 'in_str' b" := (PyStr.contains a b) (at level 70, no associativity).

(** ** Data model *)

(** *** XML elements as [xml.etree.ElementTree] gives them *)

Inductive elem : Type :=
  Elem (tag : string) (attrib : gmap string string) (children : list elem).

Definition tag_of (e : elem) : string := let 'Elem t _ _ := e in t.
Definition attrib_of (e : elem) : gmap string string := let 'Elem _ a _ := e in a.
Definition children_of (e : elem) : list elem := let 'Elem _ _ c := e in c.

(** [e.get(name, '')] *)
Definition get_attr (e : elem) (name : string) : string :=
  default "" (attrib_of e !! name).

(** All proper descendants in document order. *)
Fixpoint descendants (e : elem) : list elem :=
  match e with
  | Elem _ _ cs => flat_map (fun c => c :: descendants c) cs
  end.

(** [e.findall('.//tag')]: the proper descendants with that tag. *)
Definition findall (tag : string) (e : elem) : list elem :=
  filter (fun d => tag_of d = tag) (descendants e).

(** [e.iter(tag)]: the element itself, then its descendants, with that tag. *)
Definition iter (tag : string) (e : elem) : list elem :=
  filter (fun d => tag_of d = tag) (e :: descendants e).

Definition ENTRY : string := "SItemPortLoadoutEntryParams".
Definition NULL_GUID : string := "00000000-0000-0000-0000-000000000000".

(** *** JSON values as [json.load] gives them *)

(** A Python [float]: not-a-number, an infinity, or the dyadic number
    [m * 2^e]. *)
Inductive pyfloat : Type :=
| FNan
| FInf (negative : bool)
| FFin (m e : Z).

Inductive json : Type :=
| JNull
| JBool (b : bool)
| JInt (z : Z)
| JFloat (f : pyfloat)
| JStr (s : string)
| JArr (l : list json)
| JObj (o : gmap string json).

(** [f == v] for a float and an int: Python compares the exact values. *)
Definition float_eq_int (f : pyfloat) (v : Z) : bool :=
  match f with
  | FFin m e => if 0 <=? e then m * 2 ^ e =? v else m =? v * 2 ^ (- e)
  | _ => false
  end.

(** [j == v] for a stored JSON value and an int. *)
Definition py_eq_int (j : json) (v : Z) : bool :=
  match j with
  | JBool b => (if b then 1 else 0) =? v
  | JInt z => z =? v
  | JFloat f => float_eq_int f v
  | _ => false
  end.

(** [d.get(key) != v]: an absent key gives [None], which differs from
    every int. *)
Definition get_ne (d : gmap string json) (key : string) (v : Z) : bool :=
  match d !! key with
  | Some j => negb (py_eq_int j v)
  | None => true
  end.

(** ** Insertion-ordered dictionaries

    A Python [dict] that the code iterates: the pairs in insertion order.
    Assigning to a key that is present replaces its value in place, and a
    new key goes to the end. *)

Abbreviation odict V := (list (string * V)).

Fixpoint dict_get {V} (d : odict V) (k : string) : option V :=
  match d with
  | [] => None
  | (k', v) :: d' => if String.eqb k' k then Some v else dict_get d' k
  end.

Fixpoint dict_set {V} (d : odict V) (k : string) (v : V) : odict V :=
  match d with
  | [] => [(k, v)]
  | (k', v') :: d' =>
      if String.eqb k' k then (k', v) :: d' else (k', v') :: dict_set d' k v
  end.

(** [k in d] *)
Definition dict_mem {V} (d : odict V) (k : string) : bool :=
  match dict_get d k with Some _ => true | None => false end.

(** [d.keys()] *)
Definition dict_keys {V} (d : odict V) : list string := map fst d.

(** ** [scripts/extract_component_hp.py] *)

Module ComponentHp.

(** *** [build_component_hp_lookup] *)

(** What the loop reads from one file.  [xml_health] is the [Health]
    attribute of the first [SHealthComponentParams] element, already taken
    through [int(float(.))]: absent, not convertible (the conversion
    raises), or the integer value. *)
Inductive health_attr : Type :=
| NoHealth
| BadHealth
| Health (hp : Z).

Record component_xml : Type := {
  xml_ref : string;            (* root_elem.get('__ref', '') *)
  xml_health : health_attr
}.

Record component_file : Type := {
  file_name : string;                  (* filename, with its extension *)
  file_xml : option component_xml      (* None: ET.parse raises *)
}.

Definition COMPONENT_DIRS : list (string * string) :=
  [ ("powerplant", "libs/foundry/records/entities/scitem/ships/powerplant");
    ("cooler", "libs/foundry/records/entities/scitem/ships/cooler");
    ("shield_generator", "libs/foundry/records/entities/scitem/ships/shieldgenerator");
    ("quantum_drive", "libs/foundry/records/entities/scitem/ships/quantumdrive");
    ("thruster", "libs/foundry/records/entities/scitem/ships/thrusters");
    ("turret", "libs/foundry/records/entities/scitem/ships/turret") ].

(** The two dictionaries under construction. *)
Definition lookups : Type := (gmap string Z * gmap string string)%type.

(** The body of the innermost loop, for one file name. *)
Definition add_file (st : lookups) (f : component_file) : lookups :=
  let '(component_hp, guid_lookup) := st in
  if negb (PyStr.endswith (file_name f) ".xml") then st
  else
    match file_xml f with
    | None => st                                   (* except: print *)
    | Some x =>
        let component_name := PyStr.replace (file_name f) ".xml" "" in
        let guid := xml_ref x in
        let guid_lookup :=
          if negb (String.eqb guid "") && negb (String.eqb guid NULL_GUID)
          then <[PyStr.lower guid := PyStr.lower component_name]> guid_lookup
          else guid_lookup in
        match xml_health x with
        | Health hp_value =>
            (<[PyStr.lower component_name := hp_value]> component_hp, guid_lookup)
        | BadHealth => (component_hp, guid_lookup)   (* except: print *)
        | NoHealth => (component_hp, guid_lookup)
        end
    end.

(** The key and the value that [add_file] stores in [component_hp] for a
    file, if it stores any. *)
Definition stored_hp (f : component_file) : option (string * Z) :=
  if PyStr.endswith (file_name f) ".xml" then
    match file_xml f with
    | Some x =>
        match xml_health x with
        | Health hp => Some (PyStr.lower (PyStr.replace (file_name f) ".xml" ""), hp)
        | _ => None
        end
    | None => None
    end
  else None.

(** [os.walk(component_dir)] yields the directories in traversal order,
    each with its file names; [None] is a directory that does not exist. *)
Definition walk_result : Type := option (list (list component_file)).

Definition add_dir (st : lookups) (w : walk_result) : lookups :=
  match w with
  | None => st                                     (* Warning, continue *)
  | Some dirs => fold_left (fun st files => fold_left add_file files st) dirs st
  end.

(** [os_walk] maps the relative path of a component directory to what
    [os.walk] enumerates there. *)
Definition build_component_hp_lookup (os_walk : string -> walk_result) : lookups :=
  fold_left (fun st '(component_type, rel_path) => add_dir st (os_walk rel_path))
            COMPONENT_DIRS (∅, ∅).

(** The files in the order the three nested loops reach them. *)
Definition traversal (os_walk : string -> walk_result) : list component_file :=
  flat_map (fun '(_, rel_path) =>
              match os_walk rel_path with
              | Some dirs => concat dirs
              | None => []
              end) COMPONENT_DIRS.

(** *** [extract_component_hp_from_ship] *)

Record hp_totals : Type := {
  turret_total_hp : Z;
  powerplant_total_hp : Z;
  cooler_total_hp : Z;
  shield_gen_total_hp : Z;
  qd_total_hp : Z;
  thruster_total_hp : Z
}.

Definition zero_totals : hp_totals := Build_hp_totals 0 0 0 0 0 0.

(** [hp_totals.items()], in the order the literal lists the keys. *)
Definition items (h : hp_totals) : list (string * Z) :=
  [ ("turret_total_hp", turret_total_hp h);
    ("powerplant_total_hp", powerplant_total_hp h);
    ("cooler_total_hp", cooler_total_hp h);
    ("shield_gen_total_hp", shield_gen_total_hp h);
    ("qd_total_hp", qd_total_hp h);
    ("thruster_total_hp", thruster_total_hp h) ].

(** [hp_totals[component_type] += hp] *)
Definition add_to (h : hp_totals) (component_type : string) (hp : Z) : hp_totals :=
  if String.eqb component_type "turret_total_hp" then
    Build_hp_totals (turret_total_hp h + hp) (powerplant_total_hp h) (cooler_total_hp h)
                    (shield_gen_total_hp h) (qd_total_hp h) (thruster_total_hp h)
  else if String.eqb component_type "powerplant_total_hp" then
    Build_hp_totals (turret_total_hp h) (powerplant_total_hp h + hp) (cooler_total_hp h)
                    (shield_gen_total_hp h) (qd_total_hp h) (thruster_total_hp h)
  else if String.eqb component_type "cooler_total_hp" then
    Build_hp_totals (turret_total_hp h) (powerplant_total_hp h) (cooler_total_hp h + hp)
                    (shield_gen_total_hp h) (qd_total_hp h) (thruster_total_hp h)
  else if String.eqb component_type "shield_gen_total_hp" then
    Build_hp_totals (turret_total_hp h) (powerplant_total_hp h) (cooler_total_hp h)
                    (shield_gen_total_hp h + hp) (qd_total_hp h) (thruster_total_hp h)
  else if String.eqb component_type "qd_total_hp" then
    Build_hp_totals (turret_total_hp h) (powerplant_total_hp h) (cooler_total_hp h)
                    (shield_gen_total_hp h) (qd_total_hp h + hp) (thruster_total_hp h)
  else if String.eqb component_type "thruster_total_hp" then
    Build_hp_totals (turret_total_hp h) (powerplant_total_hp h) (cooler_total_hp h)
                    (shield_gen_total_hp h) (qd_total_hp h) (thruster_total_hp h + hp)
  else h.

(** The [if]/[elif] chain on the lowered port name. *)
Definition component_type_of (port_lower : string) : option string :=
  if "turret" in_str port_lower then Some "turret_total_hp"
  else if ("powerplant" in_str port_lower) || ("power_plant" in_str port_lower)
    then Some "powerplant_total_hp"
  else if "cooler" in_str port_lower then Some "cooler_total_hp"
  else if ("shield_generator" in_str port_lower) || ("shieldgenerator" in_str port_lower)
    then Some "shield_gen_total_hp"
  else if ("quantum" in_str port_lower) || ("quantumdrive" in_str port_lower)
    then Some "qd_total_hp"
  else if "thruster" in_str port_lower then Some "thruster_total_hp"
  else None.

(** The body of the loop over the loadout entries. *)
Definition add_entry (component_hp_lookup : gmap string Z)
    (guid_lookup : gmap string string)
    (h : hp_totals) (loadout_entry : elem) : hp_totals :=
  let port_name := get_attr loadout_entry "itemPortName" in
  let entity_class := get_attr loadout_entry "entityClassName" in
  let entity_class :=
    if String.eqb entity_class "" then
      let guid := get_attr loadout_entry "entityClassReference" in
      if negb (String.eqb guid "") && negb (String.eqb guid NULL_GUID)
      then default "" (guid_lookup !! PyStr.lower guid)
      else entity_class
    else entity_class in
  if String.eqb entity_class "" then h
  else
    match component_type_of (PyStr.lower port_name) with
    | Some component_type =>
        match component_hp_lookup !! PyStr.lower entity_class with
        | Some hp => add_to h component_type hp
        | None => h                       (* component_not_found.append *)
        end
    | None => h
    end.

(** [ship_xml] is the parsed root of the ship file, [None] when
    [ET.parse] raises (the totals then stay at zero). *)
Definition extract_component_hp_from_ship (ship_xml : option elem)
    (component_hp_lookup : gmap string Z) (guid_lookup : gmap string string)
    : hp_totals :=
  match ship_xml with
  | None => zero_totals
  | Some root =>
      fold_left (add_entry component_hp_lookup guid_lookup)
                (findall ENTRY root) zero_totals
  end.

(** *** The merge in [update_ship_json_files] *)

(** A ship file holds a JSON object; [ship_data] is that object. *)
Definition as_obj (j : json) : option (gmap string json) :=
  match j with JObj o => Some o | _ => None end.

(** [ship_data['components']] and [ship_data['thrusters']] as objects a
    [.get] can be called on. *)
Definition components_obj (ship_data : gmap string json) : option (gmap string json) :=
  ship_data !! "components" ≫= as_obj.

Definition thrusters_obj (ship_data : gmap string json) : option (gmap string json) :=
  ship_data !! "thrusters" ≫= as_obj.

(** [if name not in ship_data: ship_data[name] = {}] *)
Definition ensure_obj (name : string) (ship_data : gmap string json)
    : gmap string json :=
  match ship_data !! name with
  | Some _ => ship_data
  | None => <[name := JObj ∅]> ship_data
  end.

(** One round of the loop over [hp_totals.items()].  [None] is an
    exception ([.get] on a stored value that is no object), which the
    surrounding [try] turns into an error message. *)
Definition merge_step (st : gmap string json * bool) (kv : string * Z)
    : option (gmap string json * bool) :=
  let '(ship_data, changed) := st in
  let '(key, value) := kv in
  if 0 <? value then
    components ← components_obj ship_data;
    let '(ship_data, changed) :=
      if get_ne components key value
      then (<["components" := JObj (<[key := JInt value]> components)]> ship_data, true)
      else (ship_data, changed) in
    if String.eqb key "thruster_total_hp" then
      thrusters ← thrusters_obj ship_data;
      if get_ne thrusters "total_hp" value
      then Some (<["thrusters" := JObj (<["total_hp" := JInt value]> thrusters)]> ship_data, true)
      else Some (ship_data, changed)
    else Some (ship_data, changed)
  else Some (ship_data, changed).

Fixpoint merge_loop (st : gmap string json * bool) (l : list (string * Z))
    : option (gmap string json * bool) :=
  match l with
  | [] => Some st
  | kv :: l' => st' ← merge_step st kv; merge_loop st' l'
  end.

(** Lines 231-251: the record after the merge and the [changed] flag. *)
Definition merge_totals (ship_data : gmap string json) (h : hp_totals)
    : option (gmap string json * bool) :=
  let ship_data := ensure_obj "components" ship_data in
  let ship_data := ensure_obj "thrusters" ship_data in
  merge_loop (ship_data, false) (items h).

(** What one round of the loop over the ship files does to one file. *)
Inductive outcome : Type :=
| Skipped                                   (* no component HP data found *)
| Errored                                   (* Error updating ... *)
| NoChanges                                 (* No changes for ... *)
| Updated (written : gmap string json).     (* json.dump *)

(** [sum(hp_totals.values())] *)
Definition sum_values (h : hp_totals) : Z :=
  fold_left Z.add (map snd (items h)) 0.

Definition update_ship_json (ship_data : gmap string json) (h : hp_totals) : outcome :=
  if sum_values h =? 0 then Skipped
  else
    match merge_totals ship_data h with
    | None => Errored
    | Some (ship_data', changed) =>
        if changed then Updated ship_data' else NoChanges
    end.

(** Whether the round rewrites the file. *)
Definition writes (o : outcome) : bool :=
  match o with Updated _ => true | _ => false end.

(** The content of the file after a round. *)
Definition file_after (ship_data : gmap string json) (o : outcome)
    : gmap string json :=
  match o with
  | Updated written => written
  | _ => ship_data
  end.

(** The stored value of a category: [ship_data['components'][key]]. *)
Definition stored_component (ship_data : gmap string json) (key : string)
    : option json :=
  match ship_data !! "components" with
  | Some (JObj components) => components !! key
  | _ => None
  end.

Definition stored_thrusters_total (ship_data : gmap string json) : option json :=
  match ship_data !! "thrusters" with
  | Some (JObj thrusters) => thrusters !! "total_hp"
  | _ => None
  end.

(** *** Notions used in the statements *)

(** A category of the aggregate needs no update in [ship_data]: a positive
    total is what the record already stores. *)
Definition settled (ship_data : gmap string json) (kv : string * Z) : Prop :=
  0 < kv.2 ->
  (exists components,
      components_obj ship_data = Some components /\
      get_ne components kv.1 kv.2 = false) /\
  (kv.1 = "thruster_total_hp" ->
   exists thrusters,
      thrusters_obj ship_data = Some thrusters /\
      get_ne thrusters "total_hp" kv.2 = false).

(** Following the specification of the catalogue ("collisions favor the
    first record encountered"): of two files whose keys collide, the first
    in traversal order is the one found in the lookup. *)
Definition first_record_retained : Prop :=
  forall os_walk pre f1 mid f2 post key hp1 hp2,
    traversal os_walk = pre ++ f1 :: mid ++ f2 :: post ->
    stored_hp f1 = Some (key, hp1) ->
    stored_hp f2 = Some (key, hp2) ->
    Forall (fun g => forall hp, stored_hp g ≠ Some (key, hp)) pre ->
    (build_component_hp_lookup os_walk).1 !! key = Some hp1.

(** Sample data: a power plant file of the same name in two
    sub-directories of the power plant directory, and a stored record. *)
Definition sample_file (name : string) (hp : Z) : component_file :=
  {| file_name := name;
     file_xml := Some {| xml_ref := ""; xml_health := Health hp |} |}.

Definition sample_walk (rel_path : string) : walk_result :=
  if String.eqb rel_path "libs/foundry/records/entities/scitem/ships/powerplant"
  then Some [ [sample_file "POWR_Generic_S01.xml" 1000];
              [sample_file "POWR_Generic_S01.xml" 1200] ]
  else None.

Definition sample_record : gmap string json :=
  {[ "filename" := JStr "aegs_gladius";
     "components" := JObj {[ "turret_total_hp" := JInt 750 ]} ]}.

Definition sample_totals : hp_totals :=
  {| turret_total_hp := 0; powerplant_total_hp := 300; cooler_total_hp := 0;
     shield_gen_total_hp := 0; qd_total_hp := 0; thruster_total_hp := 900 |}.

End ComponentHp.

(** ** [src/extract_ship_parts_comprehensive.py] *)

Module Parts.

(** *** [load_armor_data] *)

Definition ONE : pyfloat := FFin 1 0.

(** What a regular expression finds in a file and what the conversion of
    the match gives: no match, a match whose conversion raises ([float]
    of [1.2.3], [int(float(.))] of a number beyond the floats), or the
    converted value. *)
Inductive field (A : Type) : Type :=
| NoMatch
| Raises
| Value (a : A).

Arguments NoMatch {A}.
Arguments Raises {A}.
Arguments Value {A} a.

(** The conversion of a field that has the default [dflt]; [None] when it
    raises. *)
Definition converted {A} (dflt : A) (f : field A) : option A :=
  match f with
  | NoMatch => Some dflt
  | Raises => None
  | Value a => Some a
  end.

(** A loop whose body may raise: nothing catches the exception, which
    ends the loop and the function around it ([None]). *)
Fixpoint run_loop {S A} (body : S -> A -> option S) (l : list A) (s : S) : option S :=
  match l with
  | [] => Some s
  | x :: l' =>
      match body s x with
      | Some s' => run_loop body l' s'
      | None => None
      end
  end.

(** What the regular expressions find in one armor file: the health, to
    be converted by [int(float(.))], and the multipliers, to be converted
    by [float(.)]. *)
Record armor_fields : Type := {
  fld_health : field Z;
  fld_physical : field pyfloat;
  fld_energy : field pyfloat;
  fld_distortion : field pyfloat;
  fld_thermal : field pyfloat;
  fld_biochemical : field pyfloat;
  fld_stun : field pyfloat
}.

Record armor_source : Type := {
  src_stem : string;                      (* xml_file.stem *)
  src_content : option armor_fields       (* None: read_text raises *)
}.

Record armor_record : Type := {
  armor_health : Z;
  resist_physical : pyfloat;
  resist_energy : pyfloat;
  resist_distortion : pyfloat;
  resist_thermal : pyfloat;
  resist_biochemical : pyfloat;
  resist_stun : pyfloat
}.

(** The dict literal of lines 92-100, the health converted: the
    multipliers a file does not give are ['1.0']; [None] when a [float(.)]
    raises. *)
Definition armor_literal (c : armor_fields) (health : Z) : option armor_record :=
  match converted ONE (fld_physical c), converted ONE (fld_energy c),
        converted ONE (fld_distortion c), converted ONE (fld_thermal c),
        converted ONE (fld_biochemical c), converted ONE (fld_stun c) with
  | Some physical, Some energy, Some distortion, Some thermal, Some biochemical,
    Some stun =>
      Some {| armor_health := health;
              resist_physical := physical;
              resist_energy := energy;
              resist_distortion := distortion;
              resist_thermal := thermal;
              resist_biochemical := biochemical;
              resist_stun := stun |}
  | _, _, _, _, _, _ => None
  end.

(** The body of the loop over [armor_dir.glob("*.xml")]; the conversions
    of lines 93-99 are outside the [try], so [None] when one raises. *)
Definition add_armor (armor_data : odict armor_record) (f : armor_source)
    : option (odict armor_record) :=
  match src_content f with
  | None => Some armor_data                               (* continue *)
  | Some c =>
      let filename := PyStr.lower (src_stem f) in
      match fld_health c with
      | NoMatch => Some armor_data                        (* continue *)
      | Raises => None
      | Value health =>
          match armor_literal c health with
          | Some r =>
              let armor_data := dict_set armor_data filename r in
              let clean_name :=
                PyStr.replace (PyStr.replace filename "armr_" "") "_scitem" "" in
              Some (dict_set armor_data clean_name r)
          | None => None
          end
      end
  end.

(** [armor_dir] is the enumeration of the directory by [glob], [None]
    when the directory does not exist. *)
Definition load_armor_data (armor_dir : option (list armor_source))
    : option (odict armor_record) :=
  match armor_dir with
  | None => Some []
  | Some files => run_loop add_armor files []
  end.

(** *** [extract_hardpoint_mappings] *)

(** [matches] is what [re.findall] returns: the (port name, entity class)
    pairs of the file, in file order. *)
Definition set_mapping (mappings : odict string) (m : string * string)
    : odict string :=
  let '(port_name, entity_class) := m in
  let port_lower := PyStr.lower port_name in
  let entity_lower := PyStr.lower entity_class in
  dict_set mappings port_lower entity_lower.

Definition extract_hardpoint_mappings (matches : list (string * string))
    : odict string :=
  fold_left set_mapping matches [].

(** *** [categorize_hardpoints] *)

(** The [if]/[elif] chain: the key of [categories] the pair is appended
    to. *)
Definition category_of (port_name entity_class : string) : string :=
  if ("thruster" in_str port_name) || ("thruster" in_str entity_class) then "thrusters"
  else if ("turret" in_str port_name) || ("turret" in_str entity_class) then "turrets"
  else if ("armor" in_str port_name) || ("armr_" in_str entity_class) then "armor"
  else if "power" in_str port_name then "powerplant"
  else if "cooler" in_str port_name then "cooler"
  else if "shield" in_str port_name then "shield"
  else if "quantum" in_str port_name then "quantumdrive"
  else if ("weapon" in_str port_name) || ("gun" in_str port_name) then "weapons"
  else if ("missile" in_str port_name) || ("pylon" in_str port_name) then "missiles"
  else "other".

Definition empty_categories : gmap string (list (string * string)) :=
  list_to_map
    [ ("thrusters", []); ("turrets", []); ("armor", []); ("powerplant", []);
      ("cooler", []); ("shield", []); ("quantumdrive", []); ("weapons", []);
      ("missiles", []); ("other", []) ].

(** [categories[key]] *)
Definition cat (categories : gmap string (list (string * string))) (key : string)
    : list (string * string) :=
  default [] (categories !! key).

(** [categories[key].append(pair)] *)
Definition cat_append (categories : gmap string (list (string * string)))
    (key : string) (pair : string * string) : gmap string (list (string * string)) :=
  <[key := cat categories key ++ [pair]]> categories.

Definition categorize_one (categories : gmap string (list (string * string)))
    (m : string * string) : gmap string (list (string * string)) :=
  let '(port_name, entity_class) := m in
  cat_append categories (category_of port_name entity_class) (port_name, entity_class).

Definition categorize_hardpoints (mappings : odict string)
    : gmap string (list (string * string)) :=
  fold_left categorize_one mappings empty_categories.

(** *** [process_all_ships]: armor *)

Record armor_values : Type := {
  armor_hp : Z;
  armor_resist_phys : pyfloat;
  armor_resist_energy : pyfloat;
  armor_resist_distortion : pyfloat
}.

Definition no_armor : armor_values :=
  {| armor_hp := 0; armor_resist_phys := ONE;
     armor_resist_energy := ONE; armor_resist_distortion := ONE |}.

Definition values_of (r : armor_record) : armor_values :=
  {| armor_hp := armor_health r; armor_resist_phys := resist_physical r;
     armor_resist_energy := resist_energy r;
     armor_resist_distortion := resist_distortion r |}.

(** Lines 319-326: the first armor hardpoint whose entity is a key of
    [armor_data]. *)
Fixpoint armor_by_entity (armor_data : odict armor_record)
    (hardpoints : list (string * string)) (acc : armor_values) : armor_values :=
  match hardpoints with
  | [] => acc
  | (port_name, entity_class) :: rest =>
      let entity_lower := PyStr.lower entity_class in
      match dict_get armor_data entity_lower with
      | Some r => values_of r                                   (* break *)
      | None => armor_by_entity armor_data rest acc
      end
  end.

(** The test of line 334 for one armor key. *)
Definition name_matches (filename armor_key : string) : bool :=
  let ship_parts := PyStr.replace (PyStr.lower filename) "_" "" in
  let armor_parts := PyStr.replace armor_key "_" "" in
  (ship_parts in_str armor_parts) || (armor_parts in_str ship_parts).

(** Lines 330-339: the first armor key, in the order of [armor_data.keys()],
    that matches the ship's file name. *)
Fixpoint armor_by_name (armor_data : odict armor_record) (filename : string)
    (keys : list string) (acc : armor_values) : armor_values :=
  match keys with
  | [] => acc
  | armor_key :: rest =>
      if name_matches filename armor_key then
        match dict_get armor_data armor_key with
        | Some r => values_of r                                 (* break *)
        | None => acc                                           (* not reached *)
        end
      else armor_by_name armor_data filename rest acc
  end.

(** Lines 313-339. *)
Definition ship_armor (armor_data : odict armor_record) (filename : string)
    (armor_hardpoints : list (string * string)) : armor_values :=
  let a := armor_by_entity armor_data armor_hardpoints no_armor in
  if armor_hp a =? 0
  then armor_by_name armor_data filename (dict_keys armor_data) a
  else a.

(** *** [process_all_ships]: thrusters *)

(** An entry of [thruster_data] and of [turret_data]. *)
Record hp_record : Type := {
  rec_health : Z;
  rec_filename : string
}.

(** The test of line 358 for one thruster key. *)
Definition pattern_matches (entity_lower thruster_key : string) : bool :=
  (entity_lower in_str thruster_key) || (thruster_key in_str entity_lower).

(** Lines 357-360: the first key, in the order of [thruster_data.keys()],
    that passes the test. *)
Fixpoint thruster_by_pattern (thruster_data : odict hp_record)
    (entity_lower : string) (keys : list string) : Z :=
  match keys with
  | [] => 0
  | thruster_key :: rest =>
      if pattern_matches entity_lower thruster_key then
        match dict_get thruster_data thruster_key with
        | Some r => rec_health r                           (* break *)
        | None => 0                                             (* not reached *)
        end
      else thruster_by_pattern thruster_data entity_lower rest
  end.

(** Lines 350-360: the [hp] of one thruster hardpoint. *)
Definition thruster_hp (thruster_data : odict hp_record)
    (entity_lower : string) : Z :=
  match dict_get thruster_data entity_lower with
  | Some r => rec_health r
  | None => thruster_by_pattern thruster_data entity_lower (dict_keys thruster_data)
  end.

Record thruster_totals : Type := {
  thruster_main_hp : Z;
  thruster_retro_hp : Z;
  thruster_mav_hp : Z;
  thruster_vtol_hp : Z;
  thruster_count : Z
}.

Definition no_thrusters : thruster_totals :=
  {| thruster_main_hp := 0; thruster_retro_hp := 0; thruster_mav_hp := 0;
     thruster_vtol_hp := 0; thruster_count := 0 |}.

(** Lines 348-371: one round of the loop over [categorized['thrusters']]. *)
Definition add_thruster (thruster_data : odict hp_record)
    (t : thruster_totals) (hardpoint : string * string) : thruster_totals :=
  let '(port_name, entity_class) := hardpoint in
  let entity_lower := PyStr.lower entity_class in
  let hp := thruster_hp thruster_data entity_lower in
  if 0 <? hp then
    let count := thruster_count t + 1 in
    if ("main" in_str PyStr.lower port_name) || ("main" in_str entity_lower) then
      {| thruster_main_hp := thruster_main_hp t + hp;
         thruster_retro_hp := thruster_retro_hp t;
         thruster_mav_hp := thruster_mav_hp t;
         thruster_vtol_hp := thruster_vtol_hp t;
         thruster_count := count |}
    else if ("retro" in_str PyStr.lower port_name) || ("retro" in_str entity_lower) then
      {| thruster_main_hp := thruster_main_hp t;
         thruster_retro_hp := thruster_retro_hp t + hp;
         thruster_mav_hp := thruster_mav_hp t;
         thruster_vtol_hp := thruster_vtol_hp t;
         thruster_count := count |}
    else if ("vtol" in_str PyStr.lower port_name) || ("vtol" in_str entity_lower) then
      {| thruster_main_hp := thruster_main_hp t;
         thruster_retro_hp := thruster_retro_hp t;
         thruster_mav_hp := thruster_mav_hp t;
         thruster_vtol_hp := thruster_vtol_hp t + hp;
         thruster_count := count |}
    else
      {| thruster_main_hp := thruster_main_hp t;
         thruster_retro_hp := thruster_retro_hp t;
         thruster_mav_hp := thruster_mav_hp t + hp;
         thruster_vtol_hp := thruster_vtol_hp t;
         thruster_count := count |}
  else t.

Definition ship_thrusters (thruster_data : odict hp_record)
    (thruster_hardpoints : list (string * string)) : thruster_totals :=
  fold_left (add_thruster thruster_data) thruster_hardpoints no_thrusters.

Definition thruster_total_hp (t : thruster_totals) : Z :=
  thruster_main_hp t + thruster_retro_hp t + thruster_mav_hp t + thruster_vtol_hp t.

(** *** [process_all_ships]: turrets and components *)

(** Lines 377-381, on the pair (total, count). *)
Definition add_turret (turret_data : odict hp_record)
    (acc : Z * Z) (hardpoint : string * string) : Z * Z :=
  let '(turret_total_hp, turret_count) := acc in
  let '(port_name, entity_class) := hardpoint in
  let entity_lower := PyStr.lower entity_class in
  match dict_get turret_data entity_lower with
  | Some r => (turret_total_hp + rec_health r, turret_count + 1)
  | None => acc
  end.

Definition ship_turrets (turret_data : odict hp_record)
    (turret_hardpoints : list (string * string)) : Z * Z :=
  fold_left (add_turret turret_data) turret_hardpoints (0, 0).

(** Lines 388-390: [hp] of one component hardpoint, [comp] being
    [component_data['powerplant']] and the like. *)
Definition component_hp (comp : gmap string Z) (entity_lower : string) : Z :=
  let hp := default 0 (comp !! entity_lower) in
  if hp =? 0
  then default 0 (comp !! PyStr.replace entity_lower "_scitem" "")
  else hp.

(** Lines 386-393 (and the three loops after it), on the pair
    (total, count). *)
Definition add_component (comp : gmap string Z)
    (acc : Z * Z) (hardpoint : string * string) : Z * Z :=
  let '(total_hp, count) := acc in
  let '(port_name, entity_class) := hardpoint in
  let entity_lower := PyStr.lower entity_class in
  let hp := component_hp comp entity_lower in
  if 0 <? hp then (total_hp + hp, count + 1) else acc.

Definition ship_components (comp : gmap string Z)
    (hardpoints : list (string * string)) : Z * Z :=
  fold_left (add_component comp) hardpoints (0, 0).

(** *** [process_all_ships]: one ship *)

Record catalog : Type := {
  armor_data : odict armor_record;
  thruster_data : odict hp_record;
  turret_data : odict hp_record;
  component_data : gmap string (gmap string Z)
}.

(** [component_data[comp_type]] *)
Definition components_of_type (c : catalog) (comp_type : string) : gmap string Z :=
  default ∅ (component_data c !! comp_type).

Record ship : Type := {
  ship_armor_values : armor_values;
  ship_thruster_totals : thruster_totals;
  turret_total_hp : Z;
  turret_count : Z;
  powerplant_total_hp : Z;
  powerplant_count : Z;
  cooler_total_hp : Z;
  cooler_count : Z;
  shield_gen_total_hp : Z;
  shield_gen_count : Z;
  qd_total_hp : Z;
  qd_count : Z;
  weapon_hardpoints : Z;
  missile_hardpoints : Z;
  total_hardpoints : Z
}.

(** Lines 309-431 for a ship file that passed the filters of lines 272-289;
    [matches] is what the pattern of [extract_hardpoint_mappings] finds in
    it. *)
Definition process_ship (c : catalog) (filename : string)
    (matches : list (string * string)) : ship :=
  let hardpoint_mappings := extract_hardpoint_mappings matches in
  let categorized := categorize_hardpoints hardpoint_mappings in
  let turrets := ship_turrets (turret_data c) (cat categorized "turrets") in
  let pp := ship_components (components_of_type c "powerplant") (cat categorized "powerplant") in
  let cooler := ship_components (components_of_type c "cooler") (cat categorized "cooler") in
  let shield := ship_components (components_of_type c "shieldgenerator") (cat categorized "shield") in
  let qd := ship_components (components_of_type c "quantumdrive") (cat categorized "quantumdrive") in
  {| ship_armor_values := ship_armor (armor_data c) filename (cat categorized "armor");
     ship_thruster_totals := ship_thrusters (thruster_data c) (cat categorized "thrusters");
     turret_total_hp := fst turrets;
     turret_count := snd turrets;
     powerplant_total_hp := fst pp;
     powerplant_count := snd pp;
     cooler_total_hp := fst cooler;
     cooler_count := snd cooler;
     shield_gen_total_hp := fst shield;
     shield_gen_count := snd shield;
     qd_total_hp := fst qd;
     qd_count := snd qd;
     weapon_hardpoints := Z.of_nat (length (cat categorized "weapons"));
     missile_hardpoints := Z.of_nat (length (cat categorized "missiles"));
     total_hardpoints := Z.of_nat (length hardpoint_mappings) |}.

(** *** Notions used in the statements *)

(** An ordered rule table: the first rule whose test passes gives the
    category, and [other] is the default. *)
Definition rule : Type := ((string -> string -> bool) * string)%type.

Definition first_match (rules : list rule) (port_name entity_class : string) : string :=
  match find (fun r : rule => r.1 port_name entity_class) rules with
  | Some r => r.2
  | None => "other"
  end.

Definition on_either (kw : string) : string -> string -> bool :=
  fun port_name entity_class => (kw in_str port_name) || (kw in_str entity_class).

Definition on_port (kw : string) : string -> string -> bool :=
  fun port_name _ => kw in_str port_name.

Definition armor_rule : string -> string -> bool :=
  fun port_name entity_class => ("armor" in_str port_name) || ("armr_" in_str entity_class).

(** Following the specification of the classifier: every keyword is looked
    for in the port name and in the entity id. *)
Definition claimed_rules : list rule :=
  [ (on_either "thruster", "thrusters");
    (on_either "turret", "turrets");
    (armor_rule, "armor");
    (on_either "power", "powerplant");
    (on_either "cooler", "cooler");
    (on_either "shield", "shield");
    (on_either "quantum", "quantumdrive");
    (fun p e => on_either "weapon" p e || on_either "gun" p e, "weapons");
    (fun p e => on_either "missile" p e || on_either "pylon" p e, "missiles") ].

(** The table [category_of] implements. *)
Definition code_rules : list rule :=
  [ (on_either "thruster", "thrusters");
    (on_either "turret", "turrets");
    (armor_rule, "armor");
    (on_port "power", "powerplant");
    (on_port "cooler", "cooler");
    (on_port "shield", "shield");
    (on_port "quantum", "quantumdrive");
    (fun p e => on_port "weapon" p e || on_port "gun" p e, "weapons");
    (fun p e => on_port "missile" p e || on_port "pylon" p e, "missiles") ].

(** The positive healths among the hardpoints of a category, [hp_of]
    giving the health an entity resolves to. *)
Definition positive_hps (hp_of : string -> Z) (hardpoints : list (string * string))
    : list Z :=
  filter (fun hp => 0 < hp) (map (fun h => hp_of (PyStr.lower h.2)) hardpoints).

Definition sum_list (l : list Z) : Z := fold_right Z.add 0 l.

(** Two dictionaries that hold the key [k] and that an assignment to [k]
    makes equal. *)
Definition equal_but (k : string) (d d' : odict string) : Prop :=
  dict_mem d k = true /\ dict_mem d' k = true /\
  forall v, dict_set d k v = dict_set d' k v.

(** Following the specification of the resolver: exact lookup first, then
    the first catalogue key, in build order, such that one of the two
    identifiers, separators stripped, contains the other. *)
Definition strip_separators (s : string) : string := PyStr.replace s "_" "".

Definition normalized_match (raw_id catalog_key : string) : bool :=
  let a := strip_separators raw_id in
  let b := strip_separators catalog_key in
  (a in_str b) || (b in_str a).

Definition claimed_resolve (catalog : odict hp_record) (raw_id : string)
    : option string :=
  let id := PyStr.lower raw_id in
  if dict_mem catalog id then Some id
  else find (normalized_match id) (dict_keys catalog).

Definition claimed_hp (catalog : odict hp_record) (raw_id : string) : Z :=
  match claimed_resolve catalog raw_id ≫= dict_get catalog with
  | Some r => rec_health r
  | None => 0
  end.

(** Sample data. *)
Definition sample_thrusters : odict hp_record :=
  [ ("aegs_gladius_thrustermain",
     {| rec_health := 450; rec_filename := "aegs_gladius_thrustermain" |});
    ("aegs_gladius_thruster_retro",
     {| rec_health := 200; rec_filename := "aegs_gladius_thruster_retro" |}) ].

Definition sample_armor (health : Z) : armor_record :=
  {| armor_health := health; resist_physical := ONE; resist_energy := ONE;
     resist_distortion := ONE; resist_thermal := ONE; resist_biochemical := ONE;
     resist_stun := ONE |}.

(** A catalogue with two armors and nothing else. *)
Definition duplicate_sample_catalog : catalog :=
  {| armor_data := [("armr_a", sample_armor 200); ("armr_b", sample_armor 100)];
     thruster_data := []; turret_data := []; component_data := ∅ |}.

End Parts.

(** ** [scripts/extract_ship_loadouts.py] *)

Module Loadouts.

Definition WEAPON_HARDPOINT_PATTERNS : list string :=
  [ "hardpoint_gun"; "hardpoint_weapon"; "hardpoint_turret"; "hardpoint_missile";
    "hardpoint_torpedo"; "hardpoint_pdc"; "hardpoint_nose"; "hardpoint_tail";
    "hardpoint_front"; "hardpoint_rear"; "hardpoint_left"; "hardpoint_right";
    "hardpoint_top"; "hardpoint_bottom"; "hardpoint_laser"; "hardpoint_cannon" ].

Definition weapon_prefixes : list string :=
  [ "BEHR_"; "KLWE_"; "AMRS_"; "GATS_"; "APAR_"; "KRIG_"; "VNCL_"; "TALN_";
    "MISL_"; "AEGS_"; "ANVL_"; "HURSTON_"; "JOKER_"; "MAXOX_"; "KBAR_"; "SPCD_" ].

Definition weapon_keywords : list string :=
  [ "LASER"; "CANNON"; "REPEATER"; "GATLING"; "BALLISTIC"; "MASS"; "DRIVER";
    "DISTORTION"; "TORPEDO"; "MISSILE" ].

Definition is_weapon_class (name : string) : bool :=
  if String.eqb name "" then false
  else
    let name_upper := PyStr.upper name in
    existsb (fun prefix => PyStr.startswith name_upper prefix) weapon_prefixes
    || existsb (fun kw => kw in_str name_upper) weapon_keywords.

Definition is_turret_mount (name : string) : bool :=
  if String.eqb name "" then false
  else
    let name_lower := PyStr.lower name in
    ("turret" in_str name_lower) || ("mount" in_str name_lower).

Definition is_missile_rack (name : string) : bool :=
  if String.eqb name "" then false
  else PyStr.startswith (PyStr.upper name) "MRCK_".

(** The height of an element: the measure on which the walk recurses. *)
Fixpoint height (e : elem) : nat :=
  match e with
  | Elem _ _ cs => S (list_max (map height cs))
  end.

(** The sub-entries the four nested loops of lines 115-119 reach, with
    repetitions, in the order of the loops. *)
Definition nested_loadout_entries (entry : elem) : list elem :=
  flat_map
    (fun loadout =>
       flat_map
         (fun manual_params =>
            flat_map (fun entries => findall ENTRY entries)
                     (findall "entries" manual_params))
         (findall "SItemPortLoadoutManualParams" loadout))
    (findall "loadout" entry).

(** [flat_map] over a list whose members carry the proof that they belong
    to it. *)
Fixpoint flat_map_in {A B} (l : list A) : (forall x, In x l -> list B) -> list B :=
  match l with
  | [] => fun _ => []
  | x :: t =>
      fun f => f x (or_introl eq_refl) ++ flat_map_in t (fun y H => f y (or_intror H))
  end.

(** Termination of the walk: a sub-entry found by [findall] lies strictly
    lower than the entry. *)
Lemma elem_ind_nested (P : elem -> Prop) :
  (forall t a cs, Forall P cs -> P (Elem t a cs)) -> forall e, P e.
Proof.
  intros H. fix IH 1. intros [t a cs]. apply H.
  induction cs as [|c cs IHcs]; constructor; [apply IH | exact IHcs].
Qed.

Lemma descendants_height e d :
  In d (descendants e) -> (height d < height e)%nat.
Proof.
  revert d. induction e as [t a cs IH] using elem_ind_nested. intros d Hd.
  simpl in *. induction cs as [|c cs IHcs]; simpl in *; [done|].
  apply Forall_cons in IH as [Hc Hcs].
  destruct Hd as [<- | Hd]; [lia|].
  apply in_app_or in Hd as [Hd | Hd].
  - specialize (Hc _ Hd). lia.
  - specialize (IHcs Hcs Hd). lia.
Qed.

Lemma findall_height tag e d :
  In d (findall tag e) -> (height d < height e)%nat.
Proof.
  unfold findall. intros H. apply list_elem_of_In, list_elem_of_filter in H.
  destruct H as [_ H]. by apply descendants_height, list_elem_of_In.
Qed.

Lemma nested_loadout_entries_height entry d :
  In d (nested_loadout_entries entry) -> (height d < height entry)%nat.
Proof.
  unfold nested_loadout_entries. intros H.
  apply in_flat_map in H as (l & Hl & H).
  apply in_flat_map in H as (m & Hm & H).
  apply in_flat_map in H as (es & Hes & H).
  apply findall_height in Hl, Hm, Hes, H. lia.
Qed.

(** Lines 107-112: what the entry itself adds to [results]. *)
Definition own_weapon (entry : elem) : list (string * string) :=
  let port_name := get_attr entry "itemPortName" in
  let entity_class := get_attr entry "entityClassName" in
  if negb (String.eqb entity_class "") && is_weapon_class entity_class
  then [(port_name, PyStr.lower entity_class)]
  else [].

(** [parse_loadout_entry].  Every recursive call is on a proper descendant
    of [entry], so the test [sub_entry != entry] of line 123 (a comparison
    of object identities) always succeeds and is left out.  [depth] is
    passed along as in the source. *)
Equations? parse_loadout_entry (entry : elem) (depth : nat)
    : list (string * string) by wf (height entry) lt :=
  parse_loadout_entry entry depth :=
    own_weapon entry
    ++ flat_map_in (nested_loadout_entries entry)
         (fun sub_entry _ => parse_loadout_entry sub_entry (S depth))
    ++ flat_map_in (findall ENTRY entry)
         (fun sub_entry _ => parse_loadout_entry sub_entry (S depth)).
Proof.
  - by apply nested_loadout_entries_height.
  - by eapply findall_height.
Qed.

(** Lines 161-164 and 168-171: the nested weapons, without repetitions. *)
Definition collect_weapons (nested_weapons : list (string * string)) : list string :=
  fold_left
    (fun weapons '(_, weapon) =>
       if negb (String.eqb weapon "") && negb (existsb (String.eqb weapon) weapons)
       then weapons ++ [weapon] else weapons)
    nested_weapons [].

(** The body of the loop of [extract_ship_loadout]. *)
Definition add_loadout (loadouts : gmap string (list string)) (entry : elem)
    : gmap string (list string) :=
  let port_name := PyStr.lower (get_attr entry "itemPortName") in
  let entity_class := get_attr entry "entityClassName" in
  let is_weapon_hp :=
    existsb (fun pat => pat in_str port_name) WEAPON_HARDPOINT_PATTERNS in
  if negb is_weapon_hp then loadouts
  else
    let weapons :=
      if negb (String.eqb entity_class "") && is_weapon_class entity_class then
        [PyStr.lower entity_class]
      else if negb (String.eqb entity_class "")
              && (is_turret_mount entity_class || is_missile_rack entity_class) then
        collect_weapons (parse_loadout_entry entry 0)
      else
        collect_weapons (parse_loadout_entry entry 0) in
    match weapons with
    | [] => loadouts
    | _ :: _ => <[port_name := weapons]> loadouts
    end.

(** [ship_xml] is the parsed root, [None] when [ET.parse] raises. *)
Definition extract_ship_loadout (ship_xml : option elem) : gmap string (list string) :=
  match ship_xml with
  | None => ∅
  | Some root => fold_left add_loadout (findall ENTRY root) ∅
  end.

(** *** Notions used in the statements *)

(** Following the specification of the walk: a depth bound, beyond which
    a branch is cut.  [remaining] is the bound less the depth. *)
Fixpoint bounded_walk (remaining : nat) (entry : elem) : list (string * string) :=
  own_weapon entry ++
  match remaining with
  | O => []
  | S r =>
      flat_map (bounded_walk r) (nested_loadout_entries entry)
      ++ flat_map (bounded_walk r) (findall ENTRY entry)
  end.

(** Sample data: a gimbal mount holding one gun, and a gun below [n]
    mounts nested in one another. *)
Definition entry_elem (port_name entity_class : string) (children : list elem) : elem :=
  Elem ENTRY (list_to_map [("itemPortName", port_name); ("entityClassName", entity_class)])
       children.

Definition turret_sample : elem :=
  entry_elem "hardpoint_turret" "Mount_Gimbal_S3"
    [ Elem "loadout" ∅
        [ Elem "SItemPortLoadoutManualParams" ∅
            [ Elem "entries" ∅
                [ entry_elem "hardpoint_class_2" "BEHR_LaserCannon_S2" [] ] ] ] ].

Fixpoint nested_sample (n : nat) : elem :=
  match n with
  | O => entry_elem "hardpoint_inner" "BEHR_LaserCannon_S1" []
  | S k => entry_elem "hardpoint_outer" "Mount_Gimbal_S1" [nested_sample k]
  end.

End Loadouts.

(** ** [scripts/fix_missiles.py] *)

Module Missiles.

(** The longest prefix of decimal digits. *)
Fixpoint take_digits (s : string) : string :=
  match s with
  | String c t => if PyStr.is_digit c then String c (take_digits t) else EmptyString
  | EmptyString => EmptyString
  end.

(** [int(digits)] *)
Definition int_of_digits (digits : string) : Z :=
  fold_left (fun n c => 10 * n + (Z.of_nat (nat_of_ascii c) - 48))
            (list_ascii_of_string digits) 0.

Fixpoint drop_chars (n : nat) (s : string) : string :=
  match n, s with
  | O, _ => s
  | S k, String _ t => drop_chars k t
  | S _, EmptyString => EmptyString
  end.

(** [re.search(r'MISL_S(\d+)', sub_entity, re.I)] followed by
    [int(size_match.group(1))]: the leftmost place where [MISL_S], in any
    case, is followed by a digit. *)
Fixpoint misl_size (sub_entity : string) : option Z :=
  match sub_entity with
  | EmptyString => None
  | String _ t =>
      if PyStr.startswith (PyStr.upper sub_entity) "MISL_S" then
        match take_digits (drop_chars 6 sub_entity) with
        | EmptyString => misl_size t
        | digits => Some (int_of_digits digits)
        end
      else misl_size t
  end.

(** The inner loop of either branch: the missiles below [entry], sized by
    their names or else by [default_size]. *)
Definition rack_missiles (default_size : Z) (entry : elem) : list (Z * string) :=
  flat_map
    (fun sub_entry =>
       let sub_entity := get_attr sub_entry "entityClassName" in
       if PyStr.startswith (PyStr.upper sub_entity) "MISL_" then
         [(match misl_size sub_entity with
           | Some size => size
           | None => default_size
           end, PyStr.lower sub_entity)]
       else [])
    (iter ENTRY entry).

(** Which branch of lines 39 and 58 an entry takes. *)
Inductive branch : Type := MissileRack | TorpedoRack | Neither.

Definition branch_of (port_name entity_class : string) : branch :=
  if PyStr.startswith (PyStr.upper entity_class) "MRCK_" then MissileRack
  else if ("torpedo" in_str port_name)
          && PyStr.startswith (PyStr.upper entity_class) "MRCK_" then TorpedoRack
  else Neither.

(** The body of the loop over [root.iter(...)]. *)
Definition add_rack (missile_loadouts : gmap string (list (Z * string)))
    (entry : elem) : gmap string (list (Z * string)) :=
  let port_name := PyStr.lower (get_attr entry "itemPortName") in
  let entity_class := get_attr entry "entityClassName" in
  match branch_of port_name entity_class with
  | MissileRack =>
      match rack_missiles 2 entry with
      | [] => missile_loadouts
      | missiles => <[port_name := missiles]> missile_loadouts
      end
  | TorpedoRack =>
      match rack_missiles 5 entry with
      | [] => missile_loadouts
      | torpedoes => <[port_name := torpedoes]> missile_loadouts
      end
  | Neither => missile_loadouts
  end.

(** [ship_xml] is the parsed root, [None] when [ET.parse] raises. *)
Definition extract_missiles_from_xml (ship_xml : option elem)
    : gmap string (list (Z * string)) :=
  match ship_xml with
  | None => ∅
  | Some root => fold_left add_rack (iter ENTRY root) ∅
  end.

(** Sample data: a torpedo rack with a torpedo whose name carries no size
    and one whose name does. *)
Definition torpedo_sample : elem :=
  Elem "Vehicle" ∅
    [ Elem ENTRY (list_to_map [("itemPortName", "hardpoint_torpedo_rack_left");
                               ("entityClassName", "MRCK_S05_AEGS_Torpedo")])
        [ Elem ENTRY (list_to_map [("itemPortName", "missile_01_attach");
                                   ("entityClassName", "MISL_Torpedo_Argos")]) [];
          Elem ENTRY (list_to_map [("itemPortName", "missile_02_attach");
                                   ("entityClassName", "MISL_S09_CS_TALN_Argos")]) [] ] ].

End Missiles.

(** ** More of [scripts/extract_component_hp.py] *)

Module ComponentHpRest.
Import ComponentHp.

(** [find_ship_xml].  [ship_walk] is what [os.walk(SHIP_XML_DIR)] yields: the
    directories in traversal order, each with its path and its file names;
    the result stands for [os.path.join(root, filename)]. *)
Definition names_ship (base_name filename : string) : bool :=
  PyStr.endswith filename ".xml"
  && String.eqb (PyStr.lower (PyStr.replace filename ".xml" "")) (PyStr.lower base_name).

Fixpoint find_in_walk (base_name : string) (ship_walk : list (string * list string))
    : option (string * string) :=
  match ship_walk with
  | [] => None
  | (root, files) :: rest =>
      match find (names_ship base_name) files with
      | Some filename => Some (root, filename)
      | None => find_in_walk base_name rest
      end
  end.

Definition find_ship_xml (ship_walk : list (string * list string))
    (ship_json_name : string) : option (string * string) :=
  let base_name := PyStr.replace ship_json_name ".json" "" in
  find_in_walk base_name ship_walk.

(** The other keys of the [thrusters] object. *)
Definition stored_thruster_field (ship_data : gmap string json) (key : string)
    : option json :=
  thrusters_obj ship_data ≫= (.!! key).

(** Totals none of which is negative. *)
Definition nonneg_totals (h : hp_totals) : Prop :=
  Forall (fun kv : string * Z => 0 <= kv.2) (items h).

(** The strings without a lower-case letter. *)
Fixpoint no_lower (s : string) : bool :=
  match s with
  | EmptyString => true
  | String c t => negb (PyStr.is_lower c) && no_lower t
  end.

(** Sample data: a cooler whose file carries a reference and no health. *)
Definition guid_sample_walk (rel_path : string) : walk_result :=
  if String.eqb rel_path "libs/foundry/records/entities/scitem/ships/cooler"
  then Some [ [ {| file_name := "COOL_Generic_S01.xml";
                   file_xml := Some {| xml_ref := "A1B2C3D4-0000-0000-0000-00000000000F";
                                       xml_health := NoHealth |} |} ] ]
  else None.

End ComponentHpRest.

(** ** More of [src/extract_ship_parts_comprehensive.py] *)

Module ShipNames.

(** [s.split(sep)] for a separator of one character: the first part and
    the parts after it. *)
Fixpoint split_on (sep : ascii) (s : string) : string * list string :=
  match s with
  | EmptyString => (EmptyString, [])
  | String c t =>
      let '(part, parts) := split_on sep t in
      if Ascii.eqb c sep then (EmptyString, part :: parts)
      else (String c part, parts)
  end.

Definition MANUFACTURERS : odict string :=
  [("AEGS", "Aegis"); ("ANVL", "Anvil"); ("ARGO", "Argo"); ("BANU", "Banu");
   ("BEHR", "Behring"); ("CNOU", "CO"); ("CRUS", "Crusader"); ("DRAK", "Drake");
   ("ESPR", "Esperia"); ("GAMA", "Gatac"); ("GLSN", "Gallenson"); ("KRIG", "Kruger");
   ("MISC", "MISC"); ("MRAI", "Mirai"); ("ORIG", "Origin"); ("RSI", "RSI");
   ("TMBL", "Tumbril"); ("VNCL", "Vanduul"); ("XIAN", "Xi'An"); ("XNAA", "XNAA");
   ("EAOBJECTIVEDESTRUCTABLE", "EA Objective"); ("ORBITAL", "Orbital");
   ("PROBE", "Probe")].

(** [re.sub(r'([a-z])([A-Z])', r'\1 \2', s)]: a space between every
    lower-case letter and the upper-case letter that follows it.  A match
    ends in an upper-case letter, which starts no other match. *)
Fixpoint split_camel (s : string) : string :=
  match s with
  | EmptyString => EmptyString
  | String a t =>
      match t with
      | String b _ =>
          if PyStr.is_lower a && PyStr.is_upper b
          then String a (String " " (split_camel t))
          else String a (split_camel t)
      | EmptyString => s
      end
  end.

Definition parse_ship_name (raw_name : string) : string :=
  if String.eqb raw_name "" then raw_name
  else
    let '(first, rest) := split_on "_" raw_name in
    if (2 <=? length (first :: rest))%nat then
      let mfr_code := PyStr.upper first in
      let mfr_name := default mfr_code (dict_get MANUFACTURERS mfr_code) in
      let ship_name := String.concat " " rest in
      let ship_name := split_camel ship_name in
      (mfr_name ++ " " ++ ship_name)%string
    else PyStr.replace raw_name "_" " ".

End ShipNames.

Module PartsRest.
Import Parts.

(** The keys of [categories], in the order of the literal. *)
Definition CATEGORY_NAMES : list string :=
  [ "thrusters"; "turrets"; "armor"; "powerplant"; "cooler"; "shield";
    "quantumdrive"; "weapons"; "missiles"; "other" ].

(** A thruster, turret or component file: [None] when [read_text] raises,
    else what the regular expression for [Health] finds and what
    [int(float(health))] makes of it. *)
Record part_source : Type := {
  part_stem : string;                       (* xml_file.stem *)
  part_health : option (field Z)
}.

(** The body of the loop of [load_thruster_data] and of
    [load_turret_data]; the conversion of lines 130 and 161 is outside the
    [try], so [None] when it raises. *)
Definition add_part (data : odict hp_record) (f : part_source)
    : option (odict hp_record) :=
  match part_health f with
  | None => Some data                                     (* continue *)
  | Some NoMatch => Some data
  | Some Raises => None
  | Some (Value health) =>
      let filename := PyStr.lower (part_stem f) in
      let r := {| rec_health := health; rec_filename := filename |} in
      let data := dict_set data filename r in
      let clean_name := PyStr.replace filename "_scitem" "" in
      Some (dict_set data clean_name r)
  end.

Definition load_thruster_data (thruster_dir : option (list part_source))
    : option (odict hp_record) :=
  match thruster_dir with
  | None => Some []
  | Some files => run_loop add_part files []
  end.

Definition load_turret_data (turret_dir : option (list part_source))
    : option (odict hp_record) :=
  match turret_dir with
  | None => Some []
  | Some files => run_loop add_part files []
  end.

(** The body of the inner loop of [load_component_data]; [None] when the
    conversion of line 196 raises. *)
Definition add_component_file (data : gmap string Z) (f : part_source)
    : option (gmap string Z) :=
  match part_health f with
  | None => Some data                                     (* continue *)
  | Some NoMatch => Some data
  | Some Raises => None
  | Some (Value health) =>
      let filename := PyStr.lower (part_stem f) in
      let data := <[filename := health]> data in
      let clean_name := PyStr.replace filename "_scitem" "" in
      Some (<[clean_name := health]> data)
  end.

Definition load_component_type (comp_dir : option (list part_source))
    : option (gmap string Z) :=
  match comp_dir with
  | None => Some ∅                                        (* continue *)
  | Some files => run_loop add_component_file files ∅
  end.

(** [comp_dirs] gives the enumeration of [COMPONENTS_DIR / comp_type]. *)
Definition load_component_data (comp_dirs : string -> option (list part_source))
    : option (gmap string (gmap string Z)) :=
  match load_component_type (comp_dirs "powerplant"),
        load_component_type (comp_dirs "cooler"),
        load_component_type (comp_dirs "shieldgenerator"),
        load_component_type (comp_dirs "quantumdrive") with
  | Some powerplant, Some cooler, Some shieldgenerator, Some quantumdrive =>
      Some (list_to_map [ ("powerplant", powerplant); ("cooler", cooler);
                          ("shieldgenerator", shieldgenerator);
                          ("quantumdrive", quantumdrive) ])
  | _, _, _, _ => None
  end.

(** The keys under which a file is stored. *)
Definition part_keys (f : part_source) : list string :=
  match part_health f with
  | Some (Value _) =>
      [ PyStr.lower (part_stem f);
        PyStr.replace (PyStr.lower (part_stem f)) "_scitem" "" ]
  | _ => []
  end.

Definition armor_keys (f : armor_source) : list string :=
  match src_content f with
  | Some c =>
      match fld_health c with
      | Value _ =>
          [ PyStr.lower (src_stem f);
            PyStr.replace (PyStr.replace (PyStr.lower (src_stem f)) "armr_" "")
                          "_scitem" "" ]
      | _ => []
      end
  | None => []
  end.

(** An armor file that ends the load: it can be read and has a health,
    and the conversion of the health or of one of its multipliers
    raises. *)
Definition armor_raises (f : armor_source) : Prop :=
  exists c,
    src_content f = Some c /\
    (fld_health c = Raises \/
     (exists health, fld_health c = Value health) /\
     Exists (fun fld => fld = Raises)
            [ fld_physical c; fld_energy c; fld_distortion c;
              fld_thermal c; fld_biochemical c; fld_stun c ]).

(** The records the turret hardpoints resolve to. *)
Definition resolved_turrets (turret_data : odict hp_record)
    (hardpoints : list (string * string)) : list hp_record :=
  omap (fun h : string * string => dict_get turret_data (PyStr.lower h.2)) hardpoints.

(** Sample data. *)
Definition armor_sample_fields : armor_fields :=
  {| fld_health := Value 900; fld_physical := Value (FFin 4 (-1));
     fld_energy := NoMatch; fld_distortion := NoMatch; fld_thermal := NoMatch;
     fld_biochemical := NoMatch; fld_stun := NoMatch |}.

Definition armor_sample : armor_source :=
  {| src_stem := "ARMR_AEGS_Gladius_SCItem";
     src_content := Some armor_sample_fields |}.

Definition armor_sample_dir : list armor_source :=
  [ {| src_stem := "ARMR_AEGS_Sabre"; src_content := None |};
    {| src_stem := "ARMR_AEGS_Gladius";
       src_content := Some {| fld_health := Value 700; fld_physical := NoMatch;
                              fld_energy := NoMatch; fld_distortion := NoMatch;
                              fld_thermal := NoMatch; fld_biochemical := NoMatch;
                              fld_stun := NoMatch |} |};
    armor_sample;
    {| src_stem := "ARMR_DRAK_Vulture";
       src_content := Some {| fld_health := NoMatch; fld_physical := Value ONE;
                              fld_energy := NoMatch; fld_distortion := NoMatch;
                              fld_thermal := NoMatch; fld_biochemical := NoMatch;
                              fld_stun := NoMatch |} |} ].

Definition cooler_sample : part_source :=
  {| part_stem := "COOL_Generic_S01"; part_health := Some (Value 300) |}.

Definition cooler_sample_dir : list part_source :=
  [ {| part_stem := "COOL_Generic_S02"; part_health := Some (Value 100) |};
    cooler_sample;
    {| part_stem := "COOL_Generic_S03"; part_health := Some NoMatch |} ].

Definition component_sample_dirs (comp_type : string) : option (list part_source) :=
  if String.eqb comp_type "cooler" then Some cooler_sample_dir else None.

(** A directory in which a file with the suffix comes before the file
    without it. *)
Definition suffixed_first_dirs (comp_type : string) : option (list part_source) :=
  if String.eqb comp_type "cooler"
  then Some [ {| part_stem := "COOL_A_SCItem"; part_health := Some (Value 50) |};
              {| part_stem := "COOL_A"; part_health := Some (Value 300) |} ]
  else None.

Definition thruster_sample : part_source :=
  {| part_stem := "thrs_main"; part_health := Some (Value 450) |}.

Definition thruster_sample_dir : list part_source :=
  [ {| part_stem := "THRS_Main"; part_health := Some (Value 100) |};
    thruster_sample;
    {| part_stem := "THRS_Retro"; part_health := Some NoMatch |} ].

End PartsRest.

(** ** More of [scripts/extract_ship_loadouts.py] *)

Module LoadoutsRest.
Import Loadouts.

(** The strings of ASCII characters, on which [PyStr.lower] and
    [PyStr.upper] are [str.lower] and [str.upper]. *)
Definition ascii_only (s : string) : bool :=
  forallb (fun c => (nat_of_ascii c <? 128)%nat) (list_ascii_of_string s).

(** The test of line 148 of [extract_ship_loadout], as [add_loadout] makes it. *)
Definition is_weapon_hardpoint (port_name : string) : bool :=
  existsb (fun pat => pat in_str port_name) WEAPON_HARDPOINT_PATTERNS.

(** A JSON value whose iteration yields nothing: the empty object and the
    empty string.  Iterating a non-empty object or string yields strings,
    on which the [.get] of the loop body raises; a number, a boolean and
    [null] cannot be iterated. *)
Definition iterates_nothing (j : json) : bool :=
  match j with
  | JObj o => bool_decide (o = ∅)
  | JStr s => String.eqb s ""
  | _ => false
  end.

(** [sp.get('default_weapon') is None] *)
Definition default_weapon_is_none (o : gmap string json) : bool :=
  match o !! "default_weapon" with
  | None | Some JNull => true
  | Some _ => false
  end.

(** Lines 212-220: one round of the loop over [enumerate(sub_ports)].
    [None] is an exception, which nothing catches. *)
Definition update_sub_port (weapons : list string) (weapons_db : gmap string json)
    (i : nat) (sp : json) : option (json * Z) :=
  match sp with
  | JObj o =>
      if default_weapon_is_none o then
        match weapons !! i with
        | Some weapon_id =>
            if bool_decide (is_Some (weapons_db !! weapon_id))
            then Some (JObj (<["default_weapon" := JStr weapon_id]> o), 1)
            else Some (sp, 0)                          (* Warning *)
        | None => Some (sp, 0)                         (* not i < len(weapons) *)
        end
      else Some (sp, 0)
  | _ => None
  end.

Fixpoint update_sub_ports (weapons : list string) (weapons_db : gmap string json)
    (i : nat) (sub_ports : list json) : option (list json * Z) :=
  match sub_ports with
  | [] => Some ([], 0)
  | sp :: rest =>
      '(sp', n) ← update_sub_port weapons weapons_db i sp;
      '(rest', m) ← update_sub_ports weapons weapons_db (S i) rest;
      Some (sp' :: rest', n + m)
  end.

(** Lines 200-220: one round of the loop over the weapon hardpoints. *)
Definition update_hardpoint (loadouts : gmap string (list string))
    (weapons_db : gmap string json) (hp : json) : option (json * Z) :=
  match hp with
  | JObj o =>
      match default (JStr "") (o !! "port_name") with
      | JStr port_name =>
          let port_name := PyStr.lower port_name in
          match default [] (loadouts !! port_name) with
          | [] => Some (hp, 0)                         (* continue *)
          | weapons =>
              match o !! "sub_ports" with
              | None => Some (hp, 0)
              | Some (JArr sub_ports) =>
                  '(sub_ports', n) ← update_sub_ports weapons weapons_db 0 sub_ports;
                  Some (JObj (<["sub_ports" := JArr sub_ports']> o), n)
              | Some j => if iterates_nothing j then Some (hp, 0) else None
              end
          end
      | _ => None                                      (* .lower() raises *)
      end
  | _ => None                                          (* .get raises *)
  end.

Fixpoint update_hardpoints (loadouts : gmap string (list string))
    (weapons_db : gmap string json) (hps : list json) : option (list json * Z) :=
  match hps with
  | [] => Some ([], 0)
  | hp :: rest =>
      '(hp', n) ← update_hardpoint loadouts weapons_db hp;
      '(rest', m) ← update_hardpoints loadouts weapons_db rest;
      Some (hp' :: rest', n + m)
  end.

(** [update_ship_with_loadout]: the record after the updates in place and
    the count that is returned. *)
Definition update_ship_with_loadout (ship_data : gmap string json)
    (loadouts : gmap string (list string)) (weapons_db : gmap string json)
    : option (gmap string json * Z) :=
  match ship_data !! "weapon_hardpoints" with
  | None => Some (ship_data, 0)
  | Some (JArr hps) =>
      '(hps', updated) ← update_hardpoints loadouts weapons_db hps;
      Some (<["weapon_hardpoints" := JArr hps']> ship_data, updated)
  | Some j => if iterates_nothing j then Some (ship_data, 0) else None
  end.

(** Lines 289-296 of [main]: what is saved, if anything. *)
Definition saved_after_update (ship_data : gmap string json)
    (loadouts : gmap string (list string)) (weapons_db : gmap string json)
    : option (gmap string json) :=
  match update_ship_with_loadout ship_data loadouts weapons_db with
  | Some (ship_data', updated) => if 0 <? updated then Some ship_data' else None
  | None => None
  end.

(** Sample data: a gun hardpoint with one empty and one filled sub-port. *)
Definition loadout_sample_ship : gmap string json :=
  list_to_map
    [("filename", JStr "aegs_gladius");
     ("weapon_hardpoints",
      JArr [JObj (list_to_map
                    [("port_name", JStr "Hardpoint_Gun_Nose");
                     ("sub_ports",
                      JArr [JObj (list_to_map [("size", JInt 3); ("default_weapon", JNull)]);
                            JObj (list_to_map [("size", JInt 3);
                                               ("default_weapon", JStr "old_gun")])])])])].

Definition sub_ports_sample : list json :=
  [JObj (list_to_map [("size", JInt 3); ("default_weapon", JNull)]);
   JObj (list_to_map [("size", JInt 3); ("default_weapon", JStr "old_gun")])].

Definition sub_ports_sample_updated : list json :=
  [JObj (<["default_weapon" := JStr "behr_laserrepeater_s3"]>
           (list_to_map [("size", JInt 3); ("default_weapon", JNull)]));
   JObj (list_to_map [("size", JInt 3); ("default_weapon", JStr "old_gun")])].

Definition loadout_sample : gmap string (list string) :=
  list_to_map [("hardpoint_gun_nose", ["behr_laserrepeater_s3"; "klwe_lasercannon_s3"])].

Definition weapons_sample : gmap string json :=
  list_to_map [("behr_laserrepeater_s3", JObj ∅); ("klwe_lasercannon_s3", JObj ∅)].

End LoadoutsRest.

(** ** More of [scripts/fix_missiles.py] *)

Module MissilesRest.
Import Missiles.

(** A ship file whose loadout entries have class names of ASCII
    characters. *)
Definition ascii_class_names (root : elem) : Prop :=
  Forall (fun entry => LoadoutsRest.ascii_only (get_attr entry "entityClassName") = true)
         (iter ENTRY root).

(** Lines 137-150 of [main]: the dict appended for a missile.  Both
    branches of the test [missile_id in weapons_db] append the same one. *)
Definition sub_port_of (m : Z * string) : gmap string json :=
  <["size" := JInt m.1]> (<["default_weapon" := JStr m.2]> ∅).

Definition new_sub_port (weapons_db : gmap string json) (m : Z * string) : json :=
  if bool_decide (is_Some (weapons_db !! m.2))
  then JObj (sub_port_of m)
  else JObj (sub_port_of m).

(** [{'size': size, 'default_weapon': missile_id} == j]: two dicts are
    equal when they have as many keys and equal values under each. *)
Definition sub_port_eq (m : Z * string) (j : json) : bool :=
  match j with
  | JObj o =>
      bool_decide (size o = 2%nat)
      && match o !! "size" with
         | Some v => py_eq_int v m.1
         | None => false
         end
      && match o !! "default_weapon" with
         | Some (JStr s) => String.eqb s m.2
         | _ => false
         end
  | _ => false
  end.

Fixpoint sub_ports_eq_list (missiles : list (Z * string)) (l : list json) : bool :=
  match missiles, l with
  | [], [] => true
  | m :: missiles', j :: l' => sub_port_eq m j && sub_ports_eq_list missiles' l'
  | _, _ => false
  end.

(** [new_sub_ports == j] *)
Definition sub_ports_eq (missiles : list (Z * string)) (j : json) : bool :=
  match j with
  | JArr l => sub_ports_eq_list missiles l
  | _ => false
  end.

(** The values [len] accepts. *)
Definition has_len (j : json) : bool :=
  match j with
  | JArr _ | JObj _ | JStr _ => true
  | _ => false
  end.

(** Lines 130-158: one round of the loop over the weapon hardpoints, with
    what it adds to [missiles_fixed].  [None] is an exception, which
    nothing catches. *)
Definition fix_hardpoint (missile_loadouts : gmap string (list (Z * string)))
    (weapons_db : gmap string json) (hp : json) : option (json * Z) :=
  match hp with
  | JObj o =>
      match default (JStr "") (o !! "port_name") with
      | JStr port_name =>
          let port_name := PyStr.lower port_name in
          match missile_loadouts !! port_name with
          | Some missiles =>
              let new_sub_ports := map (new_sub_port weapons_db) missiles in
              let old := default (JArr []) (o !! "sub_ports") in
              if negb (bool_decide (new_sub_ports = []))
                 && negb (sub_ports_eq missiles old)
              then
                if has_len old
                then Some (JObj (<["sub_ports" := JArr new_sub_ports]> o),
                           Z.of_nat (length new_sub_ports))
                else None                              (* len raises *)
              else Some (hp, 0)
          | None => Some (hp, 0)
          end
      | _ => None                                      (* .lower() raises *)
      end
  | _ => None                                          (* .get raises *)
  end.

Fixpoint fix_hardpoints (missile_loadouts : gmap string (list (Z * string)))
    (weapons_db : gmap string json) (hps : list json) : option (list json * Z) :=
  match hps with
  | [] => Some ([], 0)
  | hp :: rest =>
      '(hp', n) ← fix_hardpoint missile_loadouts weapons_db hp;
      '(rest', m) ← fix_hardpoints missile_loadouts weapons_db rest;
      Some (hp' :: rest', n + m)
  end.

(** The loop of lines 130-158 over [ship_data.get('weapon_hardpoints', [])]:
    the record after the updates in place and [missiles_fixed]. *)
Definition fix_ship (ship_data : gmap string json)
    (missile_loadouts : gmap string (list (Z * string)))
    (weapons_db : gmap string json) : option (gmap string json * Z) :=
  match ship_data !! "weapon_hardpoints" with
  | None => Some (ship_data, 0)
  | Some (JArr hps) =>
      '(hps', missiles_fixed) ← fix_hardpoints missile_loadouts weapons_db hps;
      Some (<["weapon_hardpoints" := JArr hps']> ship_data, missiles_fixed)
  | Some j => if LoadoutsRest.iterates_nothing j then Some (ship_data, 0) else None
  end.

(** Lines 160-162: what is written back, if anything. *)
Definition saved_after_fix (ship_data : gmap string json)
    (missile_loadouts : gmap string (list (Z * string)))
    (weapons_db : gmap string json) : option (gmap string json) :=
  match fix_ship ship_data missile_loadouts weapons_db with
  | Some (ship_data', missiles_fixed) =>
      if 0 <? missiles_fixed then Some ship_data' else None
  | None => None
  end.

(** Sample data: a rack stored with one slot, where the XML has two
    missiles. *)
Definition missile_sample_ship : gmap string json :=
  list_to_map
    [("filename", JStr "aegs_gladius");
     ("weapon_hardpoints",
      JArr [JObj (list_to_map
                    [("port_name", JStr "hardpoint_missile_left");
                     ("sub_ports",
                      JArr [JObj (list_to_map [("size", JInt 2);
                                               ("default_weapon", JNull)])])])])].

Definition missile_sample_loadouts : gmap string (list (Z * string)) :=
  list_to_map [("hardpoint_missile_left",
                [(2, "misl_s02_ir_fski_ignite"); (2, "misl_s02_ir_fski_ignite")])].

Definition missile_sample_fields : gmap string json :=
  list_to_map [("port_name", JStr "Hardpoint_Missile_Left")].

Definition missile_sample_fixed : json :=
  JObj (<["sub_ports" :=
            JArr [JObj (sub_port_of (2, "misl_s02_ir_fski_ignite"));
                  JObj (sub_port_of (2, "misl_s02_ir_fski_ignite"))]]>
          missile_sample_fields).

Definition missile_sample_db : gmap string json :=
  list_to_map [("misl_s02_ir_fski_ignite", JObj ∅)].

End MissilesRest.

(** * Properties *)

(** ** Ordered dictionaries *)

Section DictFacts.
Context {V : Type}.
Implicit Types (d : odict V) (k : string) (v : V).

Lemma dict_get_set_eq d k v : dict_get (dict_set d k v) k = Some v.
Proof.
  induction d as [|[k' v'] d IH]; simpl.
  - by rewrite String.eqb_refl.
  - destruct (String.eqb_spec k' k) as [->|Hne]; simpl.
    + by rewrite String.eqb_refl.
    + by destruct (String.eqb_spec k' k).
Qed.

Lemma dict_get_set_ne d k k' v : k ≠ k' -> dict_get (dict_set d k v) k' = dict_get d k'.
Proof.
  intros Hne. induction d as [|[k0 v0] d IH]; simpl.
  - by destruct (String.eqb_spec k k').
  - destruct (String.eqb_spec k0 k) as [->|Hne0]; simpl.
    + by destruct (String.eqb_spec k k').
    + by rewrite IH.
Qed.

Lemma dict_keys_set d k v :
  dict_keys (dict_set d k v) =
  if dict_mem d k then dict_keys d else dict_keys d ++ [k].
Proof.
  unfold dict_mem, dict_keys. induction d as [|[k' v'] d IH]; simpl; [done|].
  destruct (String.eqb_spec k' k) as [->|Hne]; simpl; [done|].
  rewrite IH. by destruct (dict_get d k).
Qed.

Lemma dict_mem_keys d k : dict_mem d k = true <-> k ∈ dict_keys d.
Proof.
  unfold dict_mem, dict_keys. induction d as [|[k' v'] d IH]; simpl.
  - split; [done | by intros ?%elem_of_nil].
  - destruct (String.eqb_spec k' k) as [->|Hne].
    + split; [intros _; apply list_elem_of_here | done].
    + rewrite IH. split; [apply list_elem_of_further|].
      intros [?|?]%elem_of_cons; [congruence | done].
Qed.

Lemma dict_set_NoDup d k v : NoDup (dict_keys d) -> NoDup (dict_keys (dict_set d k v)).
Proof.
  intros Hnd. rewrite dict_keys_set. destruct (dict_mem d k) eqn:Hm; [done|].
  apply NoDup_app. split; [done|]. split; [|apply NoDup_singleton].
  intros x Hx ->%list_elem_of_singleton.
  apply dict_mem_keys in Hx. congruence.
Qed.

Lemma dict_set_set d k v1 v2 : dict_set (dict_set d k v1) k v2 = dict_set d k v2.
Proof.
  induction d as [|[k' v'] d IH]; simpl.
  - by rewrite String.eqb_refl.
  - destruct (String.eqb_spec k' k) as [->|Hne]; simpl.
    + by rewrite String.eqb_refl.
    + destruct (String.eqb_spec k' k); [done|]. by rewrite IH.
Qed.

(** Two assignments commute when the first key is already present. *)
Lemma dict_set_comm d k v k' v' :
  dict_mem d k = true -> k ≠ k' ->
  dict_set (dict_set d k' v') k v = dict_set (dict_set d k v) k' v'.
Proof.
  unfold dict_mem. intros Hm Hne. induction d as [|[k0 v0] d IH]; simpl in *; [done|].
  destruct (String.eqb_spec k0 k) as [->|Hne0].
  - destruct (String.eqb_spec k k') as [|_]; [done|]. simpl.
    rewrite String.eqb_refl. by destruct (String.eqb_spec k k').
  - destruct (String.eqb_spec k0 k') as [->|Hne1]; simpl.
    + destruct (String.eqb_spec k' k); [done|]. by rewrite String.eqb_refl.
    + destruct (String.eqb_spec k0 k); [done|].
      destruct (String.eqb_spec k0 k'); [done|]. by rewrite IH.
Qed.

Lemma dict_mem_set d k v k' :
  dict_mem d k' = true -> dict_mem (dict_set d k v) k' = true.
Proof.
  unfold dict_mem. destruct (String.eqb_spec k k') as [->|Hne].
  - by rewrite dict_get_set_eq.
  - by rewrite dict_get_set_ne.
Qed.

Lemma dict_mem_set_eq d k v : dict_mem (dict_set d k v) k = true.
Proof. unfold dict_mem. by rewrite dict_get_set_eq. Qed.

Lemma dict_get_app_fresh (pre post : odict V) k v :
  Forall (fun kv => kv.1 ≠ k) pre ->
  dict_get (pre ++ (k, v) :: post) k = Some v.
Proof.
  induction pre as [|[k' v'] pre IH]; intros Hall; simpl.
  - by rewrite String.eqb_refl.
  - apply Forall_cons in Hall as [Hne Hall]. simpl in Hne.
    destruct (String.eqb_spec k' k); [done | by apply IH].
Qed.

Lemma dict_get_not_in d k : k ∉ dict_keys d -> dict_get d k = None.
Proof.
  unfold dict_keys. induction d as [|[k' v'] d IH]; intros Hn; [done|]. simpl in *.
  apply not_elem_of_cons in Hn as [Hne Hn].
  destruct (String.eqb_spec k' k); [congruence | by apply IH].
Qed.

End DictFacts.

(** ** The record merge *)

Module MergeFacts.
Import ComponentHp.

Lemma get_ne_insert_eq d k v : get_ne (<[k := JInt v]> d) k v = false.
Proof. unfold get_ne. rewrite lookup_insert_eq. simpl. by rewrite Z.eqb_refl. Qed.

Lemma get_ne_insert_ne d k k' v v' :
  k ≠ k' -> get_ne (<[k := JInt v]> d) k' v' = get_ne d k' v'.
Proof. intros Hne. unfold get_ne. by rewrite lookup_insert_ne. Qed.

Lemma get_ne_update_eq d k v :
  get_ne (if get_ne d k v then <[k := JInt v]> d else d) k v = false.
Proof. destruct (get_ne d k v) eqn:H; [apply get_ne_insert_eq | done]. Qed.

Lemma stored_component_obj ship_data key :
  stored_component ship_data key = components_obj ship_data ≫= (.!! key).
Proof.
  unfold stored_component, components_obj.
  destruct (ship_data !! "components") as [[]|]; reflexivity.
Qed.

Lemma merge_step_skip ship_data changed key value :
  value <= 0 ->
  merge_step (ship_data, changed) (key, value) = Some (ship_data, changed).
Proof. intros H. unfold merge_step. by rewrite (proj2 (Z.ltb_ge 0 value)). Qed.

(** Everything a successful round with a positive value does. *)
Lemma merge_step_inv ship_data changed key value ship_data' changed' :
  merge_step (ship_data, changed) (key, value) = Some (ship_data', changed') ->
  0 < value ->
  (exists components,
    components_obj ship_data = Some components /\
    components_obj ship_data' =
      Some (if get_ne components key value
            then <[key := JInt value]> components else components)) /\
  (if String.eqb key "thruster_total_hp"
   then exists thrusters,
       thrusters_obj ship_data = Some thrusters /\
       thrusters_obj ship_data' =
         Some (if get_ne thrusters "total_hp" value
               then <["total_hp" := JInt value]> thrusters else thrusters)
   else thrusters_obj ship_data' = thrusters_obj ship_data) /\
  (forall name, is_Some (ship_data !! name) -> is_Some (ship_data' !! name)).
Proof.
  intros Hstep Hpos. unfold merge_step in Hstep.
  rewrite (proj2 (Z.ltb_lt 0 value) Hpos) in Hstep.
  destruct (components_obj ship_data) as [components|] eqn:Hc;
    cbn in Hstep; [|done].
  assert (Hco : forall (j : json) (sd : gmap string json), components_obj (<["components" := j]> sd) = as_obj j).
  { intros j sd. unfold components_obj. by rewrite lookup_insert_eq. }
  assert (Hto : forall (j : json) (sd : gmap string json), thrusters_obj (<["thrusters" := j]> sd) = as_obj j).
  { intros j sd. unfold thrusters_obj. by rewrite lookup_insert_eq. }
  assert (Hct : forall (j : json) (sd : gmap string json),
             components_obj (<["thrusters" := j]> sd) = components_obj sd).
  { intros j sd. unfold components_obj. by rewrite lookup_insert_ne. }
  assert (Htc : forall (j : json) (sd : gmap string json),
             thrusters_obj (<["components" := j]> sd) = thrusters_obj sd).
  { intros j sd. unfold thrusters_obj. by rewrite lookup_insert_ne. }
  assert (Hkeep : forall (k : string) (j : json) (sd : gmap string json) name,
             is_Some (sd !! name) -> is_Some (<[k := j]> sd !! name)).
  { intros k j sd name Hs. destruct (decide (k = name)) as [->|Hn].
    - rewrite lookup_insert_eq. by eexists.
    - by rewrite lookup_insert_ne. }
  destruct (get_ne components key value) eqn:Hne;
    destruct (String.eqb key "thruster_total_hp").
  - rewrite Htc in Hstep.
    destruct (thrusters_obj ship_data) as [thr|] eqn:Ht; cbn in Hstep; [|done].
    destruct (get_ne thr "total_hp" value) eqn:Hnt; inversion Hstep; subst; clear Hstep.
    + split; [|split].
      * exists components. rewrite Hne. split; [done|]. by rewrite Hct, Hco.
      * exists thr. rewrite Hnt. split; [done|]. by rewrite Hto.
      * intros name Hs. by do 2 apply Hkeep.
    + split; [|split].
      * exists components. rewrite Hne. split; [done|]. by rewrite Hco.
      * exists thr. rewrite Hnt. split; [done|]. by rewrite Htc.
      * intros name. apply Hkeep.
  - inversion Hstep; subst; clear Hstep. split; [|split].
    + exists components. rewrite Hne. split; [done|]. by rewrite Hco.
    + by rewrite Htc.
    + intros name. apply Hkeep.
  - destruct (thrusters_obj ship_data) as [thr|] eqn:Ht; cbn in Hstep; [|done].
    destruct (get_ne thr "total_hp" value) eqn:Hnt; inversion Hstep; subst; clear Hstep.
    + split; [|split].
      * exists components. rewrite Hne. split; [done|]. by rewrite Hct.
      * exists thr. rewrite Hnt. split; [done|]. by rewrite Hto.
      * intros name. apply Hkeep.
    + split; [|split]; [exists components; by rewrite Hne | exists thr; by rewrite Hnt | done].
  - inversion Hstep; subst; clear Hstep.
    split; [|split]; [exists components; by rewrite Hne | done | done].
Qed.

Lemma merge_step_noop ship_data changed kv :
  settled ship_data kv -> merge_step (ship_data, changed) kv = Some (ship_data, changed).
Proof.
  destruct kv as [key value]. intros Hs. unfold merge_step.
  destruct (0 <? value) eqn:Hpos; [|done]. apply Z.ltb_lt in Hpos.
  destruct (Hs Hpos) as [(components & Hc & Hne) Hthr]. simpl in *.
  rewrite Hc. cbn. rewrite Hne.
  destruct (String.eqb_spec key "thruster_total_hp") as [Heq|]; [|done].
  destruct (Hthr Heq) as (thrusters & Ht & Hne').
  rewrite Ht. cbn. by rewrite Hne'.
Qed.

Lemma merge_step_settles ship_data changed kv ship_data' changed' :
  merge_step (ship_data, changed) kv = Some (ship_data', changed') ->
  settled ship_data' kv.
Proof.
  destruct kv as [key value]. intros Hstep Hpos. simpl in *.
  destruct (merge_step_inv _ _ _ _ _ _ Hstep Hpos)
    as [(components & _ & Hc') [Hthr _]].
  split.
  - eexists. split; [exact Hc'|]. apply get_ne_update_eq.
  - intros ->. simpl in Hthr. destruct Hthr as (thrusters & _ & Ht').
    eexists. split; [exact Ht'|]. apply get_ne_update_eq.
Qed.

Lemma merge_step_keeps ship_data changed key value ship_data' changed' kv :
  merge_step (ship_data, changed) (key, value) = Some (ship_data', changed') ->
  key ≠ kv.1 -> settled ship_data kv -> settled ship_data' kv.
Proof.
  intros Hstep Hne Hs. destruct (Z.le_gt_cases value 0) as [Hle|Hpos].
  { rewrite merge_step_skip in Hstep by done. by inversion Hstep; subst. }
  destruct (merge_step_inv _ _ _ _ _ _ Hstep Hpos)
    as [(components & Hc & Hc') [Hthr _]].
  intros Hpos2. destruct (Hs Hpos2) as [(components2 & Hc2 & Hne2) Hthr2].
  rewrite Hc in Hc2. inversion Hc2; subst components2. split.
  - eexists. split; [exact Hc'|].
    destruct (get_ne components key value); [|done].
    by rewrite get_ne_insert_ne.
  - intros Heq. destruct (Hthr2 Heq) as (thrusters & Ht & Hnet).
    simpl in Heq. destruct (String.eqb_spec key "thruster_total_hp") as [->|_];
      [congruence|].
    exists thrusters. split; [by rewrite Hthr | exact Hnet].
Qed.

Lemma merge_loop_keeps l : forall ship_data changed ship_data' changed' kv,
  merge_loop (ship_data, changed) l = Some (ship_data', changed') ->
  kv.1 ∉ map fst l -> settled ship_data kv -> settled ship_data' kv.
Proof.
  induction l as [|[key value] l IH]; intros sd c sd' c' kv Hloop Hnotin Hs.
  - by inversion Hloop; subst.
  - cbn [merge_loop] in Hloop.
    destruct (merge_step (sd, c) (key, value)) as [[sd1 c1]|] eqn:Hstep;
      cbn in Hloop; [|done].
    simpl in Hnotin. apply not_elem_of_cons in Hnotin as [Hne Hnotin].
    eapply IH; [exact Hloop | exact Hnotin |].
    eapply merge_step_keeps; [exact Hstep | congruence | exact Hs].
Qed.

Lemma merge_loop_settles l : forall ship_data changed ship_data' changed',
  NoDup (map fst l) ->
  merge_loop (ship_data, changed) l = Some (ship_data', changed') ->
  Forall (settled ship_data') l.
Proof.
  induction l as [|[key value] l IH]; intros sd c sd' c' Hnd Hloop; [constructor|].
  cbn [merge_loop] in Hloop. simpl in Hnd. apply NoDup_cons in Hnd as [Hnotin Hnd].
  destruct (merge_step (sd, c) (key, value)) as [[sd1 c1]|] eqn:Hstep;
    cbn in Hloop; [|done].
  constructor.
  - eapply merge_loop_keeps; [exact Hloop | exact Hnotin |].
    eapply merge_step_settles, Hstep.
  - eapply IH; [exact Hnd | exact Hloop].
Qed.

Lemma merge_loop_noop l : forall ship_data changed,
  Forall (settled ship_data) l ->
  merge_loop (ship_data, changed) l = Some (ship_data, changed).
Proof.
  induction l as [|kv l IH]; intros sd c Hall; [done|].
  apply Forall_cons in Hall as [Hkv Hall]. cbn [merge_loop].
  rewrite merge_step_noop by done. cbn. by apply IH.
Qed.

Lemma merge_step_names ship_data changed kv ship_data' changed' name :
  merge_step (ship_data, changed) kv = Some (ship_data', changed') ->
  is_Some (ship_data !! name) -> is_Some (ship_data' !! name).
Proof.
  destruct kv as [key value]. intros Hstep.
  destruct (Z.le_gt_cases value 0) as [Hle|Hpos].
  - rewrite merge_step_skip in Hstep by done. by inversion Hstep; subst.
  - by apply (merge_step_inv _ _ _ _ _ _ Hstep).
Qed.

Lemma merge_loop_names l : forall ship_data changed ship_data' changed' name,
  merge_loop (ship_data, changed) l = Some (ship_data', changed') ->
  is_Some (ship_data !! name) -> is_Some (ship_data' !! name).
Proof.
  induction l as [|kv l IH]; intros sd c sd' c' name Hloop Hs.
  - by inversion Hloop; subst.
  - cbn [merge_loop] in Hloop.
    destruct (merge_step (sd, c) kv) as [[sd1 c1]|] eqn:Hstep; cbn in Hloop; [|done].
    eapply IH; [exact Hloop|]. eapply merge_step_names; [exact Hstep | exact Hs].
Qed.

Lemma ensure_obj_present name ship_data : is_Some (ensure_obj name ship_data !! name).
Proof.
  unfold ensure_obj. destruct (ship_data !! name) eqn:H.
  - rewrite H. by eexists.
  - rewrite lookup_insert_eq. by eexists.
Qed.

Lemma ensure_obj_keeps name name' ship_data :
  is_Some (ship_data !! name') -> is_Some (ensure_obj name ship_data !! name').
Proof.
  intros Hs. unfold ensure_obj. destruct (ship_data !! name) eqn:H; [done|].
  destruct (decide (name = name')) as [->|Hn].
  - rewrite lookup_insert_eq. by eexists.
  - by rewrite lookup_insert_ne.
Qed.

Lemma ensure_obj_id name ship_data :
  is_Some (ship_data !! name) -> ensure_obj name ship_data = ship_data.
Proof. intros [j Hj]. unfold ensure_obj. by rewrite Hj. Qed.

Lemma items_NoDup h : NoDup (map fst (items h)).
Proof.
  apply (bool_decide_unpack _). by vm_compute.
Qed.

Lemma merge_totals_again ship_data h ship_data' changed :
  merge_totals ship_data h = Some (ship_data', changed) ->
  merge_totals ship_data' h = Some (ship_data', false).
Proof.
  intros Hm. unfold merge_totals in *.
  assert (Hc : is_Some (ship_data' !! "components")).
  { eapply merge_loop_names; [exact Hm|]. apply ensure_obj_keeps, ensure_obj_present. }
  assert (Ht : is_Some (ship_data' !! "thrusters")).
  { eapply merge_loop_names; [exact Hm|]. apply ensure_obj_present. }
  rewrite (ensure_obj_id "components") by done.
  rewrite (ensure_obj_id "thrusters") by done.
  apply merge_loop_noop. eapply merge_loop_settles; [apply items_NoDup | exact Hm].
Qed.

(** C2: merging is idempotent.  When merging an aggregate into a record
    succeeds, merging the same aggregate into the resulting record succeeds
    too, leaves that record as it is and reports [changed = false], so the
    second round does not write the file. *)
Theorem merge_idempotent ship_data h ship_data' changed :
  merge_totals ship_data h = Some (ship_data', changed) ->
  merge_totals ship_data' h = Some (ship_data', false) /\
  writes (update_ship_json ship_data' h) = false.
Proof.
  intros Hm. pose proof (merge_totals_again _ _ _ _ Hm) as Hm2.
  split; [exact Hm2|]. unfold update_ship_json. rewrite Hm2.
  by destruct (sum_values h =? 0).
Qed.

Lemma merge_step_stored ship_data changed k v ship_data' changed' key :
  merge_step (ship_data, changed) (k, v) = Some (ship_data', changed') ->
  k ≠ key \/ v <= 0 ->
  stored_component ship_data' key = stored_component ship_data key.
Proof.
  intros Hstep Hor. destruct (Z.le_gt_cases v 0) as [Hle|Hpos].
  { rewrite merge_step_skip in Hstep by done. by inversion Hstep; subst. }
  destruct Hor as [Hne|Hle]; [|lia].
  destruct (merge_step_inv _ _ _ _ _ _ Hstep Hpos) as [(components & Hc & Hc') _].
  rewrite !stored_component_obj, Hc, Hc'. simpl.
  destruct (get_ne components k v); [|done]. by rewrite lookup_insert_ne.
Qed.

Lemma merge_loop_stored l : forall ship_data changed ship_data' changed' key,
  merge_loop (ship_data, changed) l = Some (ship_data', changed') ->
  Forall (fun kv => kv.1 ≠ key \/ kv.2 <= 0) l ->
  stored_component ship_data' key = stored_component ship_data key.
Proof.
  induction l as [|[k v] l IH]; intros sd c sd' c' key Hloop Hall.
  - by inversion Hloop; subst.
  - cbn [merge_loop] in Hloop. apply Forall_cons in Hall as [Hkv Hall].
    destruct (merge_step (sd, c) (k, v)) as [[sd1 c1]|] eqn:Hstep; cbn in Hloop; [|done].
    rewrite (IH _ _ _ _ _ Hloop Hall). eapply merge_step_stored; [exact Hstep | exact Hkv].
Qed.

Lemma zero_or_absent (d : odict Z) key :
  NoDup (map fst d) ->
  dict_get d key = Some 0 \/ dict_get d key = None ->
  Forall (fun kv => kv.1 ≠ key \/ kv.2 <= 0) d.
Proof.
  induction d as [|[k v] d IH]; intros Hnd Hget; [constructor|].
  simpl in Hnd, Hget. apply NoDup_cons in Hnd as [Hnotin Hnd].
  destruct (String.eqb_spec k key) as [->|Hne].
  - constructor.
    + right. simpl. destruct Hget as [[= ->]|[=]]. lia.
    + apply Forall_forall. intros [k' v'] Hin. left. simpl. intros ->.
      apply Hnotin. apply list_elem_of_fmap. by exists (key, v').
  - constructor; [by left | by apply IH].
Qed.

Lemma ensure_obj_stored name ship_data key :
  stored_component (ensure_obj name ship_data) key = stored_component ship_data key.
Proof.
  unfold ensure_obj. destruct (ship_data !! name) eqn:Hn; [done|].
  unfold stored_component. destruct (decide (name = "components")) as [->|Hne].
  - by rewrite lookup_insert_eq, Hn, lookup_empty.
  - by rewrite lookup_insert_ne.
Qed.

(** C1: a category whose total in the aggregate is zero, or that the
    aggregate does not have, keeps its stored value through the merge,
    whatever that value is. *)
Theorem merge_keeps_zero_categories ship_data h ship_data' changed key :
  merge_totals ship_data h = Some (ship_data', changed) ->
  dict_get (items h) key = Some 0 \/ dict_get (items h) key = None ->
  stored_component ship_data' key = stored_component ship_data key.
Proof.
  intros Hm Hz. unfold merge_totals in Hm.
  rewrite (merge_loop_stored _ _ _ _ _ key Hm).
  - by rewrite !ensure_obj_stored.
  - apply zero_or_absent; [apply items_NoDup | exact Hz].
Qed.

(** Two runs of the pipeline on the same inputs: whatever the first round
    did (skip, error, no change, update), the second round on the file it
    left does not write. *)
Theorem second_run_writes_nothing ship_xml lookup guid ship_data :
  let h := extract_component_hp_from_ship ship_xml lookup guid in
  writes (update_ship_json (file_after ship_data (update_ship_json ship_data h)) h)
  = false.
Proof.
  intros h. unfold update_ship_json at 2.
  destruct (sum_values h =? 0) eqn:Hsum.
  { simpl. unfold update_ship_json. by rewrite Hsum. }
  destruct (merge_totals ship_data h) as [[ship_data' changed]|] eqn:Hm.
  - destruct changed; simpl.
    + unfold update_ship_json. by rewrite Hsum, (merge_totals_again _ _ _ _ Hm).
    + unfold update_ship_json. by rewrite Hsum, Hm.
  - simpl. unfold update_ship_json. by rewrite Hsum, Hm.
Qed.

Lemma sample_merge_succeeds :
  exists ship_data' changed,
    merge_totals sample_record sample_totals = Some (ship_data', changed).
Proof.
  destruct (merge_totals sample_record sample_totals) as [[ship_data' changed]|] eqn:Hm.
  - by exists ship_data', changed.
  - apply (f_equal (fun o => match o with Some _ => true | None => false end)) in Hm.
    vm_compute in Hm. discriminate Hm.
Qed.

Lemma merge_keeps_zero_categories_witness :
  exists ship_data' changed,
    merge_totals sample_record sample_totals = Some (ship_data', changed) /\
    stored_component ship_data' "turret_total_hp"
    = stored_component sample_record "turret_total_hp".
Proof.
  destruct sample_merge_succeeds as (ship_data' & changed & Hm).
  exists ship_data', changed. split; [exact Hm|].
  apply (merge_keeps_zero_categories sample_record sample_totals ship_data' changed
           "turret_total_hp" Hm).
  left. vm_compute. reflexivity.
Defined.

Lemma merge_idempotent_witness :
  exists ship_data' changed,
    merge_totals sample_record sample_totals = Some (ship_data', changed) /\
    merge_totals ship_data' sample_totals = Some (ship_data', false) /\
    writes (update_ship_json ship_data' sample_totals) = false.
Proof.
  destruct sample_merge_succeeds as (ship_data' & changed & Hm).
  exists ship_data', changed. split; [exact Hm|].
  exact (merge_idempotent sample_record sample_totals ship_data' changed Hm).
Defined.

End MergeFacts.

(** ** The component catalogue *)

Module CatalogFacts.
Import ComponentHp.

Lemma add_file_hp st f :
  (add_file st f).1 =
  match stored_hp f with
  | Some (key, hp) => <[key := hp]> st.1
  | None => st.1
  end.
Proof.
  destruct st as [component_hp guid_lookup]. unfold add_file, stored_hp.
  destruct (PyStr.endswith (file_name f) ".xml"); simpl; [|done].
  destruct (file_xml f) as [x|]; [|done].
  by destruct (xml_health x).
Qed.

Lemma add_dir_files st w :
  add_dir st w =
  fold_left add_file (match w with Some dirs => concat dirs | None => [] end) st.
Proof.
  destruct w as [dirs|]; [|done]. simpl. revert st.
  induction dirs as [|files dirs IH]; intros st; [done|].
  simpl. by rewrite fold_left_app, IH.
Qed.

Lemma build_as_fold os_walk :
  build_component_hp_lookup os_walk = fold_left add_file (traversal os_walk) (∅, ∅).
Proof.
  unfold build_component_hp_lookup, traversal, COMPONENT_DIRS. simpl.
  rewrite !fold_left_app, !add_dir_files. reflexivity.
Qed.

Lemma fold_add_file_other files : forall st key,
  Forall (fun g => forall hp, stored_hp g ≠ Some (key, hp)) files ->
  (fold_left add_file files st).1 !! key = st.1 !! key.
Proof.
  induction files as [|g files IH]; intros st key Hall; [done|].
  apply Forall_cons in Hall as [Hg Hall]. simpl. rewrite IH by done.
  rewrite add_file_hp. destruct (stored_hp g) as [[k hp]|] eqn:Hs; [|done].
  rewrite lookup_insert_ne; [done|]. intros ->. by apply (Hg hp).
Qed.

Lemma fold_add_file_last pre f post st key hp :
  stored_hp f = Some (key, hp) ->
  Forall (fun g => forall hp', stored_hp g ≠ Some (key, hp')) post ->
  (fold_left add_file (pre ++ f :: post) st).1 !! key = Some hp.
Proof.
  intros Hf Hpost. rewrite fold_left_app. simpl.
  rewrite fold_add_file_other by done.
  rewrite add_file_hp, Hf. apply lookup_insert_eq.
Qed.

(** C3, as amended: when the keys of two component files collide, the
    record of the later file replaces the earlier one, so the lookup holds
    the record of the last file with that key in traversal order. *)
Theorem last_record_retained os_walk pre f1 mid f2 post key hp1 hp2 :
  traversal os_walk = pre ++ f1 :: mid ++ f2 :: post ->
  stored_hp f1 = Some (key, hp1) ->
  stored_hp f2 = Some (key, hp2) ->
  Forall (fun g => forall hp, stored_hp g ≠ Some (key, hp)) post ->
  (build_component_hp_lookup os_walk).1 !! key = Some hp2.
Proof.
  intros Ht _ Hf2 Hpost. rewrite build_as_fold, Ht.
  replace (pre ++ f1 :: mid ++ f2 :: post) with ((pre ++ f1 :: mid) ++ f2 :: post)
    by (by rewrite <- app_assoc).
  by apply fold_add_file_last.
Qed.

(** C3, as the claim states it, fails: the same file name in two
    sub-directories of the power plant directory leaves the second health
    in the lookup. *)
Lemma first_record_replaced :
  traversal sample_walk =
    [] ++ sample_file "POWR_Generic_S01.xml" 1000 :: []
       ++ sample_file "POWR_Generic_S01.xml" 1200 :: [] /\
  stored_hp (sample_file "POWR_Generic_S01.xml" 1000) = Some ("powr_generic_s01", 1000) /\
  stored_hp (sample_file "POWR_Generic_S01.xml" 1200) = Some ("powr_generic_s01", 1200) /\
  (build_component_hp_lookup sample_walk).1 !! "powr_generic_s01" = Some 1200 /\
  ~ first_record_retained.
Proof.
  assert (Hb : (build_component_hp_lookup sample_walk).1 !! "powr_generic_s01" = Some 1200)
    by (by vm_compute).
  split; [by vm_compute|]. split; [by vm_compute|]. split; [by vm_compute|].
  split; [exact Hb|]. intros Hclaim.
  specialize (Hclaim sample_walk [] (sample_file "POWR_Generic_S01.xml" 1000) []
                (sample_file "POWR_Generic_S01.xml" 1200) [] "powr_generic_s01" 1000 1200).
  rewrite Hb in Hclaim.
  assert (Some 1200 = Some 1000) as [=].
  apply Hclaim; [by vm_compute | by vm_compute | by vm_compute | constructor].
Qed.

Lemma last_record_retained_witness :
  (build_component_hp_lookup sample_walk).1 !! "powr_generic_s01" = Some 1200.
Proof.
  apply (last_record_retained sample_walk [] (sample_file "POWR_Generic_S01.xml" 1000) []
           (sample_file "POWR_Generic_S01.xml" 1200) [] "powr_generic_s01" 1000 1200).
  - by vm_compute.
  - by vm_compute.
  - by vm_compute.
  - constructor.
Defined.

(** [load_armor_data] stores in the same way: whatever the dictionary
    holds under the key of a file, the record of the file, its
    conversions done, replaces it. *)
Lemma armor_later_record_replaces armor_data f c health r0 :
  Parts.src_content f = Some c ->
  Parts.fld_health c = Parts.Value health ->
  Parts.armor_literal c health = Some r0 ->
  exists armor_data' r,
    Parts.add_armor armor_data f = Some armor_data' /\
    Parts.armor_health r = health /\
    dict_get armor_data' (PyStr.lower (Parts.src_stem f)) = Some r.
Proof.
  intros Hc Hh Hr. unfold Parts.add_armor. rewrite Hc, Hh, Hr.
  eexists _, r0. split; [reflexivity|]. split.
  - unfold Parts.armor_literal in Hr.
    repeat match type of Hr with
           | context [Parts.converted ?d ?f] => destruct (Parts.converted d f); try done
           end.
    by inversion Hr.
  - match goal with
    | |- dict_get (dict_set ?d ?k' ?r) ?k = _ =>
        destruct (decide (k' = k)) as [->|Hne];
        [apply dict_get_set_eq | rewrite dict_get_set_ne by done; apply dict_get_set_eq]
    end.
Qed.

End CatalogFacts.

(** ** The hardpoint classifier and the aggregator *)

Module ClassifierFacts.
Import Parts.

Lemma category_of_rules port_name entity_class :
  category_of port_name entity_class = first_match code_rules port_name entity_class.
Proof.
  unfold category_of, first_match, code_rules, on_either, on_port, armor_rule.
  cbn [find fst snd].
  repeat match goal with
         | |- context [if ?b then _ else _] => destruct b; [reflexivity|]
         end.
  reflexivity.
Qed.

Lemma cat_empty key : cat empty_categories key = [].
Proof.
  unfold cat, empty_categories. cbn [list_to_map foldr uncurry fst snd].
  repeat (rewrite lookup_insert; case_decide; [done|]).
  by rewrite lookup_empty.
Qed.

Lemma cat_cat_append categories key pair key' :
  cat (cat_append categories key pair) key' =
  if decide (key = key') then cat categories key' ++ [pair] else cat categories key'.
Proof.
  unfold cat_append, cat at 1. rewrite lookup_insert.
  case_decide; [by subst | done].
Qed.

Lemma categorize_fold mappings : forall categories key,
  cat (fold_left categorize_one mappings categories) key =
  cat categories key ++ filter (fun pe => category_of pe.1 pe.2 = key) mappings.
Proof.
  induction mappings as [|[p e] mappings IH]; intros categories key.
  - by rewrite app_nil_r.
  - cbn [fold_left]. unfold categorize_one at 2. rewrite IH, cat_cat_append, filter_cons. simpl.
    case_decide; [by rewrite <- app_assoc | done].
Qed.

(** C4, as amended: [category_of] returns the category of the first rule
    that matches, in the fixed order thrusters, turrets, armor, powerplant,
    cooler, shield, quantumdrive, weapons, missiles, else other; the
    thruster and turret rules look for their keyword in the port name and
    in the entity id, the armor rule looks for [armor] in the port name or
    [armr_] in the entity id, and every later rule tests the port name
    only.  Each list of [categorize_hardpoints] holds, in order, the pairs
    of that category. *)
Theorem classify_first_match :
  (forall port_name entity_class,
      category_of port_name entity_class = first_match code_rules port_name entity_class) /\
  (forall port_name entity_class,
      on_either "thruster" port_name entity_class = false ->
      on_either "turret" port_name entity_class = true ->
      category_of port_name entity_class = "turrets") /\
  (forall port_name entity_class,
      category_of port_name entity_class = "powerplant" ->
      ("power" in_str port_name) = true) /\
  (forall mappings key,
      cat (categorize_hardpoints mappings) key =
      filter (fun pe => category_of pe.1 pe.2 = key) mappings).
Proof.
  split; [apply category_of_rules|]. split; [|split].
  - intros p e Hthr Htur. unfold category_of. unfold on_either in Hthr, Htur.
    by rewrite Hthr, Htur.
  - intros p e. unfold category_of.
    repeat match goal with
           | |- context [if ?b then _ else _] => destruct b eqn:?; try discriminate
           end; done.
  - intros mappings key.
    unfold categorize_hardpoints. by rewrite categorize_fold, cat_empty.
Qed.

Lemma classify_first_match_witness :
  category_of "hardpoint_turret_weapon" "behr_lasercannon_s2" = "turrets" /\
  ("power" in_str "hardpoint_power_plant") = true.
Proof.
  split.
  - apply (proj1 (proj2 classify_first_match)); vm_compute; reflexivity.
  - apply (proj1 (proj2 (proj2 classify_first_match)) _ "powr_generic_s01").
    vm_compute. reflexivity.
Defined.

(** C4, as the claim states it, fails: an entity id with the power keyword
    on a port without it is classified [other], not [powerplant]. *)
Lemma entity_keyword_not_tested :
  category_of "hardpoint_pp_left" "powerplant_s01" = "other" /\
  first_match claimed_rules "hardpoint_pp_left" "powerplant_s01" = "powerplant" /\
  cat (categorize_hardpoints [("hardpoint_pp_left", "powerplant_s01")]) "powerplant" = [] /\
  cat (categorize_hardpoints [("hardpoint_pp_left", "powerplant_s01")]) "other"
    = [("hardpoint_pp_left", "powerplant_s01")].
Proof. repeat split; by vm_compute. Qed.

End ClassifierFacts.

Module AggregatorFacts.
Import Parts.

Lemma sum_list_cons x l : sum_list (x :: l) = x + sum_list l.
Proof. reflexivity. Qed.

Lemma positive_hps_nil hp_of : positive_hps hp_of [] = [].
Proof. reflexivity. Qed.

Lemma positive_hps_cons hp_of p e hardpoints :
  positive_hps hp_of ((p, e) :: hardpoints) =
  if 0 <? hp_of (PyStr.lower e)
  then hp_of (PyStr.lower e) :: positive_hps hp_of hardpoints
  else positive_hps hp_of hardpoints.
Proof.
  unfold positive_hps. simpl. rewrite filter_cons.
  destruct (Z.ltb_spec 0 (hp_of (PyStr.lower e))); case_decide; (done || lia).
Qed.

Lemma components_fold comp hardpoints : forall total count,
  fold_left (add_component comp) hardpoints (total, count) =
  (total + sum_list (positive_hps (component_hp comp) hardpoints),
   count + Z.of_nat (length (positive_hps (component_hp comp) hardpoints))).
Proof.
  induction hardpoints as [|[p e] hardpoints IH]; intros total count.
  - rewrite positive_hps_nil. cbn. by rewrite !Z.add_0_r.
  - cbn [fold_left]. rewrite positive_hps_cons. unfold add_component at 2.
    destruct (0 <? component_hp comp (PyStr.lower e)); rewrite IH; [|done].
    rewrite sum_list_cons. cbn [length]. f_equal; lia.
Qed.

Lemma thrusters_fold td hardpoints : forall t,
  let t' := fold_left (add_thruster td) hardpoints t in
  thruster_count t' =
    thruster_count t + Z.of_nat (length (positive_hps (thruster_hp td) hardpoints)) /\
  thruster_total_hp t' =
    thruster_total_hp t + sum_list (positive_hps (thruster_hp td) hardpoints).
Proof.
  induction hardpoints as [|[p e] hardpoints IH]; intros t.
  - rewrite positive_hps_nil. cbn. by rewrite !Z.add_0_r.
  - cbn [fold_left]. cbn zeta. rewrite positive_hps_cons.
    destruct (IH (add_thruster td t (p, e))) as [-> ->]. clear IH.
    unfold add_thruster.
    destruct (0 <? thruster_hp td (PyStr.lower e)); [|done].
    rewrite sum_list_cons. cbn [length].
    repeat match goal with
           | |- context [if ?b then _ else _] => destruct b
           end; unfold thruster_total_hp; cbn; lia.
Qed.

Lemma component_hp_zero comp entity_lower :
  component_hp comp entity_lower = 0 <->
  default 0 (comp !! entity_lower) = 0 /\
  default 0 (comp !! PyStr.replace entity_lower "_scitem" "") = 0.
Proof.
  unfold component_hp. destruct (Z.eqb_spec (default 0 (comp !! entity_lower)) 0) as [Hz|Hz].
  - split; [by intros ? | by intros [_ ?]].
  - split; [done | by intros [? _]].
Qed.

Lemma zero_component_skipped comp hardpoints port_name entity_class :
  component_hp comp (PyStr.lower entity_class) = 0 ->
  ship_components comp (hardpoints ++ [(port_name, entity_class)])
  = ship_components comp hardpoints.
Proof.
  intros Hz. unfold ship_components. rewrite fold_left_app. cbn [fold_left].
  destruct (fold_left (add_component comp) hardpoints (0, 0)) as [total count].
  unfold add_component. by rewrite Hz.
Qed.

Lemma zero_thruster_skipped td hardpoints port_name entity_class :
  thruster_hp td (PyStr.lower entity_class) = 0 ->
  ship_thrusters td (hardpoints ++ [(port_name, entity_class)])
  = ship_thrusters td hardpoints.
Proof.
  intros Hz. unfold ship_thrusters. rewrite fold_left_app. cbn [fold_left].
  unfold add_thruster at 1. by rewrite Hz.
Qed.

(** C8, as amended: in the component loops and in the thruster loop only
    the hardpoints whose lookup ends with a strictly positive health are
    counted and added; a hardpoint whose lookup ends with health 0
    neither increments the count nor adds to the total.  The lookup of a
    thruster ends with the health of the exactly matching record when
    there is one; the lookup of a component ends with 0 only when the
    health stored under the entity name and the health stored under the
    name without [_scitem] are both 0 or absent. *)
Theorem zero_health_not_counted comp td hardpoints :
  ship_components comp hardpoints =
    (sum_list (positive_hps (component_hp comp) hardpoints),
     Z.of_nat (length (positive_hps (component_hp comp) hardpoints))) /\
  thruster_count (ship_thrusters td hardpoints) =
    Z.of_nat (length (positive_hps (thruster_hp td) hardpoints)) /\
  thruster_total_hp (ship_thrusters td hardpoints) =
    sum_list (positive_hps (thruster_hp td) hardpoints) /\
  (forall port_name entity_class,
      component_hp comp (PyStr.lower entity_class) = 0 ->
      ship_components comp (hardpoints ++ [(port_name, entity_class)])
      = ship_components comp hardpoints) /\
  (forall port_name entity_class,
      thruster_hp td (PyStr.lower entity_class) = 0 ->
      ship_thrusters td (hardpoints ++ [(port_name, entity_class)])
      = ship_thrusters td hardpoints) /\
  (forall entity_lower,
      component_hp comp entity_lower = 0 <->
      default 0 (comp !! entity_lower) = 0 /\
      default 0 (comp !! PyStr.replace entity_lower "_scitem" "") = 0) /\
  (forall entity_lower r,
      dict_get td entity_lower = Some r -> thruster_hp td entity_lower = rec_health r).
Proof.
  split; [|split; [|split; [|split; [|split; [|split]]]]].
  - unfold ship_components. by rewrite components_fold.
  - unfold ship_thrusters. destruct (thrusters_fold td hardpoints no_thrusters) as [-> _].
    by cbn.
  - unfold ship_thrusters. destruct (thrusters_fold td hardpoints no_thrusters) as [_ ->].
    by cbn.
  - intros port_name entity_class. apply zero_component_skipped.
  - intros port_name entity_class. apply zero_thruster_skipped.
  - apply component_hp_zero.
  - intros entity_lower r Hr. unfold thruster_hp. by rewrite Hr.
Qed.

(** C8, as the claim states it, fails: a power plant and a thruster that
    resolve to health 0 leave the counts at 0. *)
Lemma zero_health_component_not_present :
  ({[ "powr_generic_s01" := 0 ]} : gmap string Z) !! "powr_generic_s01" = Some 0 /\
  ship_components {[ "powr_generic_s01" := 0 ]}
                  [("hardpoint_power_plant", "powr_generic_s01")] = (0, 0) /\
  dict_get [("thrs_main", {| rec_health := 0; rec_filename := "thrs_main" |})] "thrs_main"
    = Some {| rec_health := 0; rec_filename := "thrs_main" |} /\
  thruster_count
    (ship_thrusters [("thrs_main", {| rec_health := 0; rec_filename := "thrs_main" |})]
                    [("hardpoint_thruster_main", "thrs_main")]) = 0.
Proof. repeat split; by vm_compute. Qed.

(** A component stored with health 0 is still counted when the name
    without [_scitem] is stored with a positive health. *)
Lemma zero_health_retry_is_counted :
  ship_components (<["powr_x_scitem" := 0]> {[ "powr_x" := 40 ]})
                  [("hardpoint_power_plant", "POWR_X_SCItem")] = (40, 1).
Proof. by vm_compute. Qed.

End AggregatorFacts.

(** ** The hardpoint mapping and the resolver *)

Module MappingFacts.
Import Parts.

Lemma mappings_NoDup matches : forall mappings,
  NoDup (dict_keys mappings) ->
  NoDup (dict_keys (fold_left set_mapping matches mappings)).
Proof.
  induction matches as [|[p e] matches IH]; intros mappings Hnd; [done|].
  simpl. apply IH. by apply dict_set_NoDup.
Qed.

Lemma mappings_other matches : forall mappings port_lower,
  Forall (fun m => PyStr.lower m.1 ≠ port_lower) matches ->
  dict_get (fold_left set_mapping matches mappings) port_lower
  = dict_get mappings port_lower.
Proof.
  induction matches as [|[p e] matches IH]; intros mappings port_lower Hall; [done|].
  apply Forall_cons in Hall as [Hne Hall]. simpl.
  rewrite IH by done. by apply dict_get_set_ne.
Qed.

Lemma equal_but_set k d d' k' v' :
  equal_but k d d' -> k' ≠ k -> equal_but k (dict_set d k' v') (dict_set d' k' v').
Proof.
  intros (Hm & Hm' & Heq) Hne. split; [by apply dict_mem_set|].
  split; [by apply dict_mem_set|]. intros v.
  rewrite !(dict_set_comm _ k v k' v') by done. by rewrite Heq.
Qed.

Lemma mappings_overwritten matches : forall k d d',
  equal_but k d d' ->
  Exists (fun m => PyStr.lower m.1 = k) matches ->
  fold_left set_mapping matches d = fold_left set_mapping matches d'.
Proof.
  induction matches as [|[p e] matches IH]; intros k d d' Heq Hex.
  - by apply Exists_nil in Hex.
  - simpl. destruct (decide (PyStr.lower p = k)) as [<-|Hne].
    + destruct Heq as (_ & _ & Heq). by rewrite Heq.
    + apply Exists_cons in Hex as [Hex|Hex]; [done|].
      apply (IH k); [|done]. by apply equal_but_set.
Qed.

Lemma earlier_duplicate_ignored pre p e e' post :
  Exists (fun m => PyStr.lower m.1 = PyStr.lower p) post ->
  extract_hardpoint_mappings (pre ++ (p, e) :: post)
  = extract_hardpoint_mappings (pre ++ (p, e') :: post).
Proof.
  intros Hex. unfold extract_hardpoint_mappings. rewrite !fold_left_app. simpl.
  apply (mappings_overwritten post (PyStr.lower p)); [|done].
  split; [apply dict_mem_set_eq|]. split; [apply dict_mem_set_eq|].
  intros v. by rewrite !dict_set_set.
Qed.

Lemma dict_set_id {V} (d : odict V) k v : dict_get d k = Some v -> dict_set d k v = d.
Proof.
  induction d as [|[k' v'] d IH]; simpl; [done|].
  destruct (String.eqb k' k); [by intros [= ->]|]. intros H. by rewrite IH.
Qed.

(** The entity of the later of two entries with one port takes the place
    of the entity of the earlier one. *)
Lemma later_duplicate_takes_place pre p e mid p' e' post :
  PyStr.lower p' = PyStr.lower p ->
  Forall (fun m => PyStr.lower m.1 ≠ PyStr.lower p) mid ->
  extract_hardpoint_mappings (pre ++ (p, e) :: mid ++ (p', e') :: post)
  = extract_hardpoint_mappings (pre ++ (p, e') :: mid ++ post).
Proof.
  intros Hp Hmid. unfold extract_hardpoint_mappings.
  rewrite !fold_left_app. cbn [fold_left]. rewrite !fold_left_app. cbn [fold_left].
  f_equal. unfold set_mapping at 1. rewrite Hp.
  set (d := fold_left set_mapping pre []).
  set (k := PyStr.lower p) in *.
  assert (Heq : equal_but k (fold_left set_mapping mid (set_mapping d (p, e)))
                            (fold_left set_mapping mid (set_mapping d (p, e')))).
  { assert (H0 : equal_but k (set_mapping d (p, e)) (set_mapping d (p, e'))).
    { unfold set_mapping. fold k. split; [apply dict_mem_set_eq|].
      split; [apply dict_mem_set_eq|]. intros v. by rewrite !dict_set_set. }
    revert H0. generalize (set_mapping d (p, e)) (set_mapping d (p, e')).
    induction Hmid as [|[q x] mid Hq Hmid IH]; intros d1 d2 H0; [done|].
    cbn [fold_left]. apply IH. unfold set_mapping. by apply equal_but_set. }
  destruct Heq as (_ & _ & ->). apply dict_set_id.
  rewrite mappings_other by done. unfold set_mapping. fold k. apply dict_get_set_eq.
Qed.

(** C9, as amended: the mapping is keyed by the lowered port name, each
    port once; of the entries with one port name the last gives the
    entity, and the entity of an earlier one has no effect on the
    mapping, hence none on any count or total of the ship.  The earlier
    entry is not dropped, though: the port keeps the place of its first
    entry, the later entity moving there. *)
Theorem duplicate_port_keeps_last matches pre p e post :
  matches = pre ++ (p, e) :: post ->
  NoDup (dict_keys (extract_hardpoint_mappings matches)) /\
  (Forall (fun m => PyStr.lower m.1 ≠ PyStr.lower p) post ->
   dict_get (extract_hardpoint_mappings matches) (PyStr.lower p) = Some (PyStr.lower e)) /\
  (Exists (fun m => PyStr.lower m.1 = PyStr.lower p) post ->
   forall e',
     extract_hardpoint_mappings matches
       = extract_hardpoint_mappings (pre ++ (p, e') :: post) /\
     forall c filename,
       process_ship c filename matches
       = process_ship c filename (pre ++ (p, e') :: post)) /\
  (forall mid p' e' post',
     post = mid ++ (p', e') :: post' ->
     PyStr.lower p' = PyStr.lower p ->
     Forall (fun m => PyStr.lower m.1 ≠ PyStr.lower p) mid ->
     extract_hardpoint_mappings matches
       = extract_hardpoint_mappings (pre ++ (p, e') :: mid ++ post') /\
     forall c filename,
       process_ship c filename matches
       = process_ship c filename (pre ++ (p, e') :: mid ++ post')).
Proof.
  intros ->. split; [|split; [|split]].
  - apply mappings_NoDup, NoDup_nil_2.
  - intros Hlast. unfold extract_hardpoint_mappings. rewrite fold_left_app. simpl.
    rewrite mappings_other by done. apply dict_get_set_eq.
  - intros Hex e'. pose proof (earlier_duplicate_ignored pre p e e' post Hex) as Heq.
    split; [exact Heq|]. intros c filename. unfold process_ship. by rewrite Heq.
  - intros mid p' e' post' -> Hp Hmid.
    pose proof (later_duplicate_takes_place pre p e mid p' e' post' Hp Hmid) as Heq.
    split; [exact Heq|]. intros c filename. unfold process_ship. by rewrite Heq.
Qed.

Lemma duplicate_port_keeps_last_witness :
  dict_get (extract_hardpoint_mappings
              [("hardpoint_thruster_main", "THRS_A");
               ("Hardpoint_Thruster_Main", "THRS_B")]) "hardpoint_thruster_main"
  = Some "thrs_b" /\
  extract_hardpoint_mappings
    [("hardpoint_thruster_main", "THRS_A"); ("Hardpoint_Thruster_Main", "THRS_B")]
  = extract_hardpoint_mappings
      [("hardpoint_thruster_main", "anything"); ("Hardpoint_Thruster_Main", "THRS_B")] /\
  extract_hardpoint_mappings
    [("hardpoint_armor", "ARMR_A"); ("hardpoint_gun", "GUN_A");
     ("Hardpoint_Armor", "ARMR_B")]
  = extract_hardpoint_mappings [("hardpoint_armor", "ARMR_B"); ("hardpoint_gun", "GUN_A")].
Proof.
  split; [|split].
  - exact (proj1 (proj2 (duplicate_port_keeps_last _
             [("hardpoint_thruster_main", "THRS_A")] "Hardpoint_Thruster_Main" "THRS_B" []
             eq_refl)) (Forall_nil_2 _)).
  - refine (proj1 (proj1 (proj2 (proj2 (duplicate_port_keeps_last _
             [] "hardpoint_thruster_main" "THRS_A"
             [("Hardpoint_Thruster_Main", "THRS_B")] eq_refl))) _ "anything")).
    apply Exists_cons_hd. by vm_compute.
  - refine (proj1 (proj2 (proj2 (proj2 (duplicate_port_keeps_last _
             [] "hardpoint_armor" "ARMR_A"
             [("hardpoint_gun", "GUN_A"); ("Hardpoint_Armor", "ARMR_B")] eq_refl)))
             [("hardpoint_gun", "GUN_A")] "Hardpoint_Armor" "ARMR_B" [] eq_refl _ _)).
    + by vm_compute.
    + constructor; [|constructor]. by vm_compute.
Defined.

(** C9, as the claim states it, fails: the earlier entry is not dropped,
    it gives the port its place in the mapping.  With it the armor
    hardpoint comes before the second one and gives the armor of the
    ship; without it the second one comes first. *)
Lemma earlier_duplicate_keeps_place :
  extract_hardpoint_mappings
    [("hardpoint_armor_a", "ARMR_Old"); ("hardpoint_armor_b", "ARMR_B");
     ("hardpoint_armor_a", "ARMR_A")]
  = [("hardpoint_armor_a", "armr_a"); ("hardpoint_armor_b", "armr_b")] /\
  extract_hardpoint_mappings
    [("hardpoint_armor_b", "ARMR_B"); ("hardpoint_armor_a", "ARMR_A")]
  = [("hardpoint_armor_b", "armr_b"); ("hardpoint_armor_a", "armr_a")] /\
  armor_hp (ship_armor_values
              (process_ship duplicate_sample_catalog "AEGS_Gladius"
                 [("hardpoint_armor_a", "ARMR_Old"); ("hardpoint_armor_b", "ARMR_B");
                  ("hardpoint_armor_a", "ARMR_A")])) = 200 /\
  armor_hp (ship_armor_values
              (process_ship duplicate_sample_catalog "AEGS_Gladius"
                 [("hardpoint_armor_b", "ARMR_B"); ("hardpoint_armor_a", "ARMR_A")])) = 100.
Proof. repeat split; by vm_compute. Qed.

End MappingFacts.

Module ResolverFacts.
Import Parts.

Lemma by_pattern_first td entity_lower pre k rest :
  Forall (fun k' => pattern_matches entity_lower k' = false) pre ->
  pattern_matches entity_lower k = true ->
  thruster_by_pattern td entity_lower (pre ++ k :: rest)
  = match dict_get td k with Some r => rec_health r | None => 0 end.
Proof.
  intros Hpre Hk. induction pre as [|k' pre IH]; simpl.
  - by rewrite Hk.
  - apply Forall_cons in Hpre as [Hk' Hpre]. rewrite Hk'. by apply IH.
Qed.

Lemma by_pattern_none td entity_lower keys :
  Forall (fun k' => pattern_matches entity_lower k' = false) keys ->
  thruster_by_pattern td entity_lower keys = 0.
Proof.
  induction keys as [|k keys IH]; intros Hall; [done|].
  apply Forall_cons in Hall as [Hk Hall]. simpl. rewrite Hk. by apply IH.
Qed.

Lemma by_name_first ad filename acc pre k rest :
  Forall (fun k' => name_matches filename k' = false) pre ->
  name_matches filename k = true ->
  armor_by_name ad filename (pre ++ k :: rest) acc
  = match dict_get ad k with Some r => values_of r | None => acc end.
Proof.
  intros Hpre Hk. induction pre as [|k' pre IH]; simpl.
  - by rewrite Hk.
  - apply Forall_cons in Hpre as [Hk' Hpre]. rewrite Hk'. by apply IH.
Qed.

Lemma by_entity_none ad hardpoints acc :
  Forall (fun h => dict_get ad (PyStr.lower h.2) = None) hardpoints ->
  armor_by_entity ad hardpoints acc = acc.
Proof.
  induction hardpoints as [|[p e] hardpoints IH]; intros Hall; [done|].
  apply Forall_cons in Hall as [He Hall]. simpl in *. rewrite He. by apply IH.
Qed.

Lemma first_in_build_order {V} (P : string -> bool) (pre post : odict V) k v :
  Forall (fun kv => P kv.1 = false) pre -> P k = true ->
  Forall (fun k' => P k' = false) (dict_keys pre) /\
  dict_get (pre ++ (k, v) :: post) k = Some v.
Proof.
  intros Hpre Hk. split.
  - unfold dict_keys. by apply Forall_fmap.
  - apply dict_get_app_fresh. eapply Forall_impl; [exact Hpre|].
    intros [k' v'] Hk' Heq. simpl in *. congruence.
Qed.

(** C5, as amended: for a thruster the exact lookup comes first and, when
    it succeeds, decides; otherwise the first key of the catalogue, in
    build order, such that the lowered id contains the key or the key
    contains it gives the health, the two being compared as they are
    written, and no such key gives 0.  Separators are stripped only in the
    armor fall-back, which takes, when no armor hardpoint has resolved,
    the first armor key in build order that matches the ship's file
    name. *)
Theorem resolve_exact_then_first_match
    (td : odict hp_record) (ad : odict armor_record) entity_lower filename hardpoints :
  (forall r, dict_get td entity_lower = Some r ->
             thruster_hp td entity_lower = rec_health r) /\
  (dict_get td entity_lower = None ->
   forall pre k r post,
     td = pre ++ (k, r) :: post ->
     Forall (fun kv => pattern_matches entity_lower kv.1 = false) pre ->
     pattern_matches entity_lower k = true ->
     thruster_hp td entity_lower = rec_health r) /\
  (dict_get td entity_lower = None ->
   Forall (fun kv => pattern_matches entity_lower kv.1 = false) td ->
   thruster_hp td entity_lower = 0) /\
  (Forall (fun h => dict_get ad (PyStr.lower h.2) = None) hardpoints ->
   forall pre k r post,
     ad = pre ++ (k, r) :: post ->
     Forall (fun kv => name_matches filename kv.1 = false) pre ->
     name_matches filename k = true ->
     ship_armor ad filename hardpoints = values_of r).
Proof.
  split; [|split; [|split]].
  - intros r Hr. unfold thruster_hp. by rewrite Hr.
  - intros Hnone pre k r post -> Hpre Hk. unfold thruster_hp. rewrite Hnone.
    destruct (first_in_build_order (pattern_matches entity_lower) pre post k r Hpre Hk)
      as [Hkeys Hget].
    unfold dict_keys in *. rewrite map_app. simpl.
    by rewrite by_pattern_first, Hget.
  - intros Hnone Hall. unfold thruster_hp. rewrite Hnone.
    apply by_pattern_none. unfold dict_keys. by apply Forall_fmap.
  - intros Hnone pre k r post -> Hpre Hk. unfold ship_armor.
    rewrite by_entity_none by done. simpl.
    destruct (first_in_build_order (name_matches filename) pre post k r Hpre Hk)
      as [Hkeys Hget].
    unfold dict_keys in *. rewrite map_app. simpl.
    by rewrite by_name_first, Hget.
Qed.

(** C5, as the claim states it, fails: an id that equals a thruster key
    once the separators are stripped is not resolved. *)
Lemma separators_not_stripped :
  thruster_hp sample_thrusters (PyStr.lower "AEGS_Gladius_Thruster_Main") = 0 /\
  claimed_resolve sample_thrusters "AEGS_Gladius_Thruster_Main"
    = Some "aegs_gladius_thrustermain" /\
  claimed_hp sample_thrusters "AEGS_Gladius_Thruster_Main" = 450.
Proof. repeat split; by vm_compute. Qed.

Lemma resolve_exact_then_first_match_witness :
  thruster_hp sample_thrusters "aegs_gladius_thruster_retro" = 200 /\
  thruster_hp sample_thrusters "thruster_retro" = 200 /\
  ship_armor [("armr_aegs_gladius", sample_armor 900)] "AEGS_Gladius" []
    = values_of (sample_armor 900).
Proof.
  split; [|split].
  - apply (proj1 (resolve_exact_then_first_match sample_thrusters []
                    "aegs_gladius_thruster_retro" "" [])
             {| rec_health := 200; rec_filename := "aegs_gladius_thruster_retro" |}).
    vm_compute. reflexivity.
  - apply (proj1 (proj2 (resolve_exact_then_first_match sample_thrusters []
                           "thruster_retro" "" []))
             ltac:(vm_compute; reflexivity)
             [("aegs_gladius_thrustermain",
               {| rec_health := 450; rec_filename := "aegs_gladius_thrustermain" |})]
             "aegs_gladius_thruster_retro"
             {| rec_health := 200; rec_filename := "aegs_gladius_thruster_retro" |}
             []).
    + reflexivity.
    + constructor; [vm_compute; reflexivity | constructor].
    + vm_compute. reflexivity.
  - apply (proj2 (proj2 (proj2 (resolve_exact_then_first_match []
                    [("armr_aegs_gladius", sample_armor 900)] "" "AEGS_Gladius" [])))
             ltac:(constructor) [] "armr_aegs_gladius" (sample_armor 900) []).
    + reflexivity.
    + constructor.
    + vm_compute. reflexivity.
Defined.

(** The armor fall-back also runs when an armor hardpoint has resolved to
    an armor of health 0. *)
Lemma armor_fallback_after_zero_health :
  dict_get [("armr_test", sample_armor 0); ("armr_aegs_gladius", sample_armor 900)]
           "armr_test" = Some (sample_armor 0) /\
  ship_armor [("armr_test", sample_armor 0); ("armr_aegs_gladius", sample_armor 900)]
             "AEGS_Gladius" [("hardpoint_armor", "armr_test")]
  = values_of (sample_armor 900).
Proof. split; by vm_compute. Qed.

End ResolverFacts.

(** ** The loadout walk *)

Module WalkFacts.
Import Loadouts.

Lemma flat_map_in_flat_map {A B} (f : A -> list B) (l : list A) :
  flat_map_in l (fun x _ => f x) = flat_map f l.
Proof. induction l as [|x l IH]; simpl; [done | by rewrite IH]. Qed.

(** The walk satisfies the recursion of the source on every tree. *)
Lemma parse_loadout_entry_unfold entry depth :
  parse_loadout_entry entry depth =
  own_weapon entry
  ++ flat_map (fun sub_entry => parse_loadout_entry sub_entry (S depth))
              (nested_loadout_entries entry)
  ++ flat_map (fun sub_entry => parse_loadout_entry sub_entry (S depth))
              (findall ENTRY entry).
Proof.
  rewrite parse_loadout_entry_equation_1.
  by rewrite !(flat_map_in_flat_map (fun sub_entry => parse_loadout_entry sub_entry (S depth))).
Qed.

Lemma flat_map_ext_in {A B} (f g : A -> list B) (l : list A) :
  (forall x, In x l -> f x = g x) -> flat_map f l = flat_map g l.
Proof.
  induction l as [|x l IH]; intros H; simpl; [done|].
  rewrite (H x) by (by left). rewrite IH; [done|]. intros y Hy. apply H. by right.
Qed.

Lemma walk_ind (P : elem -> Prop) :
  (forall entry, (forall sub, (height sub < height entry)%nat -> P sub) -> P entry) ->
  forall entry, P entry.
Proof.
  intros H entry. remember (height entry) as n eqn:Hn. revert entry Hn.
  induction n as [n IH] using lt_wf_ind. intros entry ->.
  apply H. intros sub Hlt. by apply (IH (height sub)).
Qed.

Lemma depth_is_ignored entry : forall depth depth',
  parse_loadout_entry entry depth = parse_loadout_entry entry depth'.
Proof.
  induction entry as [entry IH] using walk_ind. intros depth depth'.
  rewrite (parse_loadout_entry_unfold entry depth), (parse_loadout_entry_unfold entry depth').
  f_equal. f_equal.
  - apply flat_map_ext_in. intros sub Hsub. apply IH.
    by apply nested_loadout_entries_height.
  - apply flat_map_ext_in. intros sub Hsub. apply IH.
    by eapply findall_height.
Qed.

Lemma descendants_trans e d x :
  In d (descendants e) -> In x (descendants d) -> In x (descendants e).
Proof.
  revert d x. induction e as [t a cs IH] using elem_ind_nested. intros d x Hd Hx.
  simpl in *. apply in_flat_map in Hd as (c & Hc & Hd).
  apply in_flat_map. exists c. split; [done|].
  rewrite Forall_forall in IH. destruct Hd as [<-|Hd].
  - by right.
  - right. apply (IH c (proj2 (list_elem_of_In _ _) Hc) d x Hd Hx).
Qed.

Lemma findall_descendant tag e d : In d (findall tag e) -> In d (descendants e).
Proof.
  unfold findall. intros H. apply list_elem_of_In, list_elem_of_filter in H.
  destruct H as [_ H]. by apply list_elem_of_In.
Qed.

Lemma nested_descendant entry d :
  In d (nested_loadout_entries entry) -> In d (descendants entry).
Proof.
  unfold nested_loadout_entries. intros H.
  apply in_flat_map in H as (l & Hl & H).
  apply in_flat_map in H as (m & Hm & H).
  apply in_flat_map in H as (es & Hes & H).
  apply findall_descendant in Hl, Hm, Hes, H.
  eauto using descendants_trans.
Qed.

Lemma own_weapon_In entry pair :
  In pair (own_weapon entry) ->
  pair = (get_attr entry "itemPortName", PyStr.lower (get_attr entry "entityClassName")) /\
  is_weapon_class (get_attr entry "entityClassName") = true.
Proof.
  unfold own_weapon.
  destruct (negb (String.eqb (get_attr entry "entityClassName") "")); simpl; [|done].
  destruct (is_weapon_class (get_attr entry "entityClassName")); simpl; [|done].
  by intros [<-|[]].
Qed.

Lemma walk_sound entry : forall depth pair,
  In pair (parse_loadout_entry entry depth) ->
  exists node,
    In node (entry :: descendants entry) /\ In pair (own_weapon node).
Proof.
  induction entry as [entry IH] using walk_ind. intros depth pair Hin.
  rewrite parse_loadout_entry_unfold in Hin.
  apply in_app_or in Hin as [Hin|Hin]; [exists entry; split; [by left | done]|].
  assert (Hsub : exists sub, In sub (descendants entry) /\
                             In pair (parse_loadout_entry sub (S depth))).
  { apply in_app_or in Hin as [Hin|Hin];
      apply in_flat_map in Hin as (sub & Hsub & Hin); exists sub; split; try done.
    - by apply nested_descendant.
    - by eapply findall_descendant. }
  destruct Hsub as (sub & Hsub & Hin').
  destruct (IH sub (descendants_height _ _ Hsub) _ _ Hin') as (node & Hnode & Hown).
  exists node. split; [|done]. right.
  destruct Hnode as [<-|Hnode]; [done | by eapply descendants_trans].
Qed.

Lemma walk_complete entry depth node pair :
  In node (findall ENTRY entry) -> In pair (own_weapon node) ->
  In pair (parse_loadout_entry entry depth).
Proof.
  intros Hnode Hown. rewrite parse_loadout_entry_unfold.
  apply in_or_app. right. apply in_or_app. right.
  apply in_flat_map. exists node. split; [done|].
  rewrite parse_loadout_entry_unfold. apply in_or_app. by left.
Qed.

Lemma collect_weapons_NoDup nested_weapons : NoDup (collect_weapons nested_weapons).
Proof.
  unfold collect_weapons.
  assert (H : forall acc, NoDup acc ->
     NoDup (fold_left
       (fun weapons '(_, weapon) =>
          if negb (String.eqb weapon "") && negb (existsb (String.eqb weapon) weapons)
          then weapons ++ [weapon] else weapons) nested_weapons acc)).
  { induction nested_weapons as [|[p w] l IH]; intros acc Hacc; [done|].
    simpl. apply IH. destruct (negb (String.eqb w "")); simpl; [|done].
    destruct (existsb (String.eqb w) acc) eqn:Hex; simpl; [done|].
    apply NoDup_app. split; [done|]. split; [|apply NoDup_singleton].
    intros x Hx ->%list_elem_of_singleton.
    assert (existsb (String.eqb w) acc = true); [|congruence].
    apply existsb_exists. exists w. split; [by apply list_elem_of_In|].
    apply String.eqb_refl. }
  apply H, NoDup_nil_2.
Qed.

(** C6, as amended: the walk keeps no visited set.  On every tree it
    terminates, each recursive call being on a proper descendant, and it
    returns what the entry adds followed by the results of the
    sub-entries of the two loops; every pair of the result is added by the
    entry or by one of its descendants, which may add it more than once;
    the list [extract_ship_loadout] makes of the result holds each weapon
    once. *)
Theorem walk_terminates_without_visited_set entry depth :
  parse_loadout_entry entry depth =
    own_weapon entry
    ++ flat_map (fun sub_entry => parse_loadout_entry sub_entry (S depth))
                (nested_loadout_entries entry)
    ++ flat_map (fun sub_entry => parse_loadout_entry sub_entry (S depth))
                (findall ENTRY entry) /\
  (forall pair,
      In pair (parse_loadout_entry entry depth) ->
      exists node, In node (entry :: descendants entry) /\ In pair (own_weapon node)) /\
  NoDup (collect_weapons (parse_loadout_entry entry depth)).
Proof.
  split; [apply parse_loadout_entry_unfold|].
  split; [apply walk_sound | apply collect_weapons_NoDup].
Qed.

(** C6, as the claim states it, fails: the only sub-entry of a gimbal
    mount is reached by both loops and adds its weapon twice. *)
Lemma nested_node_counted_twice :
  findall ENTRY turret_sample = [entry_elem "hardpoint_class_2" "BEHR_LaserCannon_S2" []] /\
  parse_loadout_entry turret_sample 0 =
    [ ("hardpoint_class_2", "behr_lasercannon_s2");
      ("hardpoint_class_2", "behr_lasercannon_s2") ].
Proof. split; by vm_compute. Qed.

(** C7, as amended: the walk enforces no depth bound.  The depth is passed
    along and never tested: the result is the same at every depth, and
    every descendant entry adds its weapon however deep it lies; no branch
    is cut. *)
Theorem walk_has_no_depth_bound entry depth :
  parse_loadout_entry entry depth = parse_loadout_entry entry 0 /\
  (forall node pair,
      In node (findall ENTRY entry) -> In pair (own_weapon node) ->
      In pair (parse_loadout_entry entry depth)).
Proof.
  split; [apply depth_is_ignored|]. intros node pair. apply walk_complete.
Qed.

(** C7, as the claim states it, fails: a gun below nine nested mounts is
    added once for every route to it, 256 times, the route of depth 9
    included, where a walk cut at depth 8 adds it 255 times (and 4 against 3
    below three mounts with a bound of 2). *)
Lemma recursion_passes_depth_8 :
  length (parse_loadout_entry (nested_sample 3) 0) = 4%nat /\
  length (bounded_walk 2 (nested_sample 3)) = 3%nat /\
  length (parse_loadout_entry (nested_sample 9) 0) = 256%nat /\
  length (bounded_walk 8 (nested_sample 9)) = 255%nat.
Proof. repeat split; by vm_compute. Qed.

Lemma walk_terminates_without_visited_set_witness :
  exists node,
    In node (turret_sample :: descendants turret_sample) /\
    In ("hardpoint_class_2", "behr_lasercannon_s2") (own_weapon node).
Proof.
  apply (proj1 (proj2 (walk_terminates_without_visited_set turret_sample 0))).
  left. reflexivity.
Defined.

Lemma walk_has_no_depth_bound_witness :
  In ("hardpoint_inner", "behr_lasercannon_s1")
     (parse_loadout_entry (nested_sample 9) 0).
Proof.
  apply (proj2 (walk_has_no_depth_bound (nested_sample 9) 0) (nested_sample 0)).
  - simpl. do 8 right. left. reflexivity.
  - left. reflexivity.
Defined.

End WalkFacts.

(** ** Missile racks *)

Module MissileFacts.
Import Missiles.

Lemma branch_of_cases port_name entity_class :
  branch_of port_name entity_class =
  if PyStr.startswith (PyStr.upper entity_class) "MRCK_" then MissileRack else Neither.
Proof.
  unfold branch_of.
  destruct (PyStr.startswith (PyStr.upper entity_class) "MRCK_"); [done|].
  by rewrite andb_false_r.
Qed.

Lemma add_rack_lookup missile_loadouts entry port missiles :
  add_rack missile_loadouts entry !! port = Some missiles ->
  missile_loadouts !! port = Some missiles \/
  (PyStr.lower (get_attr entry "itemPortName") = port /\
   PyStr.startswith (PyStr.upper (get_attr entry "entityClassName")) "MRCK_" = true /\
   missiles = rack_missiles 2 entry).
Proof.
  unfold add_rack. rewrite branch_of_cases.
  destruct (PyStr.startswith (PyStr.upper (get_attr entry "entityClassName")) "MRCK_");
    [|by left].
  destruct (rack_missiles 2 entry) as [|m ms] eqn:Hr; [by left|].
  rewrite lookup_insert. case_decide as Hp; [|by left].
  intros [= <-]. by right.
Qed.

Lemma fold_add_rack_lookup entries : forall missile_loadouts port missiles,
  fold_left add_rack entries missile_loadouts !! port = Some missiles ->
  missile_loadouts !! port = Some missiles \/
  exists entry,
    In entry entries /\
    PyStr.lower (get_attr entry "itemPortName") = port /\
    PyStr.startswith (PyStr.upper (get_attr entry "entityClassName")) "MRCK_" = true /\
    missiles = rack_missiles 2 entry.
Proof.
  induction entries as [|entry entries IH]; intros m port missiles Hl; [by left|].
  simpl in Hl. apply IH in Hl as [Hl|(entry' & Hin & H)].
  - apply add_rack_lookup in Hl as [Hl|H]; [by left|].
    right. exists entry. split; [by left | done].
  - right. exists entry'. split; [by right | done].
Qed.

Lemma rack_missiles_sizes default_size entry size name :
  In (size, name) (rack_missiles default_size entry) ->
  exists sub_entity,
    name = PyStr.lower sub_entity /\
    PyStr.startswith (PyStr.upper sub_entity) "MISL_" = true /\
    size = match misl_size sub_entity with Some n => n | None => default_size end.
Proof.
  unfold rack_missiles. intros H. apply in_flat_map in H as (sub & _ & H).
  destruct (PyStr.startswith (PyStr.upper (get_attr sub "entityClassName")) "MISL_") eqn:Hm;
    [|done].
  destruct H as [[= <- <-]|[]]. by exists (get_attr sub "entityClassName").
Qed.

(** C10: the torpedo branch is never taken, every rack being taken by the
    branch before it.  So whatever [extract_missiles_from_xml] records for
    a port comes from the missile rack branch of some entry with that
    port, torpedo racks included, and a missile whose name gives no size
    is recorded with size 2, never 5. *)
Theorem torpedo_default_never_applied root port missiles :
  extract_missiles_from_xml (Some root) !! port = Some missiles ->
  (forall port_name entity_class, branch_of port_name entity_class <> TorpedoRack) /\
  (exists entry,
      In entry (iter ENTRY root) /\
      PyStr.lower (get_attr entry "itemPortName") = port /\
      PyStr.startswith (PyStr.upper (get_attr entry "entityClassName")) "MRCK_" = true /\
      missiles = rack_missiles 2 entry) /\
  (forall size name,
      In (size, name) missiles ->
      exists sub_entity,
        name = PyStr.lower sub_entity /\
        size = match misl_size sub_entity with Some n => n | None => 2 end).
Proof.
  intros Hl. split; [|split].
  - intros p e. rewrite branch_of_cases. by destruct (PyStr.startswith _ _).
  - simpl in Hl. apply fold_add_rack_lookup in Hl as [Hl|Hl]; [|done].
    by rewrite lookup_empty in Hl.
  - simpl in Hl. apply fold_add_rack_lookup in Hl as [Hl|(entry & _ & _ & _ & ->)].
    + by rewrite lookup_empty in Hl.
    + intros size name Hin.
      apply rack_missiles_sizes in Hin as (sub_entity & Hn & _ & Hs). by exists sub_entity.
Qed.

Lemma torpedo_default_never_applied_witness :
  exists sub_entity,
    "misl_torpedo_argos" = PyStr.lower sub_entity /\
    2 = match misl_size sub_entity with Some n => n | None => 2 end.
Proof.
  apply (proj2 (proj2 (torpedo_default_never_applied torpedo_sample
           "hardpoint_torpedo_rack_left"
           [(2, "misl_torpedo_argos"); (9, "misl_s09_cs_taln_argos")]
           ltac:(vm_compute; reflexivity)))).
  by left.
Defined.

End MissileFacts.

(** ** Strings *)

Module StringFacts.
Import PyStr ComponentHpRest.

Ltac by_cases_on_char c :=
  destruct c as [[] [] [] [] [] [] [] []]; vm_compute; (reflexivity || congruence || tauto).

Lemma lower_char_idem c : lower_char (lower_char c) = lower_char c.
Proof. by_cases_on_char c. Qed.

Lemma upper_lower_char c : upper_char (lower_char c) = upper_char c.
Proof. by_cases_on_char c. Qed.

Lemma lower_upper_char c : lower_char (upper_char c) = lower_char c.
Proof. by_cases_on_char c. Qed.

Lemma lower_char_is_lower c : is_upper (lower_char c) = false.
Proof. by_cases_on_char c. Qed.

Lemma lower_char_keeps c : is_lower (lower_char c) = false -> lower_char c = c.
Proof. by_cases_on_char c. Qed.

Lemma lower_idem s : lower (lower s) = lower s.
Proof. induction s as [|c s IH]; simpl; [done|]. by rewrite lower_char_idem, IH. Qed.

Lemma upper_lower s : upper (lower s) = upper s.
Proof. induction s as [|c s IH]; simpl; [done|]. by rewrite upper_lower_char, IH. Qed.

Lemma lower_upper s : lower (upper s) = lower s.
Proof. induction s as [|c s IH]; simpl; [done|]. by rewrite lower_upper_char, IH. Qed.

Lemma lower_empty s : lower s = "" <-> s = "".
Proof. destruct s; simpl; split; congruence. Qed.

Lemma eqb_empty_lower s : String.eqb (lower s) "" = String.eqb s "".
Proof. by destruct s. Qed.

Lemma startswith_lower s p :
  startswith s p = true -> startswith (lower s) (lower p) = true.
Proof.
  revert s. induction p as [|a p IH]; intros [|b s]; simpl; try done.
  intros [Hab Hs]%andb_prop. apply Ascii.eqb_eq in Hab as ->.
  rewrite Ascii.eqb_refl. by apply IH.
Qed.

Lemma lower_eq_no_lower s t : no_lower t = true -> lower s = t -> s = t.
Proof.
  revert t. induction s as [|c s IH]; intros [|d t]; simpl; try done.
  intros [Hd Ht]%andb_prop [= Hc Hs]. f_equal; [|by apply IH].
  rewrite <- Hc. symmetry. apply lower_char_keeps. rewrite Hc.
  by destruct (is_lower d).
Qed.

End StringFacts.

(** ** More on the record merge *)

Module MergeMore.
Import ComponentHp ComponentHpRest MergeFacts.

(** What a round may write: the two objects, nothing else. *)
Lemma merge_step_fields ship_data changed kv ship_data' changed' name :
  merge_step (ship_data, changed) kv = Some (ship_data', changed') ->
  name ≠ "components" -> name ≠ "thrusters" ->
  ship_data' !! name = ship_data !! name.
Proof.
  destruct kv as [key value]. intros Hstep Hc Ht. unfold merge_step in Hstep.
  destruct (0 <? value); [|by inversion Hstep].
  destruct (components_obj ship_data) as [components|]; cbn in Hstep; [|done].
  destruct (get_ne components key value);
    destruct (String.eqb key "thruster_total_hp");
    repeat match type of Hstep with
      | context [thrusters_obj ?sd] =>
          destruct (thrusters_obj sd) as [thr|]; cbn in Hstep; [|done];
          destruct (get_ne thr "total_hp" value)
      end;
    inversion Hstep; subst; by rewrite ?lookup_insert_ne.
Qed.

Lemma merge_loop_fields l : forall ship_data changed ship_data' changed' name,
  merge_loop (ship_data, changed) l = Some (ship_data', changed') ->
  name ≠ "components" -> name ≠ "thrusters" ->
  ship_data' !! name = ship_data !! name.
Proof.
  induction l as [|kv l IH]; intros sd c sd' c' name Hloop Hc Ht.
  - by inversion Hloop; subst.
  - cbn [merge_loop] in Hloop.
    destruct (merge_step (sd, c) kv) as [[sd1 c1]|] eqn:Hstep; cbn in Hloop; [|done].
    rewrite (IH _ _ _ _ _ Hloop Hc Ht). by eapply merge_step_fields.
Qed.

Lemma ensure_obj_fields name' ship_data name :
  name ≠ name' -> ensure_obj name' ship_data !! name = ship_data !! name.
Proof.
  intros Hne. unfold ensure_obj. destruct (ship_data !! name'); [done|].
  by rewrite lookup_insert_ne.
Qed.

Lemma merge_step_thruster_fields ship_data changed kv ship_data' changed' key :
  merge_step (ship_data, changed) kv = Some (ship_data', changed') ->
  key ≠ "total_hp" ->
  stored_thruster_field ship_data' key = stored_thruster_field ship_data key.
Proof.
  destruct kv as [k v]. intros Hstep Hne. unfold stored_thruster_field.
  destruct (Z.le_gt_cases v 0) as [Hle|Hpos].
  { rewrite merge_step_skip in Hstep by done. by inversion Hstep; subst. }
  destruct (merge_step_inv _ _ _ _ _ _ Hstep Hpos) as (_ & Hthr & _).
  destruct (String.eqb k "thruster_total_hp").
  - destruct Hthr as (thrusters & -> & ->). cbn.
    destruct (get_ne thrusters "total_hp" v); [|done]. by rewrite lookup_insert_ne.
  - by rewrite Hthr.
Qed.

Lemma merge_loop_thruster_fields l : forall ship_data changed ship_data' changed' key,
  merge_loop (ship_data, changed) l = Some (ship_data', changed') ->
  key ≠ "total_hp" ->
  stored_thruster_field ship_data' key = stored_thruster_field ship_data key.
Proof.
  induction l as [|kv l IH]; intros sd c sd' c' key Hloop Hne.
  - by inversion Hloop; subst.
  - cbn [merge_loop] in Hloop.
    destruct (merge_step (sd, c) kv) as [[sd1 c1]|] eqn:Hstep; cbn in Hloop; [|done].
    rewrite (IH _ _ _ _ _ Hloop Hne). by eapply merge_step_thruster_fields.
Qed.

Lemma ensure_obj_thruster_field name ship_data key :
  stored_thruster_field (ensure_obj name ship_data) key
  = stored_thruster_field ship_data key.
Proof.
  unfold ensure_obj. destruct (ship_data !! name) eqn:Hn; [done|].
  unfold stored_thruster_field, thrusters_obj.
  destruct (decide (name = "thrusters")) as [->|Hne].
  - rewrite lookup_insert_eq, Hn. cbn. by rewrite lookup_empty.
  - by rewrite lookup_insert_ne.
Qed.

(** X1: a completed merge of [update_ship_json_files] writes nowhere but
    into the two objects [components] and [thrusters]: every other field
    of the ship record is as before, a key of [components] that is none
    of the six totals keeps its value, and so does every key of
    [thrusters] other than [total_hp]. *)
Theorem merge_leaves_other_fields ship_data h ship_data' changed :
  merge_totals ship_data h = Some (ship_data', changed) ->
  (forall name, name ≠ "components" -> name ≠ "thrusters" ->
                ship_data' !! name = ship_data !! name) /\
  (forall key, key ∉ map fst (items h) ->
               stored_component ship_data' key = stored_component ship_data key) /\
  (forall key, key ≠ "total_hp" ->
               stored_thruster_field ship_data' key = stored_thruster_field ship_data key).
Proof.
  intros Hm. unfold merge_totals in Hm. split; [|split].
  - intros name Hc Ht. rewrite (merge_loop_fields _ _ _ _ _ name Hm Hc Ht).
    by rewrite !ensure_obj_fields.
  - intros key Hkey. rewrite (merge_loop_stored _ _ _ _ _ key Hm).
    + by rewrite !ensure_obj_stored.
    + apply Forall_forall. intros [k v] Hin. left. simpl. intros ->.
      apply Hkey. apply list_elem_of_fmap. by exists (key, v).
  - intros key Hne. rewrite (merge_loop_thruster_fields _ _ _ _ _ key Hm Hne).
    by rewrite !ensure_obj_thruster_field.
Qed.

Lemma merge_leaves_other_fields_witness :
  exists ship_data' changed,
    merge_totals sample_record sample_totals = Some (ship_data', changed) /\
    ship_data' !! "filename" = sample_record !! "filename".
Proof.
  destruct sample_merge_succeeds as (ship_data' & changed & Hm).
  exists ship_data', changed. split; [exact Hm|].
  by apply (proj1 (merge_leaves_other_fields _ _ _ _ Hm)).
Defined.

Lemma get_ne_false d key v :
  get_ne d key v = false <-> exists j, d !! key = Some j /\ py_eq_int j v = true.
Proof.
  unfold get_ne. destruct (d !! key) as [j|].
  - split.
    + intros H. exists j. split; [done|]. by destruct (py_eq_int j v).
    + intros (j' & [= <-] & ->). done.
  - split; [done|]. by intros (j & ? & _).
Qed.

(** X2: after a completed merge every strictly positive total is stored
    under its key of [components] with an equal value, and a positive
    thruster total is stored under [thrusters.total_hp] as well. *)
Theorem merge_stores_positive_totals ship_data h ship_data' changed key value :
  merge_totals ship_data h = Some (ship_data', changed) ->
  In (key, value) (items h) -> 0 < value ->
  (exists j, stored_component ship_data' key = Some j /\ py_eq_int j value = true) /\
  (key = "thruster_total_hp" ->
   exists j, stored_thrusters_total ship_data' = Some j /\ py_eq_int j value = true).
Proof.
  intros Hm Hin Hpos. unfold merge_totals in Hm.
  pose proof (merge_loop_settles _ _ _ _ _ (items_NoDup h) Hm) as Hall.
  rewrite Forall_forall in Hall.
  destruct (Hall (key, value) (proj2 (list_elem_of_In _ _) Hin) Hpos)
    as [(components & Hc & Hne) Hthr]. simpl in *.
  split.
  - apply get_ne_false in Hne as (j & Hj & Heq). exists j. split; [|done].
    rewrite stored_component_obj, Hc. done.
  - intros Hk. destruct (Hthr Hk) as (thrusters & Ht & Hne').
    apply get_ne_false in Hne' as (j & Hj & Heq). exists j. split; [|done].
    unfold stored_thrusters_total. unfold thrusters_obj in Ht.
    destruct (ship_data' !! "thrusters") as [[]|]; try done.
    cbn in Ht. by inversion Ht; subst.
Qed.

Lemma merge_stores_positive_totals_witness :
  exists ship_data' changed,
    merge_totals sample_record sample_totals = Some (ship_data', changed) /\
    exists j, stored_thrusters_total ship_data' = Some j /\ py_eq_int j 900 = true.
Proof.
  destruct sample_merge_succeeds as (ship_data' & changed & Hm).
  exists ship_data', changed. split; [exact Hm|].
  apply (proj2 (merge_stores_positive_totals _ _ _ _ "thruster_total_hp" 900 Hm
                  ltac:(do 5 right; left; reflexivity) ltac:(lia))).
  reflexivity.
Defined.

Lemma merge_step_flag ship_data changed kv ship_data' changed' :
  merge_step (ship_data, changed) kv = Some (ship_data', changed') ->
  (changed = true -> changed' = true) /\
  (changed' = false -> ship_data' = ship_data).
Proof.
  destruct kv as [key value]. intros Hstep. unfold merge_step in Hstep.
  destruct (0 <? value); [|by inversion Hstep].
  destruct (components_obj ship_data) as [components|]; cbn in Hstep; [|done].
  destruct (get_ne components key value);
    destruct (String.eqb key "thruster_total_hp");
    repeat match type of Hstep with
      | context [thrusters_obj ?sd] =>
          destruct (thrusters_obj sd) as [thr|]; cbn in Hstep; [|done];
          destruct (get_ne thr "total_hp" value)
      end;
    inversion Hstep; subst; done.
Qed.

Lemma merge_loop_true l : forall ship_data ship_data' changed',
  merge_loop (ship_data, true) l = Some (ship_data', changed') -> changed' = true.
Proof.
  induction l as [|kv l IH]; intros sd sd' c' Hloop; [by inversion Hloop|].
  cbn [merge_loop] in Hloop.
  destruct (merge_step (sd, true) kv) as [[sd1 c1]|] eqn:Hstep; cbn in Hloop; [|done].
  destruct (merge_step_flag _ _ _ _ _ Hstep) as [Hmono _].
  rewrite (Hmono eq_refl) in Hloop. by apply (IH sd1 sd').
Qed.

Lemma merge_loop_flag l : forall ship_data changed ship_data',
  merge_loop (ship_data, changed) l = Some (ship_data', false) ->
  ship_data' = ship_data.
Proof.
  induction l as [|kv l IH]; intros sd c sd' Hloop.
  - by inversion Hloop; subst.
  - cbn [merge_loop] in Hloop.
    destruct (merge_step (sd, c) kv) as [[sd1 c1]|] eqn:Hstep; cbn in Hloop; [|done].
    destruct c1; [by apply merge_loop_true in Hloop|].
    rewrite (IH _ _ _ Hloop). by apply (merge_step_flag _ _ _ _ _ Hstep).
Qed.

(** X3: the flag [changed], on which the write of the JSON file depends,
    is exact: it is [False] precisely when the merged record is the
    record read, apart from the two objects the code makes sure of. *)
Theorem changed_flag_is_exact ship_data h ship_data' changed :
  merge_totals ship_data h = Some (ship_data', changed) ->
  (changed = false <->
   ship_data' = ensure_obj "thrusters" (ensure_obj "components" ship_data)).
Proof.
  intros Hm. split.
  - intros ->. unfold merge_totals in Hm. by apply merge_loop_flag in Hm.
  - intros Heq. unfold merge_totals in Hm.
    pose proof (merge_loop_settles _ _ _ _ _ (items_NoDup h) Hm) as Hall.
    rewrite Heq in Hall.
    rewrite (merge_loop_noop _ _ false Hall) in Hm. by inversion Hm.
Qed.

Lemma changed_flag_is_exact_witness :
  exists ship_data' changed,
    merge_totals sample_record sample_totals = Some (ship_data', changed) /\
    (changed = false <->
     ship_data' = ensure_obj "thrusters" (ensure_obj "components" sample_record)).
Proof.
  destruct sample_merge_succeeds as (ship_data' & changed & Hm).
  exists ship_data', changed. split; [exact Hm|].
  exact (changed_flag_is_exact _ _ _ _ Hm).
Defined.

End MergeMore.

(** ** The lookups and the ship file *)

Module LookupFacts.
Import ComponentHp ComponentHpRest CatalogFacts StringFacts.

Lemma add_to_nonneg h component_type hp :
  nonneg_totals h -> 0 <= hp -> nonneg_totals (add_to h component_type hp).
Proof.
  unfold nonneg_totals, add_to, items. intros Hh Hhp.
  repeat match goal with
         | H : Forall _ (_ :: _) |- _ => apply Forall_cons in H as [? H]
         end. simpl in *.
  repeat match goal with
         | |- context [if ?b then _ else _] => destruct b
         end; repeat constructor; simpl; lia.
Qed.

Lemma add_entry_nonneg lookup guid h entry :
  (forall k v, lookup !! k = Some v -> 0 <= v) ->
  nonneg_totals h -> nonneg_totals (add_entry lookup guid h entry).
Proof.
  intros Hl Hh. unfold add_entry.
  repeat match goal with
         | |- context [if ?b then _ else _] => destruct b; try done
         | |- context [match ?o with Some _ => _ | None => _ end] =>
             destruct o eqn:?; try done
         end; apply add_to_nonneg; eauto.
Qed.

Lemma nonneg_sum_zero h :
  nonneg_totals h -> (sum_values h = 0 <-> h = zero_totals).
Proof.
  destruct h as [a b c d e f]. unfold nonneg_totals, sum_values, items. simpl.
  intros Hh.
  repeat match goal with
         | H : Forall _ (_ :: _) |- _ => apply Forall_cons in H as [? H]
         end. simpl in *.
  split.
  - intros Hs. unfold zero_totals. f_equal; lia.
  - intros [= -> -> -> -> -> ->]. done.
Qed.

(** X4: when no health of the lookup is negative, no total of
    [extract_component_hp_from_ship] is negative, and the test
    [sum(hp_totals.values()) == 0] skips a ship exactly when all six
    totals are 0. *)
Theorem totals_are_nonnegative ship_xml lookup guid ship_data :
  (forall k v, lookup !! k = Some v -> 0 <= v) ->
  let h := extract_component_hp_from_ship ship_xml lookup guid in
  Forall (fun kv : string * Z => 0 <= kv.2) (items h) /\
  (update_ship_json ship_data h = Skipped <-> h = zero_totals).
Proof.
  intros Hl h.
  assert (Hh : nonneg_totals h).
  { subst h. unfold extract_component_hp_from_ship.
    destruct ship_xml as [root|]; [|by repeat constructor].
    generalize (findall ENTRY root). intros l.
    assert (H0 : nonneg_totals zero_totals) by (by repeat constructor).
    revert H0. generalize zero_totals.
    induction l as [|entry l IH]; intros h0 H0; [done|].
    simpl. apply IH. by apply add_entry_nonneg. }
  split; [exact Hh|]. rewrite <- (nonneg_sum_zero h Hh).
  unfold update_ship_json. destruct (Z.eqb_spec (sum_values h) 0) as [Hz|Hz].
  - done.
  - split; [|done]. destruct (merge_totals ship_data h) as [[sd' []]|]; done.
Qed.

Lemma totals_are_nonnegative_witness :
  update_ship_json ∅
    (extract_component_hp_from_ship None {[ "powr_generic_s01" := 1000 ]} ∅) = Skipped.
Proof.
  apply (proj2 (totals_are_nonnegative None {[ "powr_generic_s01" := 1000 ]} ∅ ∅
           ltac:(intros k v [_ <-]%lookup_singleton_Some; lia))).
  reflexivity.
Defined.

(** X5: a ship whose XML cannot be parsed, and any ship when the health
    lookup is empty, gets the six totals 0 and is skipped, whatever its
    JSON record holds. *)
Theorem nothing_resolved_is_skipped ship_xml lookup guid ship_data :
  ship_xml = None \/ lookup = ∅ ->
  extract_component_hp_from_ship ship_xml lookup guid = zero_totals /\
  update_ship_json ship_data (extract_component_hp_from_ship ship_xml lookup guid)
  = Skipped.
Proof.
  intros Hcase.
  assert (H : extract_component_hp_from_ship ship_xml lookup guid = zero_totals).
  { destruct Hcase as [->| ->]; [done|].
    unfold extract_component_hp_from_ship. destruct ship_xml as [root|]; [|done].
    generalize (findall ENTRY root). intros l.
    induction l as [|entry l IH]; [done|]. simpl.
    replace (add_entry ∅ guid zero_totals entry) with zero_totals; [done|].
    unfold add_entry.
    repeat match goal with
           | |- context [if ?b then _ else _] => destruct b; try done
           | |- context [match ?o with Some _ => _ | None => _ end] =>
               destruct o eqn:?; try done
           end; by rewrite lookup_empty in *. }
  by rewrite H.
Qed.

Lemma nothing_resolved_is_skipped_witness :
  update_ship_json sample_record
    (extract_component_hp_from_ship (Some Loadouts.turret_sample) ∅ ∅) = Skipped.
Proof.
  exact (proj2 (nothing_resolved_is_skipped (Some Loadouts.turret_sample) ∅ ∅
                  sample_record (or_intror eq_refl))).
Defined.

Lemma add_file_guid st f k name :
  (add_file st f).2 !! k = Some name ->
  st.2 !! k = Some name \/
  exists x,
    PyStr.endswith (file_name f) ".xml" = true /\ file_xml f = Some x /\
    xml_ref x ≠ "" /\ xml_ref x ≠ NULL_GUID /\
    k = PyStr.lower (xml_ref x) /\
    name = PyStr.lower (PyStr.replace (file_name f) ".xml" "").
Proof.
  destruct st as [component_hp guid_lookup]. unfold add_file.
  destruct (PyStr.endswith (file_name f) ".xml"); simpl; [|by left].
  destruct (file_xml f) as [x|]; simpl; [|by left].
  intros Hl.
  assert (Hl' : (if negb (String.eqb (xml_ref x) "") && negb (String.eqb (xml_ref x) NULL_GUID)
                 then <[PyStr.lower (xml_ref x) :=
                          PyStr.lower (PyStr.replace (file_name f) ".xml" "")]> guid_lookup
                 else guid_lookup) !! k = Some name)
    by (by destruct (xml_health x)).
  clear Hl.
  destruct (String.eqb_spec (xml_ref x) "") as [|He]; simpl in Hl'; [by left|].
  destruct (String.eqb_spec (xml_ref x) NULL_GUID) as [|Hn]; simpl in Hl'; [by left|].
  rewrite lookup_insert in Hl'. case_decide as Hk; [|by left].
  inversion Hl'; subst. right. by exists x.
Qed.

Lemma fold_add_file_guid files : forall st k name,
  (fold_left add_file files st).2 !! k = Some name ->
  st.2 !! k = Some name \/
  exists f x,
    In f files /\
    PyStr.endswith (file_name f) ".xml" = true /\ file_xml f = Some x /\
    xml_ref x ≠ "" /\ xml_ref x ≠ NULL_GUID /\
    k = PyStr.lower (xml_ref x) /\
    name = PyStr.lower (PyStr.replace (file_name f) ".xml" "").
Proof.
  induction files as [|f files IH]; intros st k name Hl; [by left|].
  simpl in Hl. apply IH in Hl as [Hl|(g & x & Hin & H)].
  - apply add_file_guid in Hl as [Hl|(x & H)]; [by left|].
    right. exists f, x. split; [by left | done].
  - right. exists g, x. split; [by right | done].
Qed.

(** X6: the GUID lookup of [build_component_hp_lookup] has neither the
    empty reference nor the null GUID as a key; every key and every name
    in it is lower-case, and each entry comes from a file of the
    traversal: the key is its [__ref] lowered, the name its file name
    without [.xml], lowered. *)
Theorem guid_lookup_has_no_sentinel os_walk k name :
  (build_component_hp_lookup os_walk).2 !! k = Some name ->
  k ≠ "" /\ k ≠ NULL_GUID /\ PyStr.lower k = k /\ PyStr.lower name = name /\
  exists f x,
    In f (traversal os_walk) /\ file_xml f = Some x /\
    k = PyStr.lower (xml_ref x) /\
    name = PyStr.lower (PyStr.replace (file_name f) ".xml" "").
Proof.
  rewrite build_as_fold. intros Hl.
  apply fold_add_file_guid in Hl as [Hl|(f & x & Hin & _ & Hx & He & Hn & -> & ->)].
  { simpl in Hl. by rewrite lookup_empty in Hl. }
  split; [by rewrite lower_empty|].
  split; [intros Heq; apply Hn; by apply lower_eq_no_lower|].
  split; [apply lower_idem|]. split; [apply lower_idem|].
  by exists f, x.
Qed.

Lemma guid_lookup_has_no_sentinel_witness :
  PyStr.lower "a1b2c3d4-0000-0000-0000-00000000000f"
  = "a1b2c3d4-0000-0000-0000-00000000000f".
Proof.
  apply (guid_lookup_has_no_sentinel guid_sample_walk
           "a1b2c3d4-0000-0000-0000-00000000000f" "cool_generic_s01").
  vm_compute. reflexivity.
Defined.

Lemma find_first {A} (f : A -> bool) l x :
  find f l = Some x ->
  exists before after,
    l = before ++ x :: after /\ f x = true /\ Forall (fun y => f y = false) before.
Proof.
  induction l as [|y l IH]; [done|]. simpl. destruct (f y) eqn:Hy.
  - intros [= ->]. exists [], l. split; [done|]. split; [done | constructor].
  - intros H. destruct (IH H) as (before & after & -> & Hx & Hb).
    exists (y :: before), after. split; [done|]. split; [done|]. by constructor.
Qed.

Lemma find_in_walk_Some base_name ship_walk root filename :
  find_in_walk base_name ship_walk = Some (root, filename) ->
  exists pre before after post,
    ship_walk = pre ++ (root, before ++ filename :: after) :: post /\
    names_ship base_name filename = true /\
    Forall (fun f => names_ship base_name f = false) before /\
    Forall (fun d => Forall (fun f => names_ship base_name f = false) d.2) pre.
Proof.
  induction ship_walk as [|[r files] rest IH]; [done|]. simpl.
  destruct (find (names_ship base_name) files) as [f|] eqn:Hf.
  - intros [= <- <-]. apply find_first in Hf as (before & after & -> & Hn & Hb).
    exists [], before, after, rest. split; [done|]. split; [done|].
    split; [done | constructor].
  - intros H. destruct (IH H) as (pre & before & after & post & -> & Hn & Hb & Hpre).
    exists ((r, files) :: pre), before, after, post. split; [done|]. split; [done|].
    split; [done|]. constructor; [|done]. simpl. apply Forall_forall.
    intros f Hin'. apply list_elem_of_In in Hin'.
    by apply (find_none _ _ Hf).
Qed.

Lemma find_in_walk_None base_name ship_walk :
  find_in_walk base_name ship_walk = None ->
  Forall (fun d => Forall (fun f => names_ship base_name f = false) d.2) ship_walk.
Proof.
  induction ship_walk as [|[r files] rest IH]; [constructor|]. simpl.
  destruct (find (names_ship base_name) files) as [f|] eqn:Hf; [done|].
  intros H. constructor; [|by apply IH]. simpl. apply Forall_forall.
  intros f Hin'. apply list_elem_of_In in Hin'. by apply (find_none _ _ Hf).
Qed.

(** X7: [find_ship_xml] returns the first file of the walk whose name
    ends in [.xml] and, without it, equals the base name of the JSON
    file up to case: no file of an earlier directory matches, and no
    file that comes before it in its own directory; it returns [None]
    only when no file of the walk matches. *)
Theorem find_ship_xml_first_match ship_walk ship_json_name :
  match find_ship_xml ship_walk ship_json_name with
  | Some (root, filename) =>
      PyStr.endswith filename ".xml" = true /\
      PyStr.lower (PyStr.replace filename ".xml" "")
      = PyStr.lower (PyStr.replace ship_json_name ".json" "") /\
      exists pre before after post,
        ship_walk = pre ++ (root, before ++ filename :: after) :: post /\
        Forall (fun f => names_ship (PyStr.replace ship_json_name ".json" "") f = false)
               before /\
        Forall (fun d => Forall (fun f => names_ship
                                            (PyStr.replace ship_json_name ".json" "") f
                                          = false) d.2) pre
  | None =>
      Forall (fun d => Forall (fun f => names_ship
                                          (PyStr.replace ship_json_name ".json" "") f
                                        = false) d.2) ship_walk
  end.
Proof.
  unfold find_ship_xml. cbv zeta.
  generalize (PyStr.replace ship_json_name ".json" ""). intros base_name.
  destruct (find_in_walk base_name ship_walk) as [[root filename]|] eqn:Hf.
  - apply find_in_walk_Some in Hf
      as (pre & before & after & post & -> & Hn & Hb & Hpre).
    unfold names_ship in Hn. apply andb_prop in Hn as [He Hl].
    apply String.eqb_eq in Hl. split; [done|]. split; [done|].
    by exists pre, before, after, post.
  - by apply find_in_walk_None.
Qed.

(** Of two files of one directory that match, the first is returned. *)
Lemma first_of_two_matching_files :
  find_ship_xml [("ships", ["readme.txt"]);
                 ("ships/aegs", ["AEGS_Gladius.xml"; "aegs_gladius.xml"])]
                "aegs_gladius.json"
  = Some ("ships/aegs", "AEGS_Gladius.xml").
Proof. by vm_compute. Qed.

End LookupFacts.

(** ** The categories *)

Module PartsMore.
Import Parts PartsRest ClassifierFacts.

Lemma category_of_known port_name entity_class :
  category_of port_name entity_class ∈ CATEGORY_NAMES.
Proof.
  unfold category_of, CATEGORY_NAMES.
  repeat match goal with
         | |- context [if ?b then _ else _] => destruct b
         end; set_solver.
Qed.

Lemma filter_classes {A} (f : A -> string) (l : list A) (cs : list string) :
  NoDup cs ->
  concat (map (fun c => filter (fun x => f x = c) l) cs)
  ≡ₚ filter (fun x => f x ∈ cs) l.
Proof.
  intros Hnd. induction Hnd as [|c cs Hc Hnd IH]; simpl.
  - induction l as [|x l IHl]; [done|]. rewrite filter_cons.
    case_decide as H; [by apply elem_of_nil in H | done].
  - rewrite IH. clear IH. induction l as [|x l IHl]; [done|].
    rewrite !filter_cons.
    destruct (decide (f x = c)) as [Hx|Hx];
      destruct (decide (f x ∈ cs)) as [Hin|Hin];
      destruct (decide (f x ∈ c :: cs)) as [Hin'|Hin'].
    + exfalso. apply Hc. by rewrite <- Hx.
    + exfalso. apply Hc. by rewrite <- Hx.
    + simpl. by rewrite IHl.
    + exfalso. apply Hin'. rewrite Hx. left.
    + rewrite <- IHl. by rewrite Permutation_middle.
    + exfalso. apply Hin'. by right.
    + exfalso. apply elem_of_cons in Hin' as [?|?]; done.
    + done.
Qed.

Lemma filter_all {A} (P : A -> Prop) `{forall x, Decision (P x)} (l : list A) :
  (forall x, P x) -> filter P l = l.
Proof.
  intros HP. induction l as [|x l IH]; [done|].
  rewrite filter_cons, decide_True by done. by rewrite IH.
Qed.

Lemma filter_none {A} (P : A -> Prop) `{forall x, Decision (P x)} (l : list A) :
  (forall x, ~ P x) -> filter P l = [].
Proof.
  intros HP. induction l as [|x l IH]; [done|].
  by rewrite filter_cons, decide_False.
Qed.

Lemma cat_categorize mappings key :
  cat (categorize_hardpoints mappings) key
  = filter (fun pe => category_of pe.1 pe.2 = key) mappings.
Proof. unfold categorize_hardpoints. by rewrite categorize_fold, cat_empty. Qed.

(** X8: the categories of [categorize_hardpoints] partition the
    mappings: the ten lists together are a permutation of the mappings,
    there is no other category, and no pair is in two categories. *)
Theorem categories_partition_mappings mappings :
  concat (map (cat (categorize_hardpoints mappings)) CATEGORY_NAMES) ≡ₚ mappings /\
  (forall key, key ∉ CATEGORY_NAMES -> cat (categorize_hardpoints mappings) key = []) /\
  (forall pair key key',
      pair ∈ cat (categorize_hardpoints mappings) key ->
      pair ∈ cat (categorize_hardpoints mappings) key' -> key = key').
Proof.
  split; [|split].
  - rewrite (map_ext _ _ (cat_categorize mappings)).
    rewrite (filter_classes (fun pe => category_of pe.1 pe.2) mappings CATEGORY_NAMES).
    + rewrite filter_all; [done|]. intros [p e]. apply category_of_known.
    + apply (bool_decide_unpack _). by vm_compute.
  - intros key Hkey. rewrite cat_categorize. apply filter_none.
    intros [p e] <-. apply Hkey, category_of_known.
  - intros pair key key'. rewrite !cat_categorize.
    intros [H1 _]%list_elem_of_filter [H2 _]%list_elem_of_filter. congruence.
Qed.

Lemma categories_partition_mappings_witness :
  cat (categorize_hardpoints [("hardpoint_gun_nose", "behr_lasercannon_s2")]) "cargo" = [].
Proof.
  apply (proj1 (proj2 (categories_partition_mappings _))).
  unfold CATEGORY_NAMES. apply (bool_decide_unpack _). by vm_compute.
Defined.

End PartsMore.

(** ** Turrets and armor *)

Module AggregatorMore.
Import Parts PartsRest AggregatorFacts ResolverFacts.

Lemma resolved_turrets_cons turret_data p e hardpoints :
  resolved_turrets turret_data ((p, e) :: hardpoints) =
  match dict_get turret_data (PyStr.lower e) with
  | Some r => r :: resolved_turrets turret_data hardpoints
  | None => resolved_turrets turret_data hardpoints
  end.
Proof. reflexivity. Qed.

Lemma turrets_fold turret_data hardpoints : forall total count,
  fold_left (add_turret turret_data) hardpoints (total, count) =
  (total + sum_list (map rec_health (resolved_turrets turret_data hardpoints)),
   count + Z.of_nat (length (resolved_turrets turret_data hardpoints))).
Proof.
  induction hardpoints as [|[p e] hardpoints IH]; intros total count.
  - cbn. by rewrite !Z.add_0_r.
  - cbn [fold_left]. unfold add_turret at 2. rewrite resolved_turrets_cons.
    destruct (dict_get turret_data (PyStr.lower e)) as [r|]; rewrite IH; [|done].
    cbn [map length]. rewrite sum_list_cons. f_equal; lia.
Qed.

(** X9: the turret loop counts every entry whose entity resolves, also
    one of health 0: the count is the number of resolved entries, the
    total the sum of their healths, and one more resolved entry adds
    its health and 1. *)
Theorem turrets_count_every_resolved_entry turret_data hardpoints :
  ship_turrets turret_data hardpoints =
    (sum_list (map rec_health (resolved_turrets turret_data hardpoints)),
     Z.of_nat (length (resolved_turrets turret_data hardpoints))) /\
  (forall port_name entity_class r,
      dict_get turret_data (PyStr.lower entity_class) = Some r ->
      ship_turrets turret_data (hardpoints ++ [(port_name, entity_class)]) =
      ((ship_turrets turret_data hardpoints).1 + rec_health r,
       (ship_turrets turret_data hardpoints).2 + 1)).
Proof.
  split.
  - unfold ship_turrets. by rewrite turrets_fold.
  - intros p e r Hr. unfold ship_turrets. rewrite fold_left_app. cbn [fold_left].
    destruct (fold_left (add_turret turret_data) hardpoints (0, 0)) as [t c].
    unfold add_turret. by rewrite Hr.
Qed.

Lemma turrets_count_every_resolved_entry_witness :
  ship_turrets [("turret_remote", {| rec_health := 0; rec_filename := "turret_remote" |})]
               ([] ++ [("hardpoint_turret_top", "Turret_Remote")]) = (0 + 0, 0 + 1).
Proof.
  apply (proj2 (turrets_count_every_resolved_entry
                  [("turret_remote", {| rec_health := 0; rec_filename := "turret_remote" |})]
                  []) "hardpoint_turret_top" "Turret_Remote"
               {| rec_health := 0; rec_filename := "turret_remote" |}).
  vm_compute. reflexivity.
Defined.

Lemma by_entity_first armor_data pre port_name entity_class r post acc :
  Forall (fun h : string * string => dict_get armor_data (PyStr.lower h.2) = None) pre ->
  dict_get armor_data (PyStr.lower entity_class) = Some r ->
  armor_by_entity armor_data (pre ++ (port_name, entity_class) :: post) acc = values_of r.
Proof.
  intros Hpre Hr. induction pre as [|[p e] pre IH]; simpl.
  - by rewrite Hr.
  - apply Forall_cons in Hpre as [He Hpre]. simpl in He. rewrite He. by apply IH.
Qed.

(** X10: the armor of a ship is that of the first hardpoint, in the
    order of the mappings, whose entity is a key of the armor data,
    provided its health is not 0: later armor hardpoints and the file
    name of the ship are not consulted. *)
Theorem armor_is_first_resolved armor_data filename pre port_name entity_class r post :
  Forall (fun h : string * string => dict_get armor_data (PyStr.lower h.2) = None) pre ->
  dict_get armor_data (PyStr.lower entity_class) = Some r ->
  armor_health r ≠ 0 ->
  ship_armor armor_data filename (pre ++ (port_name, entity_class) :: post) = values_of r.
Proof.
  intros Hpre Hr Hh. unfold ship_armor.
  rewrite (by_entity_first _ _ _ _ _ _ _ Hpre Hr). simpl.
  by destruct (Z.eqb_spec (armor_health r) 0).
Qed.

Lemma armor_is_first_resolved_witness :
  ship_armor [("armr_aegs_gladius", sample_armor 900); ("armr_aegs_sabre", sample_armor 1200)]
             "AEGS_Sabre"
             ([("hardpoint_armor_none", "armr_unknown")]
                ++ ("hardpoint_armor", "ARMR_AEGS_Gladius")
                :: [("hardpoint_armor_2", "ARMR_AEGS_Sabre")])
  = values_of (sample_armor 900).
Proof.
  apply armor_is_first_resolved.
  - constructor; [vm_compute; reflexivity | constructor].
  - vm_compute. reflexivity.
  - vm_compute. discriminate.
Defined.

Lemma by_name_none armor_data filename keys acc :
  Forall (fun k => name_matches filename k = false) keys ->
  armor_by_name armor_data filename keys acc = acc.
Proof.
  induction keys as [|k keys IH]; intros Hall; [done|].
  apply Forall_cons in Hall as [Hk Hall]. simpl. rewrite Hk. by apply IH.
Qed.

(** X11: when no hardpoint resolves to an armor record and no armor
    key matches the file name of the ship, the ship gets the defaults:
    health 0 and every resistance 1.0. *)
Theorem no_armor_found_gives_defaults armor_data filename hardpoints :
  Forall (fun h : string * string => dict_get armor_data (PyStr.lower h.2) = None)
         hardpoints ->
  Forall (fun kv : string * armor_record => name_matches filename kv.1 = false)
         armor_data ->
  ship_armor armor_data filename hardpoints = no_armor.
Proof.
  intros Hh Hk. unfold ship_armor. rewrite by_entity_none by done. simpl.
  apply by_name_none. unfold dict_keys. by apply Forall_fmap.
Qed.

Lemma no_armor_found_gives_defaults_witness :
  ship_armor [("armr_aegs_gladius", sample_armor 900)] "DRAK_Vulture"
             [("hardpoint_armor", "armr_drak_unknown")] = no_armor.
Proof.
  apply no_armor_found_gives_defaults.
  - constructor; [vm_compute; reflexivity | constructor].
  - constructor; [vm_compute; reflexivity | constructor].
Defined.

End AggregatorMore.

(** ** The loaders *)

Module LoaderFacts.
Import Parts PartsRest.

Lemma run_loop_split {S A} (body : S -> A -> option S) pre x post s s' :
  run_loop body (pre ++ x :: post) s = Some s' ->
  exists s1 s2,
    run_loop body pre s = Some s1 /\ body s1 x = Some s2 /\
    run_loop body post s2 = Some s'.
Proof.
  revert s. induction pre as [|y pre IH]; intros s; simpl.
  - destruct (body s x) as [s2|] eqn:Hx; [|done]. intros H. by exists s, s2.
  - destruct (body s y) as [s1|]; [|done]. apply IH.
Qed.

(** What every round keeps, the loop keeps. *)
Lemma run_loop_keeps {S A} (body : S -> A -> option S) (Q : A -> Prop)
    (R : S -> S -> Prop) :
  (forall s, R s s) ->
  (forall s1 s2 s3, R s1 s2 -> R s2 s3 -> R s1 s3) ->
  (forall s x s', Q x -> body s x = Some s' -> R s s') ->
  forall l s s', Forall Q l -> run_loop body l s = Some s' -> R s s'.
Proof.
  intros Hrefl Htrans Hstep. induction l as [|x l IH]; intros s s' Hall; simpl.
  - intros [= <-]. apply Hrefl.
  - apply Forall_cons in Hall as [Hx Hall].
    destruct (body s x) as [s1|] eqn:Hb; [|done]. intros Hl.
    eapply Htrans; [by eapply Hstep | by apply IH].
Qed.

(** A loop ends by an exception exactly when some round raises, if
    whether a round raises does not depend on the state. *)
Lemma run_loop_raises {S A} (body : S -> A -> option S) (raises : A -> Prop) :
  (forall s x, body s x = None <-> raises x) ->
  forall l s, run_loop body l s = None <-> Exists raises l.
Proof.
  intros Hbody. induction l as [|x l IH]; intros s; simpl.
  - split; [done|]. intros H. by apply Exists_nil in H.
  - rewrite Exists_cons. destruct (body s x) as [s1|] eqn:Hb.
    + rewrite IH. split; [by right|]. intros [Hx|Hl]; [|done].
      apply Hbody with (s := s) in Hx. congruence.
    + split; [|done]. intros _. left. by apply (Hbody s).
Qed.

Lemma add_armor_other armor_data f armor_data' k :
  k ∉ armor_keys f -> add_armor armor_data f = Some armor_data' ->
  dict_get armor_data' k = dict_get armor_data k.
Proof.
  unfold add_armor, armor_keys. destruct (src_content f) as [c|]; [|by intros _ [= <-]].
  destruct (fld_health c) as [| |health]; [by intros _ [= <-] | done |].
  destruct (armor_literal c health) as [r|]; [|done].
  intros Hk [= <-]. rewrite !dict_get_set_ne; [done| |]; intros <-; apply Hk; set_solver.
Qed.

Lemma add_armor_stored armor_data f armor_data' c health k :
  src_content f = Some c -> fld_health c = Value health -> k ∈ armor_keys f ->
  add_armor armor_data f = Some armor_data' ->
  exists r, armor_literal c health = Some r /\ dict_get armor_data' k = Some r.
Proof.
  unfold add_armor, armor_keys. intros -> -> Hk.
  destruct (armor_literal c health) as [r|]; [|done].
  intros [= <-]. exists r. split; [done|].
  apply elem_of_cons in Hk as [->|[->|[]%elem_of_nil]%elem_of_cons].
  - match goal with
    | |- dict_get (dict_set _ ?k' _) ?k = _ =>
        destruct (decide (k' = k)) as [->|Hne];
        [apply dict_get_set_eq | rewrite dict_get_set_ne by done; apply dict_get_set_eq]
    end.
  - apply dict_get_set_eq.
Qed.

Lemma armor_literal_fields c health r :
  armor_literal c health = Some r ->
  armor_health r = health /\
  map Some [ resist_physical r; resist_energy r; resist_distortion r;
             resist_thermal r; resist_biochemical r; resist_stun r ]
  = map (converted ONE) [ fld_physical c; fld_energy c; fld_distortion c;
                          fld_thermal c; fld_biochemical c; fld_stun c ].
Proof.
  unfold armor_literal. simpl.
  repeat match goal with
         | |- context [converted ?d ?f] => destruct (converted d f); try done
         end.
  by intros [= <-].
Qed.

(** X12: when [load_armor_data] completes, the record of an armor file
    whose health converts is stored under two keys, the lowered stem and
    the stem without [armr_] and [_scitem]; either key gives the record
    of that file, with 1.0 for every multiplier the file does not give,
    unless a later file of the enumeration stores under the key.  What an
    earlier file stored under the key is replaced. *)
Theorem armor_file_is_found_by_both_names pre f post c health k armor_data :
  load_armor_data (Some (pre ++ f :: post)) = Some armor_data ->
  src_content f = Some c -> fld_health c = Value health ->
  k = PyStr.lower (src_stem f) \/
  k = PyStr.replace (PyStr.replace (PyStr.lower (src_stem f)) "armr_" "") "_scitem" "" ->
  Forall (fun g => k ∉ armor_keys g) post ->
  exists r,
    dict_get armor_data k = Some r /\
    armor_health r = health /\
    map Some [ resist_physical r; resist_energy r; resist_distortion r;
               resist_thermal r; resist_biochemical r; resist_stun r ]
    = map (converted ONE) [ fld_physical c; fld_energy c; fld_distortion c;
                            fld_thermal c; fld_biochemical c; fld_stun c ].
Proof.
  intros Hl Hc Hh Hk Hpost. unfold load_armor_data in Hl.
  apply run_loop_split in Hl as (d1 & d2 & _ & Hf & Hl).
  assert (Hin : k ∈ armor_keys f).
  { unfold armor_keys. rewrite Hc, Hh. destruct Hk as [->| ->]; set_solver. }
  destruct (add_armor_stored _ _ _ _ _ _ Hc Hh Hin Hf) as (r & Hr & Hget).
  exists r. split; [|by apply armor_literal_fields].
  rewrite <- Hget.
  apply (run_loop_keeps add_armor (fun g => k ∉ armor_keys g)
           (fun d d' => dict_get d' k = dict_get d k)) with (l := post);
    [done | congruence | | done | done].
  intros s x s' Hx Hs. by eapply add_armor_other.
Qed.

Lemma armor_file_is_found_by_both_names_witness :
  exists armor_data r,
    load_armor_data (Some armor_sample_dir) = Some armor_data /\
    dict_get armor_data "aegs_gladius" = Some r /\
    armor_health r = 900.
Proof.
  destruct (load_armor_data (Some armor_sample_dir)) as [armor_data|] eqn:Hl;
    [|by vm_compute in Hl].
  destruct (armor_file_is_found_by_both_names
              [ {| src_stem := "ARMR_AEGS_Sabre"; src_content := None |};
                {| src_stem := "ARMR_AEGS_Gladius";
                   src_content :=
                     Some {| fld_health := Value 700; fld_physical := NoMatch;
                             fld_energy := NoMatch; fld_distortion := NoMatch;
                             fld_thermal := NoMatch; fld_biochemical := NoMatch;
                             fld_stun := NoMatch |} |} ]
              armor_sample
              [ {| src_stem := "ARMR_DRAK_Vulture";
                   src_content :=
                     Some {| fld_health := NoMatch; fld_physical := Value ONE;
                             fld_energy := NoMatch; fld_distortion := NoMatch;
                             fld_thermal := NoMatch; fld_biochemical := NoMatch;
                             fld_stun := NoMatch |} |} ]
              armor_sample_fields 900 "aegs_gladius" armor_data Hl eq_refl eq_refl
              ltac:(right; vm_compute; reflexivity)
              ltac:(constructor; [|constructor]; vm_compute; intros H;
                    by apply elem_of_nil in H))
    as (r & Hget & Hh & _).
  by exists armor_data, r.
Defined.

Lemma add_component_file_other data f data' k :
  k ∉ part_keys f -> add_component_file data f = Some data' -> data' !! k = data !! k.
Proof.
  unfold add_component_file, part_keys.
  destruct (part_health f) as [[| |health]|]; try done; try (by intros _ [= <-]).
  intros Hk [= <-]. rewrite !lookup_insert_ne; [done| |]; intros <-; apply Hk; set_solver.
Qed.

Lemma add_component_file_stored data f data' health k :
  part_health f = Some (Value health) -> k ∈ part_keys f ->
  add_component_file data f = Some data' -> data' !! k = Some health.
Proof.
  unfold add_component_file, part_keys. intros -> Hk [= <-].
  apply elem_of_cons in Hk as [->|[->|[]%elem_of_nil]%elem_of_cons].
  - rewrite lookup_insert. case_decide; [done|]. by rewrite lookup_insert_eq.
  - by rewrite lookup_insert_eq.
Qed.

Lemma components_other files data data' k :
  Forall (fun g => k ∉ part_keys g) files ->
  run_loop add_component_file files data = Some data' -> data' !! k = data !! k.
Proof.
  apply (run_loop_keeps add_component_file (fun g => k ∉ part_keys g)
           (fun d d' => d' !! k = d !! k)); [done | congruence|].
  intros s x s' Hx Hs. by eapply add_component_file_other.
Qed.

Lemma load_component_data_type comp_dirs component_data comp_type :
  load_component_data comp_dirs = Some component_data ->
  comp_type ∈ ["powerplant"; "cooler"; "shieldgenerator"; "quantumdrive"] ->
  exists comp,
    load_component_type (comp_dirs comp_type) = Some comp /\
    components_of_type
      {| armor_data := []; thruster_data := []; turret_data := [];
         component_data := component_data |} comp_type = comp.
Proof.
  unfold components_of_type, load_component_data. simpl.
  destruct (load_component_type (comp_dirs "powerplant")) as [pp|] eqn:Hpp; [|done].
  destruct (load_component_type (comp_dirs "cooler")) as [co|] eqn:Hco; [|done].
  destruct (load_component_type (comp_dirs "shieldgenerator")) as [sh|] eqn:Hsh; [|done].
  destruct (load_component_type (comp_dirs "quantumdrive")) as [qd|] eqn:Hqd; [|done].
  intros [= <-] Hin. repeat (apply elem_of_cons in Hin as [->|Hin]);
    [| | | |by apply elem_of_nil in Hin]; eexists; (split; [eassumption|]);
    simpl; by repeat first [rewrite lookup_insert_eq | rewrite lookup_insert_ne by done].
Qed.

(** X13: when [load_component_data] completes, a component file with a
    positive health is what the component loops of [process_all_ships]
    find for an entity name that equals its lowered stem up to the
    [_scitem] suffix, provided no later file of the directory stores under
    the entity name or under the stem without the suffix and, unless the
    entity name is itself a key of the file, no earlier file stores under
    the entity name (an earlier file that does is found first). *)
Theorem component_resolves_with_or_without_suffix
    comp_dirs component_data comp_type pre f post health entity_lower :
  load_component_data comp_dirs = Some component_data ->
  comp_type ∈ ["powerplant"; "cooler"; "shieldgenerator"; "quantumdrive"] ->
  comp_dirs comp_type = Some (pre ++ f :: post) ->
  part_health f = Some (Value health) -> 0 < health ->
  PyStr.replace entity_lower "_scitem" ""
  = PyStr.replace (PyStr.lower (part_stem f)) "_scitem" "" ->
  Forall (fun g => (entity_lower ∉ part_keys g) /\
                   (PyStr.replace (PyStr.lower (part_stem f)) "_scitem" "" ∉ part_keys g))
         post ->
  (entity_lower ∈ part_keys f) \/ Forall (fun g => entity_lower ∉ part_keys g) pre ->
  component_hp (default ∅ (component_data !! comp_type)) entity_lower = health.
Proof.
  intros Hload Hin Hdir Hh Hpos Hclean Hpost Hpre.
  set (clean_name := PyStr.replace (PyStr.lower (part_stem f)) "_scitem" "") in *.
  destruct (load_component_data_type _ _ _ Hload Hin) as (comp & Hcomp & Hdata).
  unfold components_of_type in Hdata. simpl in Hdata. rewrite Hdata. clear Hdata.
  unfold load_component_type in Hcomp. rewrite Hdir in Hcomp.
  pose proof Hcomp as Hsplit.
  apply run_loop_split in Hsplit as (d1 & d2 & Hd1 & Hf & Hd2).
  assert (Hpost1 : Forall (fun g => entity_lower ∉ part_keys g) post)
    by (eapply Forall_impl; [exact Hpost | by intros g [? ?]]).
  assert (Hpost2 : Forall (fun g => clean_name ∉ part_keys g) post)
    by (eapply Forall_impl; [exact Hpost | by intros g [? ?]]).
  assert (Hget : forall k, k ∈ part_keys f -> Forall (fun g => k ∉ part_keys g) post ->
                           comp !! k = Some health).
  { intros k Hk Hp. rewrite (components_other _ _ _ _ Hp Hd2).
    by eapply add_component_file_stored. }
  assert (Hkeys : part_keys f = [PyStr.lower (part_stem f); clean_name]).
  { unfold part_keys. by rewrite Hh. }
  unfold component_hp. destruct (decide (entity_lower ∈ part_keys f)) as [He|He].
  - rewrite (Hget entity_lower He Hpost1). simpl.
    destruct (Z.eqb_spec health 0); [lia | done].
  - destruct Hpre as [Hpre|Hpre]; [done|].
    assert (Hnone : comp !! entity_lower = None).
    { rewrite (components_other _ _ _ entity_lower Hpost1 Hd2).
      rewrite (add_component_file_other _ _ _ _ He Hf).
      rewrite (components_other _ _ _ entity_lower Hpre Hd1). apply lookup_empty. }
    rewrite Hnone. change (default 0 None =? 0) with true. cbv iota. rewrite Hclean.
    rewrite (Hget clean_name); [done| |done]. rewrite Hkeys. right. left.
Qed.

Lemma component_resolves_with_or_without_suffix_witness :
  exists component_data,
    load_component_data component_sample_dirs = Some component_data /\
    component_hp (default ∅ (component_data !! "cooler")) "cool_generic_s01_scitem" = 300.
Proof.
  destruct (load_component_data component_sample_dirs) as [component_data|] eqn:Hl.
  - exists component_data. split; [reflexivity|].
    apply (component_resolves_with_or_without_suffix component_sample_dirs component_data
             "cooler"
             [ {| part_stem := "COOL_Generic_S02"; part_health := Some (Value 100) |} ]
             cooler_sample
             [ {| part_stem := "COOL_Generic_S03"; part_health := Some NoMatch |} ]
             300 "cool_generic_s01_scitem" Hl).
    + set_solver.
    + reflexivity.
    + reflexivity.
    + lia.
    + vm_compute. reflexivity.
    + constructor; [|constructor]. split; vm_compute; intros H; by apply elem_of_nil in H.
    + right. constructor; [|constructor]. vm_compute.
      intros H. repeat (apply elem_of_cons in H as [H|H]; [discriminate H|]).
      by apply elem_of_nil in H.
  - apply (f_equal (fun o => match o with Some _ => true | None => false end)) in Hl.
    vm_compute in Hl. discriminate Hl.
Defined.

(** The precondition on the earlier files is needed: a file with the
    suffix that comes first is the one an entity name with the suffix
    finds. *)
Lemma earlier_suffixed_file_is_found_first :
  exists component_data,
    load_component_data suffixed_first_dirs = Some component_data /\
    component_hp (default ∅ (component_data !! "cooler")) "cool_a_scitem" = 50 /\
    component_hp (default ∅ (component_data !! "cooler")) "cool_a" = 300.
Proof.
  set (found := fun o : option (gmap string (gmap string Z)) =>
                  match o with
                  | Some d => Some (component_hp (default ∅ (d !! "cooler")) "cool_a_scitem",
                                    component_hp (default ∅ (d !! "cooler")) "cool_a")
                  | None => None
                  end).
  assert (Hf : found (load_component_data suffixed_first_dirs) = Some (50, 300))
    by (vm_compute; reflexivity).
  destruct (load_component_data suffixed_first_dirs) as [component_data|]; [|done].
  exists component_data. split; [reflexivity|]. by injection Hf as -> ->.
Qed.

Lemma add_part_other data f data' k :
  k ∉ part_keys f -> add_part data f = Some data' -> dict_get data' k = dict_get data k.
Proof.
  unfold add_part, part_keys.
  destruct (part_health f) as [[| |health]|]; try done; try (by intros _ [= <-]).
  intros Hk [= <-]. rewrite !dict_get_set_ne; [done| |]; intros <-; apply Hk; set_solver.
Qed.

(** X14: when [load_thruster_data] completes, the health of a thruster
    file is what the exact lookup of its lowered stem gives, unless a
    later file of the enumeration stores under that key; what earlier
    files stored is replaced. *)
Theorem thruster_file_resolves_exactly pre f post health thruster_data :
  load_thruster_data (Some (pre ++ f :: post)) = Some thruster_data ->
  part_health f = Some (Value health) ->
  Forall (fun g => PyStr.lower (part_stem f) ∉ part_keys g) post ->
  thruster_hp thruster_data (PyStr.lower (part_stem f)) = health.
Proof.
  intros Hl Hh Hpost. unfold load_thruster_data in Hl.
  apply run_loop_split in Hl as (d1 & d2 & _ & Hf & Hl).
  assert (Hget : dict_get thruster_data (PyStr.lower (part_stem f))
                 = dict_get d2 (PyStr.lower (part_stem f))).
  { apply (run_loop_keeps add_part (fun g => PyStr.lower (part_stem f) ∉ part_keys g)
             (fun d d' => dict_get d' (PyStr.lower (part_stem f))
                          = dict_get d (PyStr.lower (part_stem f)))) with (l := post);
      [done | congruence | | done | done].
    intros s x s' Hx Hs. by eapply add_part_other. }
  unfold thruster_hp. rewrite Hget. unfold add_part in Hf. rewrite Hh in Hf.
  injection Hf as <-.
  match goal with
  | |- match dict_get (dict_set _ ?k' _) ?k with _ => _ end = _ =>
      destruct (decide (k' = k)) as [->|Hne];
      [rewrite dict_get_set_eq | rewrite dict_get_set_ne, dict_get_set_eq by done]
  end; done.
Qed.

Lemma thruster_file_resolves_exactly_witness :
  exists thruster_data,
    load_thruster_data (Some thruster_sample_dir) = Some thruster_data /\
    thruster_hp thruster_data "thrs_main" = 450.
Proof.
  destruct (load_thruster_data (Some thruster_sample_dir)) as [thruster_data|] eqn:Hl;
    [|by vm_compute in Hl].
  exists thruster_data. split; [reflexivity|].
  apply (thruster_file_resolves_exactly
           [ {| part_stem := "THRS_Main"; part_health := Some (Value 100) |} ]
           thruster_sample
           [ {| part_stem := "THRS_Retro"; part_health := Some NoMatch |} ]
           450 thruster_data Hl eq_refl).
  constructor; [|constructor]. vm_compute. intros H. by apply elem_of_nil in H.
Defined.

(** X25: a [Health] whose conversion raises is not caught: the loaders
    of thrusters, turrets and components complete exactly when no
    readable file of the directory has one; files that cannot be read
    and files without [Health] are skipped. *)
Theorem bad_health_aborts_the_load files :
  (load_thruster_data (Some files) = None <->
   Exists (fun f => part_health f = Some Raises) files) /\
  (load_turret_data (Some files) = None <->
   Exists (fun f => part_health f = Some Raises) files) /\
  (load_component_type (Some files) = None <->
   Exists (fun f => part_health f = Some Raises) files) /\
  (forall comp_dirs comp_type,
      comp_type ∈ ["powerplant"; "cooler"; "shieldgenerator"; "quantumdrive"] ->
      comp_dirs comp_type = Some files ->
      Exists (fun f => part_health f = Some Raises) files ->
      load_component_data comp_dirs = None).
Proof.
  assert (Hpart : forall s x, add_part s x = None <-> part_health x = Some Raises).
  { intros s x. unfold add_part. by destruct (part_health x) as [[| |h]|]. }
  assert (Hcomp : forall s x, add_component_file s x = None <-> part_health x = Some Raises).
  { intros s x. unfold add_component_file. by destruct (part_health x) as [[| |h]|]. }
  split; [exact (run_loop_raises add_part _ Hpart files [])|].
  split; [exact (run_loop_raises add_part _ Hpart files [])|].
  split; [exact (run_loop_raises add_component_file _ Hcomp files ∅)|].
  intros comp_dirs comp_type Hin Hdir Hex.
  assert (Hnone : load_component_type (comp_dirs comp_type) = None).
  { rewrite Hdir. by apply (run_loop_raises add_component_file _ Hcomp files ∅). }
  unfold load_component_data.
  repeat (apply elem_of_cons in Hin as [->|Hin]); [| | | |by apply elem_of_nil in Hin];
    rewrite Hnone;
    repeat match goal with
           | |- context [load_component_type ?d] => destruct (load_component_type d)
           end; done.
Qed.

Lemma converted_None {A} (dflt : A) fld : converted dflt fld = None <-> fld = Raises.
Proof. by destruct fld. Qed.

Lemma armor_literal_None c health :
  armor_literal c health = None <->
  Exists (fun fld => fld = Raises)
         [ fld_physical c; fld_energy c; fld_distortion c;
           fld_thermal c; fld_biochemical c; fld_stun c ].
Proof.
  unfold armor_literal. rewrite !Exists_cons, Exists_nil.
  rewrite <- !(converted_None ONE).
  destruct (converted ONE (fld_physical c)), (converted ONE (fld_energy c)),
    (converted ONE (fld_distortion c)), (converted ONE (fld_thermal c)),
    (converted ONE (fld_biochemical c)), (converted ONE (fld_stun c));
    intuition congruence.
Qed.

Lemma add_armor_None armor_data f : add_armor armor_data f = None <-> armor_raises f.
Proof.
  unfold add_armor, armor_raises. destruct (src_content f) as [c|].
  - destruct (fld_health c) as [| |health] eqn:Hh.
    + split; [done|]. intros (c' & [= <-] & [Hr|[(h & Hv) _]]); congruence.
    + split; [|done]. intros _. exists c. split; [done|]. by left.
    + pose proof (armor_literal_None c health) as Hlit.
      destruct (armor_literal c health) as [r|].
      * split; [done|]. intros (c' & [= <-] & [Hr|[_ Hex]]); [congruence|].
        by apply Hlit in Hex.
      * split; [|done]. intros _. exists c. split; [done|]. right.
        split; [by exists health | by apply Hlit].
  - split; [done|]. by intros (c & Hc & _).
Qed.

(** X26: the conversions of [load_armor_data] are not caught either: the
    load completes exactly when no readable armor file with a health has
    a health or a multiplier whose conversion raises.  Files that cannot
    be read and files without a health are skipped, whatever their
    multipliers are. *)
Theorem bad_armor_field_aborts_the_load files :
  (load_armor_data (Some files) = None <-> Exists armor_raises files) /\
  (forall f c,
      src_content f = Some c -> fld_health c = NoMatch -> ~ armor_raises f).
Proof.
  split.
  - exact (run_loop_raises add_armor _ add_armor_None files []).
  - intros f c Hc Hh (c' & Hc' & [Hr|[(h & Hv) _]]); congruence.
Qed.

End LoaderFacts.

(** ** The number of hardpoints *)

Module MappingMore.
Import Parts PartsRest MappingFacts.

Lemma mappings_keys matches : forall mappings k,
  k ∈ dict_keys (fold_left set_mapping matches mappings) <->
  k ∈ dict_keys mappings \/ k ∈ map (fun m : string * string => PyStr.lower m.1) matches.
Proof.
  induction matches as [|[p e] matches IH]; intros mappings k; simpl.
  - split; [by left | intros [?|?%elem_of_nil]; done].
  - rewrite IH. rewrite dict_keys_set. rewrite elem_of_cons.
    destruct (dict_mem mappings (PyStr.lower p)) eqn:Hm.
    + apply dict_mem_keys in Hm. split; [tauto|].
      intros [?|[->|?]]; tauto.
    + rewrite elem_of_app, list_elem_of_singleton. tauto.
Qed.

Lemma remove_dups_length (l : list string) : (length (remove_dups l) <= length l)%nat.
Proof.
  induction l as [|x l IH]; simpl; [done|].
  destruct (decide_rel elem_of x l); simpl; lia.
Qed.

(** X15: the mapping of [extract_hardpoint_mappings] has one key for
    each distinct lowered port name, so [total_hardpoints] counts the
    distinct ports, not the matches, and is at most the number of
    matches. *)
Theorem total_hardpoints_counts_distinct_ports c filename matches :
  dict_keys (extract_hardpoint_mappings matches)
    ≡ₚ remove_dups (map (fun m : string * string => PyStr.lower m.1) matches) /\
  total_hardpoints (process_ship c filename matches)
    = Z.of_nat (length (remove_dups
                          (map (fun m : string * string => PyStr.lower m.1) matches))) /\
  total_hardpoints (process_ship c filename matches) <= Z.of_nat (length matches).
Proof.
  assert (Hp : dict_keys (extract_hardpoint_mappings matches)
               ≡ₚ remove_dups (map (fun m : string * string => PyStr.lower m.1) matches)).
  { apply NoDup_Permutation.
    - apply mappings_NoDup, NoDup_nil_2.
    - apply NoDup_remove_dups.
    - intros k. unfold extract_hardpoint_mappings. rewrite mappings_keys.
      rewrite elem_of_remove_dups. split; [intros [?%elem_of_nil|?]; done | by right]. }
  assert (Hl : total_hardpoints (process_ship c filename matches)
               = Z.of_nat (length (remove_dups
                   (map (fun m : string * string => PyStr.lower m.1) matches)))).
  { unfold process_ship. cbn [total_hardpoints]. f_equal.
    rewrite <- (Permutation_length Hp). unfold dict_keys. by rewrite length_map. }
  split; [exact Hp|]. split; [exact Hl|]. rewrite Hl.
  apply inj_le. rewrite <- (length_map (fun m : string * string => PyStr.lower m.1) matches).
  apply remove_dups_length.
Qed.

End MappingMore.

(** ** The recorded loadouts *)

Module WalkMore.
Import Loadouts LoadoutsRest WalkFacts StringFacts.

Lemma findall_In tag e x : In x (findall tag e) <-> tag_of x = tag /\ In x (descendants e).
Proof.
  unfold findall. by rewrite <- list_elem_of_In, list_elem_of_filter, list_elem_of_In.
Qed.

Lemma findall_trans tag e d x :
  In d (descendants e) -> In x (findall tag d) -> In x (findall tag e).
Proof.
  rewrite !findall_In. intros Hd [Ht Hx]. split; [done|].
  by eapply descendants_trans.
Qed.

Lemma nested_in_findall entry d :
  In d (nested_loadout_entries entry) -> In d (findall ENTRY entry).
Proof.
  unfold nested_loadout_entries. intros H.
  apply in_flat_map in H as (l & Hl & H).
  apply in_flat_map in H as (m & Hm & H).
  apply in_flat_map in H as (es & Hes & H).
  apply findall_descendant in Hl, Hm, Hes.
  eapply findall_trans; [|exact H].
  eauto using descendants_trans.
Qed.

Lemma walk_sound_entries entry : forall depth pair,
  In pair (parse_loadout_entry entry depth) ->
  In pair (own_weapon entry) \/
  exists node, In node (findall ENTRY entry) /\ In pair (own_weapon node).
Proof.
  induction entry as [entry IH] using walk_ind. intros depth pair Hin.
  rewrite parse_loadout_entry_unfold in Hin.
  apply in_app_or in Hin as [Hin|Hin]; [by left|]. right.
  assert (Hsub : exists sub, In sub (findall ENTRY entry) /\
                             In pair (parse_loadout_entry sub (S depth))).
  { apply in_app_or in Hin as [Hin|Hin];
      apply in_flat_map in Hin as (sub & Hsub & Hin); exists sub; split; try done.
    by apply nested_in_findall. }
  destruct Hsub as (sub & Hsub & Hin').
  destruct (IH sub (findall_height _ _ _ Hsub) _ _ Hin') as [Hown|(node & Hnode & Hown)].
  - by exists sub.
  - exists node. split; [|done].
    eapply findall_trans; [|exact Hnode]. by eapply findall_descendant.
Qed.

(** X16: the pairs [parse_loadout_entry] returns are exactly the weapon
    of the entry itself and the weapons of the loadout entries below it,
    at any depth (only how often a pair occurs depends on the
    nesting). *)
Theorem walk_result_is_exact entry depth pair :
  In pair (parse_loadout_entry entry depth) <->
  In pair (own_weapon entry) \/
  exists node, In node (findall ENTRY entry) /\ In pair (own_weapon node).
Proof.
  split; [apply walk_sound_entries|].
  intros [Hown|(node & Hnode & Hown)].
  - rewrite parse_loadout_entry_unfold. apply in_or_app. by left.
  - by eapply walk_complete.
Qed.

Lemma collect_weapons_In nested_weapons w :
  In w (collect_weapons nested_weapons) ->
  w ≠ "" /\ exists port_name, In (port_name, w) nested_weapons.
Proof.
  unfold collect_weapons.
  assert (H : forall acc,
     In w (fold_left
       (fun weapons '(_, weapon) =>
          if negb (String.eqb weapon "") && negb (existsb (String.eqb weapon) weapons)
          then weapons ++ [weapon] else weapons) nested_weapons acc) ->
     In w acc \/ (w ≠ "" /\ exists port_name, In (port_name, w) nested_weapons)).
  { induction nested_weapons as [|[p w'] l IH]; intros acc Hin; [by left|].
    simpl in Hin. apply IH in Hin as [Hin|(Hne & p' & Hin)].
    - destruct (String.eqb_spec w' "") as [|Hne]; simpl in Hin; [by left|].
      destruct (existsb (String.eqb w') acc); simpl in Hin; [by left|].
      apply in_app_or in Hin as [Hin|[<-|[]]]; [by left|].
      right. split; [done|]. exists p. by left.
    - right. split; [done|]. exists p'. by right. }
  intros Hin. by destruct (H [] Hin) as [[]|?].
Qed.

Lemma add_loadout_lookup loadouts entry port weapons :
  add_loadout loadouts entry !! port = Some weapons ->
  loadouts !! port = Some weapons \/
  (port = PyStr.lower (get_attr entry "itemPortName") /\
   is_weapon_hardpoint port = true /\
   weapons ≠ [] /\ NoDup weapons /\
   forall w, In w weapons ->
     exists node,
       In node (entry :: findall ENTRY entry) /\
       w = PyStr.lower (get_attr node "entityClassName") /\
       is_weapon_class (get_attr node "entityClassName") = true).
Proof.
  unfold add_loadout.
  fold (is_weapon_hardpoint (PyStr.lower (get_attr entry "itemPortName"))).
  destruct (is_weapon_hardpoint (PyStr.lower (get_attr entry "itemPortName"))) eqn:Hhp;
    simpl; [|by left].
  set (direct := negb (String.eqb (get_attr entry "entityClassName") "")
                 && is_weapon_class (get_attr entry "entityClassName")).
  assert (Hws : forall ws,
    ws = (if direct then [PyStr.lower (get_attr entry "entityClassName")]
          else collect_weapons (parse_loadout_entry entry 0)) ->
    NoDup ws /\
    forall w, In w ws ->
      exists node,
        In node (entry :: findall ENTRY entry) /\
        w = PyStr.lower (get_attr node "entityClassName") /\
        is_weapon_class (get_attr node "entityClassName") = true).
  { intros ws ->. destruct direct eqn:Hd.
    - split; [apply NoDup_singleton|]. intros w [<-|[]].
      exists entry. split; [by left|]. split; [done|].
      subst direct. by apply andb_prop in Hd as [_ ?].
    - split; [apply collect_weapons_NoDup|]. intros w Hw.
      apply collect_weapons_In in Hw as (_ & p & Hin).
      apply walk_sound_entries in Hin as [Hown|(node & Hnode & Hown)].
      + apply own_weapon_In in Hown as [[= _ ->] Hwc]. exists entry.
        split; [by left | done].
      + apply own_weapon_In in Hown as [[= _ ->] Hwc]. exists node.
        split; [by right | done]. }
  match goal with
  | |- context [if ?c2 then collect_weapons ?l else collect_weapons ?l] =>
      replace (if c2 then collect_weapons l else collect_weapons l)
        with (collect_weapons l) by (by destruct c2)
  end.
  destruct (Hws _ eq_refl) as [Hnd Hall]. clear Hws.
  destruct (if direct then [PyStr.lower (get_attr entry "entityClassName")]
            else collect_weapons (parse_loadout_entry entry 0)) as [|w ws];
    [by left|].
  rewrite lookup_insert. case_decide as Hp; [|by left].
  intros [= <-]. right. by subst port.
Qed.

(** X17: whatever [extract_ship_loadout] records for a port is recorded
    for a weapon hardpoint; the list is not empty and has no weapon
    twice; it comes from a loadout entry with that port, and each of its
    weapons is the lowered class name of that entry or of an entry below
    it, a name [is_weapon_class] accepts. *)
Theorem loadouts_hold_weapons_of_weapon_hardpoints root port weapons :
  extract_ship_loadout (Some root) !! port = Some weapons ->
  is_weapon_hardpoint port = true /\
  weapons ≠ [] /\ NoDup weapons /\
  exists entry,
    In entry (findall ENTRY root) /\
    port = PyStr.lower (get_attr entry "itemPortName") /\
    forall w, In w weapons ->
      exists node,
        In node (entry :: findall ENTRY entry) /\
        w = PyStr.lower (get_attr node "entityClassName") /\
        is_weapon_class (get_attr node "entityClassName") = true.
Proof.
  unfold extract_ship_loadout.
  assert (H : forall entries loadouts,
    fold_left add_loadout entries loadouts !! port = Some weapons ->
    loadouts !! port = Some weapons \/
    (is_weapon_hardpoint port = true /\ weapons ≠ [] /\ NoDup weapons /\
     exists entry, In entry entries /\
       port = PyStr.lower (get_attr entry "itemPortName") /\
       forall w, In w weapons ->
         exists node, In node (entry :: findall ENTRY entry) /\
           w = PyStr.lower (get_attr node "entityClassName") /\
           is_weapon_class (get_attr node "entityClassName") = true)).
  { induction entries as [|entry entries IH]; intros loadouts Hl; [by left|].
    simpl in Hl. apply IH in Hl as [Hl|(Hhp & Hne & Hnd & e & Hin & H)].
    - apply add_loadout_lookup in Hl as [Hl|(Hp & Hhp & Hne & Hnd & Hall)]; [by left|].
      right. split; [done|]. split; [done|]. split; [done|].
      exists entry. split; [by left | done].
    - right. split; [done|]. split; [done|]. split; [done|].
      exists e. split; [by right | done]. }
  intros Hl. apply H in Hl as [Hl|Hl]; [by rewrite lookup_empty in Hl | done].
Qed.

Lemma loadouts_hold_weapons_of_weapon_hardpoints_witness :
  is_weapon_hardpoint "hardpoint_turret" = true.
Proof.
  apply (loadouts_hold_weapons_of_weapon_hardpoints
           (Elem "Vehicle" ∅ [turret_sample]) "hardpoint_turret" ["behr_lasercannon_s2"]).
  apply (f_equal (fun o => o)). vm_compute. reflexivity.
Defined.

(** X18: on class names of ASCII characters the three classifiers do
    not depend on the case: two such names that are equal once lowered
    are classified alike. *)
Theorem classification_ignores_case name name' :
  ascii_only name = true -> ascii_only name' = true ->
  PyStr.lower name = PyStr.lower name' ->
  is_weapon_class name = is_weapon_class name' /\
  is_turret_mount name = is_turret_mount name' /\
  is_missile_rack name = is_missile_rack name'.
Proof.
  intros _ _ Hl.
  assert (Hu : PyStr.upper name = PyStr.upper name').
  { by rewrite <- (upper_lower name), Hl, upper_lower. }
  assert (He : String.eqb name "" = String.eqb name' "").
  { by rewrite <- (eqb_empty_lower name), Hl, eqb_empty_lower. }
  unfold is_weapon_class, is_turret_mount, is_missile_rack.
  by rewrite He, Hu, Hl.
Qed.

Lemma classification_ignores_case_witness :
  is_weapon_class "behr_lasercannon_s2" = is_weapon_class "BEHR_LaserCannon_S2" /\
  is_turret_mount "behr_lasercannon_s2" = is_turret_mount "BEHR_LaserCannon_S2" /\
  is_missile_rack "behr_lasercannon_s2" = is_missile_rack "BEHR_LaserCannon_S2".
Proof.
  apply (classification_ignores_case "behr_lasercannon_s2" "BEHR_LaserCannon_S2");
    vm_compute; reflexivity.
Defined.

End WalkMore.

(** ** The loadout update *)

Module LoadoutUpdateFacts.
Import Loadouts LoadoutsRest.

Lemma update_sub_port_again weapons db i sp sp' n :
  update_sub_port weapons db i sp = Some (sp', n) ->
  0 <= n /\ (n = 0 -> sp' = sp) /\ update_sub_port weapons db i sp' = Some (sp', 0).
Proof.
  unfold update_sub_port. destruct sp as [| | | | | |o]; try done.
  destruct (default_weapon_is_none o) eqn:Hc.
  - destruct (weapons !! i) as [w|] eqn:Hw.
    + destruct (bool_decide (is_Some (db !! w))) eqn:Hdb.
      * intros [= <- <-]. split; [lia|]. split; [lia|].
        unfold default_weapon_is_none. by rewrite lookup_insert_eq.
      * intros [= <- <-]. split; [lia|]. split; [done|]. by rewrite Hc.
    + intros [= <- <-]. split; [lia|]. split; [done|]. by rewrite Hc.
  - intros [= <- <-]. split; [lia|]. split; [done|]. by rewrite Hc.
Qed.

Lemma update_sub_ports_again weapons db sps : forall i sps' n,
  update_sub_ports weapons db i sps = Some (sps', n) ->
  0 <= n /\ (n = 0 -> sps' = sps) /\ update_sub_ports weapons db i sps' = Some (sps', 0).
Proof.
  induction sps as [|sp sps IH]; intros i sps' n; simpl.
  - intros [= <- <-]. done.
  - destruct (update_sub_port weapons db i sp) as [[sp1 n1]|] eqn:H1; cbn; [|done].
    destruct (update_sub_ports weapons db (S i) sps) as [[sps1 n2]|] eqn:H2; cbn; [|done].
    intros [= <- <-].
    destruct (update_sub_port_again _ _ _ _ _ _ H1) as (Hn1 & Hz1 & Ha1).
    destruct (IH _ _ _ H2) as (Hn2 & Hz2 & Ha2).
    split; [lia|]. split.
    + intros Hz. rewrite Hz1, Hz2 by lia. done.
    + cbn. rewrite Ha1. cbn. rewrite Ha2. done.
Qed.

Lemma update_hardpoint_again loadouts db hp hp' n :
  update_hardpoint loadouts db hp = Some (hp', n) ->
  0 <= n /\ (n = 0 -> hp' = hp) /\ update_hardpoint loadouts db hp' = Some (hp', 0).
Proof.
  unfold update_hardpoint. destruct hp as [| | | | | |o]; try done.
  destruct (default (JStr "") (o !! "port_name")) as [| | | |port_name| |] eqn:Hp; try done.
  destruct (default [] (loadouts !! PyStr.lower port_name)) as [|w ws] eqn:Hw.
  { intros [= <- <-]. split; [lia|]. split; [done|]. by rewrite Hp, Hw. }
  destruct (o !! "sub_ports") as [j|] eqn:Hs.
  2:{ intros [= <- <-]. split; [lia|]. split; [done|]. by rewrite Hp, Hw, Hs. }
  destruct j as [| | | | |sps|o'];
    try (destruct (iterates_nothing _) eqn:Hi; [|done];
         intros [= <- <-]; split; [lia|]; split; [done|]; by rewrite Hp, Hw, Hs, Hi).
  destruct (update_sub_ports (w :: ws) db 0 sps) as [[sps1 n1]|] eqn:H1; cbn; [|done].
  intros [= <- <-].
  destruct (update_sub_ports_again _ _ _ _ _ _ H1) as (Hn1 & Hz1 & Ha1).
  split; [done|]. split.
  - intros Hz. rewrite Hz1 by done. f_equal. by apply insert_id.
  - rewrite lookup_insert_ne by done. rewrite Hp, Hw, lookup_insert_eq, Ha1. cbn.
    by rewrite insert_insert_eq.
Qed.

Lemma update_hardpoints_again loadouts db hps : forall hps' n,
  update_hardpoints loadouts db hps = Some (hps', n) ->
  0 <= n /\ (n = 0 -> hps' = hps) /\ update_hardpoints loadouts db hps' = Some (hps', 0).
Proof.
  induction hps as [|hp hps IH]; intros hps' n; simpl.
  - intros [= <- <-]. done.
  - destruct (update_hardpoint loadouts db hp) as [[hp1 n1]|] eqn:H1; cbn; [|done].
    destruct (update_hardpoints loadouts db hps) as [[hps1 n2]|] eqn:H2; cbn; [|done].
    intros [= <- <-].
    destruct (update_hardpoint_again _ _ _ _ _ H1) as (Hn1 & Hz1 & Ha1).
    destruct (IH _ _ eq_refl) as (Hn2 & Hz2 & Ha2).
    split; [lia|]. split.
    + intros Hz. rewrite Hz1, Hz2 by lia. done.
    + cbn. rewrite Ha1. cbn. rewrite Ha2. done.
Qed.

Lemma update_ship_again ship_data loadouts db ship_data' updated :
  update_ship_with_loadout ship_data loadouts db = Some (ship_data', updated) ->
  0 <= updated /\ (updated = 0 -> ship_data' = ship_data) /\
  update_ship_with_loadout ship_data' loadouts db = Some (ship_data', 0).
Proof.
  unfold update_ship_with_loadout.
  destruct (ship_data !! "weapon_hardpoints") as [j|] eqn:Hw.
  2:{ intros [= <- <-]. split; [lia|]. split; [done|]. by rewrite Hw. }
  destruct j as [| | | | |hps|o'];
    try (destruct (iterates_nothing _) eqn:Hi; [|done];
         intros [= <- <-]; split; [lia|]; split; [done|]; by rewrite Hw, Hi).
  destruct (update_hardpoints loadouts db hps) as [[hps1 n1]|] eqn:H1; cbn; [|done].
  intros [= <- <-].
  destruct (update_hardpoints_again _ _ _ _ _ H1) as (Hn1 & Hz1 & Ha1).
  split; [done|]. split.
  - intros Hz. rewrite Hz1 by done. by apply insert_id.
  - rewrite lookup_insert_eq, Ha1. cbn. by rewrite insert_insert_eq.
Qed.

(** X19: [update_ship_with_loadout] is idempotent: a call that returns
    0 has changed nothing, and after any completed call a second call
    with the same loadouts and database changes nothing and returns 0,
    so [main] saves nothing. *)
Theorem loadout_update_is_idempotent ship_data loadouts weapons_db ship_data' updated :
  update_ship_with_loadout ship_data loadouts weapons_db = Some (ship_data', updated) ->
  0 <= updated /\
  (updated = 0 -> ship_data' = ship_data) /\
  update_ship_with_loadout ship_data' loadouts weapons_db = Some (ship_data', 0) /\
  saved_after_update ship_data' loadouts weapons_db = None.
Proof.
  intros H. destruct (update_ship_again _ _ _ _ _ H) as (Hn & Hz & Ha).
  split; [done|]. split; [done|]. split; [done|].
  unfold saved_after_update. by rewrite Ha.
Qed.

Lemma sample_update_succeeds :
  exists ship_data',
    update_ship_with_loadout loadout_sample_ship loadout_sample weapons_sample
    = Some (ship_data', 1).
Proof.
  destruct (update_ship_with_loadout loadout_sample_ship loadout_sample weapons_sample)
    as [[ship_data' updated]|] eqn:Hu.
  - exists ship_data'. f_equal. f_equal.
    apply (f_equal (fun o => match o with Some (_, n) => n | None => 0 end)) in Hu.
    vm_compute in Hu. by subst.
  - apply (f_equal (fun o => match o with Some _ => true | None => false end)) in Hu.
    vm_compute in Hu. discriminate Hu.
Qed.

Lemma loadout_update_is_idempotent_witness :
  exists ship_data',
    update_ship_with_loadout loadout_sample_ship loadout_sample weapons_sample
    = Some (ship_data', 1) /\
    update_ship_with_loadout ship_data' loadout_sample weapons_sample = Some (ship_data', 0) /\
    saved_after_update ship_data' loadout_sample weapons_sample = None.
Proof.
  destruct sample_update_succeeds as (ship_data' & Hu).
  exists ship_data'. split; [exact Hu|].
  exact (proj2 (proj2 (loadout_update_is_idempotent _ _ _ _ _ Hu))).
Defined.

Lemma update_sub_port_cases weapons db i sp sp' n :
  update_sub_port weapons db i sp = Some (sp', n) ->
  exists o, sp = JObj o /\
    ((sp' = sp /\ n = 0) \/
     (default_weapon_is_none o = true /\ n = 1 /\
      exists weapon_id, weapons !! i = Some weapon_id /\ is_Some (db !! weapon_id) /\
        sp' = JObj (<["default_weapon" := JStr weapon_id]> o))).
Proof.
  unfold update_sub_port. destruct sp as [| | | | | |o]; try done.
  intros H. exists o. split; [done|].
  destruct (default_weapon_is_none o) eqn:Hd; [|left; by injection H as <- <-].
  destruct (weapons !! i) as [w|] eqn:Hw; [|left; by injection H as <- <-].
  destruct (bool_decide (is_Some (db !! w))) eqn:Hdb; [|left; by injection H as <- <-].
  injection H as <- <-. right. split; [done|]. split; [done|].
  exists w. split; [done|]. split; [|done]. by apply bool_decide_eq_true in Hdb.
Qed.

Lemma update_sub_ports_cases weapons db sps : forall i sps' n,
  update_sub_ports weapons db i sps = Some (sps', n) ->
  length sps' = length sps /\
  forall k sp', sps' !! k = Some sp' ->
    exists o, sps !! k = Some (JObj o) /\
      (sp' = JObj o \/
       (default_weapon_is_none o = true /\
        exists weapon_id, weapons !! (i + k)%nat = Some weapon_id /\
          is_Some (db !! weapon_id) /\
          sp' = JObj (<["default_weapon" := JStr weapon_id]> o))).
Proof.
  induction sps as [|sp sps IH]; intros i sps' n; simpl.
  - intros [= <- <-]. split; [done|]. intros k sp'. by rewrite lookup_nil.
  - destruct (update_sub_port weapons db i sp) as [[sp1 n1]|] eqn:H1; cbn; [|done].
    destruct (update_sub_ports weapons db (S i) sps) as [[sps1 n2]|] eqn:H2; cbn; [|done].
    intros [= <- <-].
    destruct (IH _ _ _ H2) as (Hlen & Hk). split; [simpl; by rewrite Hlen|].
    intros [|k] sp'; simpl.
    + intros [= <-]. apply update_sub_port_cases in H1 as (o & -> & [[-> _]|(Hd & _ & w & Hw & Hdb & ->)]).
      * exists o. split; [done|]. by left.
      * exists o. split; [done|]. right. split; [done|]. exists w.
        by rewrite Nat.add_0_r.
    + intros Hl. destruct (Hk _ _ Hl) as (o & Ho & Hc). exists o. split; [done|].
      by rewrite <- Nat.add_succ_comm.
Qed.

(** X20: the loop over the sub-ports keeps their number and never
    overwrites a default weapon: a sub-port either stays as it is, or
    had no default weapon ([None] or absent) and gets the weapon at its
    own index of the loadout, a weapon of the database. *)
Theorem filled_sub_ports_are_kept weapons weapons_db sub_ports sub_ports' n :
  update_sub_ports weapons weapons_db 0 sub_ports = Some (sub_ports', n) ->
  length sub_ports' = length sub_ports /\
  forall i sp', sub_ports' !! i = Some sp' ->
    exists o, sub_ports !! i = Some (JObj o) /\
      (sp' = JObj o \/
       (default_weapon_is_none o = true /\
        exists weapon_id, weapons !! i = Some weapon_id /\
          is_Some (weapons_db !! weapon_id) /\
          sp' = JObj (<["default_weapon" := JStr weapon_id]> o))).
Proof.
  intros H. exact (update_sub_ports_cases _ _ _ _ _ _ H).
Qed.

Lemma filled_sub_ports_are_kept_witness :
  length sub_ports_sample_updated = length sub_ports_sample.
Proof.
  apply (proj1 (filled_sub_ports_are_kept
                  ["behr_laserrepeater_s3"; "klwe_lasercannon_s3"] weapons_sample
                  sub_ports_sample sub_ports_sample_updated 1
                  ltac:(vm_compute; reflexivity))).
Defined.

End LoadoutUpdateFacts.

(** ** The recorded missiles *)

Module MissileMore.
Import Missiles MissilesRest MissileFacts StringFacts.

Lemma take_digits_digits s :
  Forall (fun c => PyStr.is_digit c = true) (list_ascii_of_string (take_digits s)).
Proof.
  induction s as [|c s IH]; simpl; [constructor|].
  destruct (PyStr.is_digit c) eqn:Hc; simpl; by constructor.
Qed.

Lemma is_digit_value c : PyStr.is_digit c = true -> 0 <= Z.of_nat (nat_of_ascii c) - 48 <= 9.
Proof.
  unfold PyStr.is_digit. cbv zeta. intros [H1 H2]%andb_prop.
  apply Nat.leb_le in H1, H2. lia.
Qed.

Lemma digits_fold_nonneg l : forall n,
  Forall (fun c => PyStr.is_digit c = true) l -> 0 <= n ->
  0 <= fold_left (fun n c => 10 * n + (Z.of_nat (nat_of_ascii c) - 48)) l n.
Proof.
  induction l as [|c l IH]; intros n Hd Hn; simpl; [done|].
  inversion Hd as [|? ? Hc Hl]; subst. apply IH; [done|].
  apply is_digit_value in Hc. lia.
Qed.

Lemma int_of_digits_nonneg digits :
  Forall (fun c => PyStr.is_digit c = true) (list_ascii_of_string digits) ->
  0 <= int_of_digits digits.
Proof.
  intros Hd. by apply digits_fold_nonneg.
Qed.

Lemma misl_size_nonneg sub_entity n : misl_size sub_entity = Some n -> 0 <= n.
Proof.
  induction sub_entity as [|c s IH]; [done|].
  cbn [misl_size].
  destruct (PyStr.startswith (PyStr.upper (String c s)) "MISL_S"); [|exact IH].
  destruct (take_digits (drop_chars 6 (String c s))) as [|d ds] eqn:Hd; [exact IH|].
  intros [= <-]. apply int_of_digits_nonneg. rewrite <- Hd. apply take_digits_digits.
Qed.

Lemma upper_prefix_lower s :
  PyStr.startswith (PyStr.upper s) "MISL_" = true ->
  PyStr.startswith (PyStr.lower s) "misl_" = true.
Proof.
  intros H%startswith_lower. by rewrite lower_upper in H.
Qed.

Lemma add_rack_nonempty missile_loadouts entry :
  map_Forall (fun _ missiles => missiles ≠ []) missile_loadouts ->
  map_Forall (fun (_ : string) (missiles : list (Z * string)) => missiles ≠ [])
    (add_rack missile_loadouts entry).
Proof.
  intros Hm. unfold add_rack.
  destruct (branch_of _ _); [| |done].
  - destruct (rack_missiles 2 entry) eqn:Hr; [done|]. by apply map_Forall_insert_2.
  - destruct (rack_missiles 5 entry) eqn:Hr; [done|]. by apply map_Forall_insert_2.
Qed.

Lemma fold_add_rack_nonempty entries : forall missile_loadouts,
  map_Forall (fun _ missiles => missiles ≠ []) missile_loadouts ->
  map_Forall (fun (_ : string) (missiles : list (Z * string)) => missiles ≠ [])
    (fold_left add_rack entries missile_loadouts).
Proof.
  induction entries as [|e entries IH]; intros m Hm; [done|].
  simpl. by apply IH, add_rack_nonempty.
Qed.

(** X21: for a ship file whose class names are of ASCII characters,
    every list [extract_missiles_from_xml] records is non-empty and
    stored under a lower-case port name; each of its missiles has a size
    that is not negative and a lower-case name that starts with
    [misl_]. *)
Theorem recorded_missiles_are_well_formed root port missiles :
  ascii_class_names root ->
  extract_missiles_from_xml (Some root) !! port = Some missiles ->
  missiles ≠ [] /\
  PyStr.lower port = port /\
  Forall (fun m : Z * string =>
            0 <= m.1 /\ PyStr.startswith m.2 "misl_" = true /\ PyStr.lower m.2 = m.2)
         missiles.
Proof.
  intros _. simpl. intros Hl. split; [|split].
  - eapply (fold_add_rack_nonempty _ ∅); [|exact Hl]. apply map_Forall_empty.
  - apply fold_add_rack_lookup in Hl as [Hl|(entry & _ & <- & _)].
    + by rewrite lookup_empty in Hl.
    + apply lower_idem.
  - apply fold_add_rack_lookup in Hl as [Hl|(entry & _ & _ & _ & ->)].
    + by rewrite lookup_empty in Hl.
    + apply Forall_forall. intros [size name] Hin. apply list_elem_of_In in Hin.
      apply rack_missiles_sizes in Hin as (sub_entity & -> & Hp & ->). simpl.
      split; [|split].
      * destruct (misl_size sub_entity) as [n|] eqn:Hs; [|lia]. by eapply misl_size_nonneg.
      * by apply upper_prefix_lower.
      * apply lower_idem.
Qed.

Lemma recorded_missiles_are_well_formed_witness :
  Forall (fun m : Z * string =>
            0 <= m.1 /\ PyStr.startswith m.2 "misl_" = true /\ PyStr.lower m.2 = m.2)
         [(2, "misl_torpedo_argos"); (9, "misl_s09_cs_taln_argos")].
Proof.
  apply (proj2 (proj2 (recorded_missiles_are_well_formed torpedo_sample
           "hardpoint_torpedo_rack_left"
           [(2, "misl_torpedo_argos"); (9, "misl_s09_cs_taln_argos")]
           ltac:(unfold ascii_class_names; apply (bool_decide_unpack _); by vm_compute)
           ltac:(vm_compute; reflexivity)))).
Defined.

End MissileMore.

(** ** The missile fix *)

Module MissileFixFacts.
Import Missiles MissilesRest.

Lemma new_sub_port_any weapons_db m : new_sub_port weapons_db m = JObj (sub_port_of m).
Proof. unfold new_sub_port. by destruct (bool_decide _). Qed.

Lemma sub_port_eq_refl weapons_db m : sub_port_eq m (new_sub_port weapons_db m) = true.
Proof.
  rewrite new_sub_port_any. unfold sub_port_eq, sub_port_of.
  rewrite lookup_insert_eq, lookup_insert_ne, lookup_insert_eq by done.
  rewrite map_size_insert_None by (by rewrite lookup_insert_ne).
  rewrite map_size_insert_None by done. rewrite map_size_empty.
  simpl. rewrite Z.eqb_refl, String.eqb_refl. done.
Qed.

Lemma sub_ports_eq_refl weapons_db missiles :
  sub_ports_eq missiles (JArr (map (new_sub_port weapons_db) missiles)) = true.
Proof.
  simpl. induction missiles as [|m ms IH]; simpl; [done|].
  by rewrite sub_port_eq_refl, IH.
Qed.

Lemma fix_hardpoint_again missile_loadouts db hp hp' n :
  fix_hardpoint missile_loadouts db hp = Some (hp', n) ->
  0 <= n /\ (n = 0 -> hp' = hp) /\ fix_hardpoint missile_loadouts db hp' = Some (hp', 0).
Proof.
  unfold fix_hardpoint. destruct hp as [| | | | | |o]; try done.
  destruct (default (JStr "") (o !! "port_name")) as [| | | |port_name| |] eqn:Hp; try done.
  destruct (missile_loadouts !! PyStr.lower port_name) as [missiles|] eqn:Hm.
  2:{ intros [= <- <-]. split; [lia|]. split; [done|]. by rewrite Hp, Hm. }
  cbv zeta.
  destruct (negb (bool_decide (map (new_sub_port db) missiles = []))
            && negb (sub_ports_eq missiles (default (JArr []) (o !! "sub_ports")))) eqn:Hc.
  2:{ intros [= <- <-]. split; [lia|]. split; [done|]. by rewrite Hp, Hm, Hc. }
  destruct (has_len _); [|done].
  intros [= <- <-]. split; [lia|]. split.
  - intros Hz. apply andb_prop in Hc as [Hc _]. apply negb_true_iff in Hc.
    apply bool_decide_eq_false in Hc. destruct missiles; [done|]. simpl in Hz. lia.
  - rewrite lookup_insert_ne by done. rewrite Hp, Hm, lookup_insert_eq. simpl default.
    rewrite sub_ports_eq_refl. by rewrite andb_false_r.
Qed.

Lemma fix_hardpoints_again missile_loadouts db hps : forall hps' n,
  fix_hardpoints missile_loadouts db hps = Some (hps', n) ->
  0 <= n /\ (n = 0 -> hps' = hps) /\ fix_hardpoints missile_loadouts db hps' = Some (hps', 0).
Proof.
  induction hps as [|hp hps IH]; intros hps' n; simpl.
  - intros [= <- <-]. done.
  - destruct (fix_hardpoint missile_loadouts db hp) as [[hp1 n1]|] eqn:H1; cbn; [|done].
    destruct (fix_hardpoints missile_loadouts db hps) as [[hps1 n2]|] eqn:H2; cbn; [|done].
    intros [= <- <-].
    destruct (fix_hardpoint_again _ _ _ _ _ H1) as (Hn1 & Hz1 & Ha1).
    destruct (IH _ _ eq_refl) as (Hn2 & Hz2 & Ha2).
    split; [lia|]. split.
    + intros Hz. rewrite Hz1, Hz2 by lia. done.
    + cbn. rewrite Ha1. cbn. rewrite Ha2. done.
Qed.

(** X22: the missile fix of [main] is idempotent: a round that counts 0
    has changed nothing, and after any completed round a second round
    with the same loadouts changes nothing and counts 0, so nothing is
    written. *)
Theorem missile_fix_is_idempotent ship_data missile_loadouts weapons_db ship_data' fixed :
  fix_ship ship_data missile_loadouts weapons_db = Some (ship_data', fixed) ->
  0 <= fixed /\
  (fixed = 0 -> ship_data' = ship_data) /\
  fix_ship ship_data' missile_loadouts weapons_db = Some (ship_data', 0) /\
  saved_after_fix ship_data' missile_loadouts weapons_db = None.
Proof.
  intros H.
  assert (0 <= fixed /\ (fixed = 0 -> ship_data' = ship_data) /\
          fix_ship ship_data' missile_loadouts weapons_db = Some (ship_data', 0))
    as (Hn & Hz & Ha).
  { revert H. unfold fix_ship.
    destruct (ship_data !! "weapon_hardpoints") as [j|] eqn:Hw.
    2:{ intros [= <- <-]. split; [lia|]. split; [done|]. by rewrite Hw. }
    destruct j as [| | | | |hps|o'];
      try (destruct (LoadoutsRest.iterates_nothing _) eqn:Hi; [|done];
           intros [= <- <-]; split; [lia|]; split; [done|]; by rewrite Hw, Hi).
    destruct (fix_hardpoints missile_loadouts weapons_db hps) as [[hps1 n1]|] eqn:H1;
      cbn; [|done].
    intros [= <- <-].
    destruct (fix_hardpoints_again _ _ _ _ _ H1) as (Hn1 & Hz1 & Ha1).
    split; [done|]. split.
    - intros Hz. rewrite Hz1 by done. by apply insert_id.
    - rewrite lookup_insert_eq, Ha1. cbn. by rewrite insert_insert_eq. }
  split; [done|]. split; [done|]. split; [done|].
  unfold saved_after_fix. by rewrite Ha.
Qed.

Lemma sample_fix_succeeds :
  exists ship_data',
    fix_ship missile_sample_ship missile_sample_loadouts ∅ = Some (ship_data', 2).
Proof.
  destruct (fix_ship missile_sample_ship missile_sample_loadouts ∅)
    as [[ship_data' fixed]|] eqn:Hu.
  - exists ship_data'. f_equal. f_equal.
    apply (f_equal (fun o => match o with Some (_, n) => n | None => 0 end)) in Hu.
    vm_compute in Hu. by subst.
  - apply (f_equal (fun o => match o with Some _ => true | None => false end)) in Hu.
    vm_compute in Hu. discriminate Hu.
Qed.

Lemma missile_fix_is_idempotent_witness :
  exists ship_data',
    fix_ship missile_sample_ship missile_sample_loadouts ∅ = Some (ship_data', 2) /\
    fix_ship ship_data' missile_sample_loadouts ∅ = Some (ship_data', 0) /\
    saved_after_fix ship_data' missile_sample_loadouts ∅ = None.
Proof.
  destruct sample_fix_succeeds as (ship_data' & Hu).
  exists ship_data'. split; [exact Hu|].
  exact (proj2 (proj2 (missile_fix_is_idempotent _ _ _ _ _ Hu))).
Defined.

(** X23: the weapons database has no influence on the missile fix:
    either the hardpoint is left as it is and nothing is counted, or its
    [sub_ports] become one slot for every missile of the XML, in order,
    each with the size and the name of the missile, the number of
    missiles is counted, and every other field is kept. *)
Theorem missile_fix_replaces_sub_ports missile_loadouts weapons_db o hp' n :
  fix_hardpoint missile_loadouts weapons_db (JObj o) = Some (hp', n) ->
  fix_hardpoint missile_loadouts ∅ (JObj o) = Some (hp', n) /\
  exists port_name,
    default (JStr "") (o !! "port_name") = JStr port_name /\
    ((hp' = JObj o /\ n = 0) \/
     exists missiles,
       missile_loadouts !! PyStr.lower port_name = Some missiles /\
       missiles ≠ [] /\
       n = Z.of_nat (length missiles) /\
       hp' = JObj (<["sub_ports" := JArr (map (fun m => JObj (sub_port_of m)) missiles)]> o)).
Proof.
  unfold fix_hardpoint.
  destruct (default (JStr "") (o !! "port_name")) as [| | | |port_name| |] eqn:Hp; try done.
  destruct (missile_loadouts !! PyStr.lower port_name) as [missiles|] eqn:Hm.
  2:{ intros [= <- <-]. split; [done|]. exists port_name. split; [done|]. by left. }
  cbv zeta.
  assert (map (new_sub_port weapons_db) missiles = map (fun m => JObj (sub_port_of m)) missiles)
    as ->.
  { apply map_ext. intros m. apply new_sub_port_any. }
  assert (map (new_sub_port ∅) missiles = map (fun m => JObj (sub_port_of m)) missiles)
    as ->.
  { apply map_ext. intros m. apply new_sub_port_any. }
  intros H. split; [done|]. exists port_name. split; [done|]. revert H.
  destruct (negb (bool_decide (map (fun m => JObj (sub_port_of m)) missiles = []))
            && negb (sub_ports_eq missiles (default (JArr []) (o !! "sub_ports")))) eqn:Hc.
  2:{ intros [= <- <-]. by left. }
  destruct (has_len _); [|done].
  intros [= <- <-]. right. exists missiles. split; [done|]. split.
  - intros ->. done.
  - by rewrite length_map.
Qed.

Lemma missile_fix_replaces_sub_ports_witness :
  fix_hardpoint missile_sample_loadouts ∅ (JObj missile_sample_fields)
  = Some (missile_sample_fixed, 2).
Proof.
  apply (proj1 (missile_fix_replaces_sub_ports missile_sample_loadouts missile_sample_db
                  missile_sample_fields missile_sample_fixed 2
                  ltac:(vm_compute; reflexivity))).
Defined.

End MissileFixFacts.

(** ** Display names *)

Module ShipNameFacts.
Import ShipNames.

Lemma contains_underscore_cons c s :
  ("_" in_str String c s) = Ascii.eqb "_" c || ("_" in_str s).
Proof.
  change ("_" in_str String c s)
    with (Ascii.eqb "_" c && PyStr.startswith s "" || ("_" in_str s)).
  by destruct s; rewrite andb_true_r.
Qed.

Lemma contains_underscore_append a b :
  ("_" in_str (a ++ b)%string) = ("_" in_str a) || ("_" in_str b).
Proof.
  induction a as [|c a IH]; [by destruct b|].
  change ((String c a ++ b)%string) with (String c (a ++ b)%string).
  by rewrite !contains_underscore_cons, IH, orb_assoc.
Qed.

Lemma split_on_parts s :
  ("_" in_str (split_on "_" s).1) = false /\
  Forall (fun part => ("_" in_str part) = false) (split_on "_" s).2.
Proof.
  induction s as [|c s [IH1 IH2]]; [by split|].
  simpl split_on. destruct (split_on "_" s) as [part parts]. cbn [fst snd] in IH1, IH2.
  destruct (Ascii.eqb c "_") eqn:Hc; cbn [fst snd].
  - split; [done|]. by constructor.
  - split; [|done]. rewrite contains_underscore_cons, IH1.
    rewrite Ascii.eqb_sym, Hc. done.
Qed.

Lemma split_on_single s : (split_on "_" s).2 = [] -> ("_" in_str s) = false.
Proof.
  induction s as [|c s IH]; [done|].
  simpl split_on. destruct (split_on "_" s) as [part parts]. simpl in IH.
  destruct (Ascii.eqb c "_") eqn:Hc; [done|].
  cbn [fst snd] in *. intros Hp. rewrite contains_underscore_cons, IH by done.
  by rewrite Ascii.eqb_sym, Hc.
Qed.

Lemma split_on_none s : ("_" in_str s) = false -> split_on "_" s = (s, []).
Proof.
  induction s as [|c s IH]; [done|].
  rewrite contains_underscore_cons. intros [Hc Hs]%orb_false_elim.
  simpl split_on. rewrite IH by done. by rewrite Ascii.eqb_sym, Hc.
Qed.

Lemma replace_nothing s : ("_" in_str s) = false -> PyStr.replace s "_" " " = s.
Proof.
  unfold PyStr.replace. induction s as [|c s IH]; [done|].
  rewrite contains_underscore_cons. intros [Hc Hs]%orb_false_elim.
  cbn [PyStr.replace_from PyStr.startswith]. rewrite Hc. cbn [andb]. by rewrite IH.
Qed.

Lemma concat_no_underscore parts :
  Forall (fun part => ("_" in_str part) = false) parts ->
  ("_" in_str String.concat " " parts) = false.
Proof.
  induction 1 as [|part parts Hp Hps IH]; [done|].
  simpl. destruct parts as [|part' parts]; [done|].
  rewrite !contains_underscore_append, Hp, IH. done.
Qed.

Lemma split_camel_no_underscore s :
  ("_" in_str split_camel s) = ("_" in_str s).
Proof.
  induction s as [|a s IH]; [done|].
  destruct s as [|b s]; [done|].
  cbn [split_camel] in *.
  destruct (PyStr.is_lower a && PyStr.is_upper b).
  - by rewrite !(contains_underscore_cons a), (contains_underscore_cons " "), IH.
  - by rewrite !(contains_underscore_cons a), IH.
Qed.

Lemma upper_char_underscore c : Ascii.eqb "_" (PyStr.upper_char c) = Ascii.eqb "_" c.
Proof. destruct c as [[] [] [] [] [] [] [] []]; reflexivity. Qed.

Lemma upper_no_underscore s : ("_" in_str PyStr.upper s) = ("_" in_str s).
Proof.
  induction s as [|c s IH]; [done|].
  change (PyStr.upper (String c s)) with (String (PyStr.upper_char c) (PyStr.upper s)).
  by rewrite !contains_underscore_cons, IH, upper_char_underscore.
Qed.

Lemma dict_get_In {V} (d : odict V) k v : dict_get d k = Some v -> In v (map snd d).
Proof.
  induction d as [|[k' v'] d IH]; [done|]. simpl.
  destruct (String.eqb k' k); [intros [= <-]; by left|]. intros H. right. by apply IH.
Qed.

Lemma manufacturer_no_underscore mfr_code mfr_name :
  dict_get MANUFACTURERS mfr_code = Some mfr_name -> ("_" in_str mfr_name) = false.
Proof.
  intros H%dict_get_In.
  assert (Forall (fun name => ("_" in_str name) = false) (map snd MANUFACTURERS)) as Hall.
  { unfold MANUFACTURERS. simpl map. repeat constructor. }
  rewrite Forall_forall in Hall. apply Hall. by apply list_elem_of_In.
Qed.

(** X24: the display name [parse_ship_name] gives never holds an
    underscore, and a name without underscore is returned as it is (the
    final [replace] has nothing to replace). *)
Theorem display_name_has_no_underscore raw_name :
  ("_" in_str parse_ship_name raw_name) = false /\
  (("_" in_str raw_name) = false -> parse_ship_name raw_name = raw_name).
Proof.
  unfold parse_ship_name. split.
  - destruct (String.eqb raw_name "") eqn:He; [by apply String.eqb_eq in He as ->|].
    pose proof (split_on_parts raw_name) as [H1 H2].
    pose proof (split_on_single raw_name) as H3.
    destruct (split_on "_" raw_name) as [first rest]. simpl in H1, H2, H3.
    destruct rest as [|part rest].
    + change (2 <=? length [first])%nat with false. cbv iota.
      rewrite replace_nothing; by apply H3.
    + change (2 <=? length (first :: part :: rest))%nat with true. cbv iota zeta.
      rewrite !contains_underscore_append, split_camel_no_underscore.
      rewrite concat_no_underscore by done.
      destruct (dict_get MANUFACTURERS (PyStr.upper first)) as [mfr_name|] eqn:Hm; simpl.
      * by rewrite (manufacturer_no_underscore _ _ Hm).
      * by rewrite upper_no_underscore, H1.
  - intros Hn. destruct (String.eqb raw_name ""); [done|].
    rewrite split_on_none by done.
    change (2 <=? length [raw_name])%nat with false. by apply replace_nothing.
Qed.

End ShipNameFacts.
